(** * The workflow-state resource of the Linear Terraform provider

    A shallow embedding of [internal/provider/resource_workflow_state.go]:
    the schema of the resource, its five lifecycle methods ([Create],
    [Read], [Update], [Delete], [ImportState]) and the library routines
    they call, followed by the properties of the handler.

    The remote GraphQL client is an opaque collaborator: it is a record of
    transition functions over an arbitrary world type, and every call a
    handler makes is recorded in a trace. *)

From Stdlib Require Import ZArith Lia Bool List Ascii String.
From stdpp Require Import base option list gmap strings.

Import ListNotations.
Open Scope string_scope.
Open Scope list_scope.
Open Scope Z_scope.

(** ** Go runtime: a call returns, or the goroutine panics *)

Inductive Exec (A : Type) : Type :=
| Returned (a : A)
| Panicked.
Arguments Returned {A} a.
Arguments Panicked {A}.

(** Go's [(value, error)] pair of a call that fails or succeeds; the
    handlers read the value only when [err == nil]. *)
Definition error := string.

Inductive Result (A : Type) : Type :=
| Ok (a : A)
| Err (err : error).
Arguments Ok {A} a.
Arguments Err {A} err.

(** ** unicode/utf8 *)

Module utf8.

Definition byte_in (lo hi : Z) (c : ascii) : bool :=
  let n := Z.of_N (N_of_ascii c) in (lo <=? n) && (n <=? hi).

(** [first[c]] with its [acceptRanges] entry: the length of the sequence
    a lead byte announces and the range its second byte must lie in;
    [None] is the table's [xx] (an invalid lead byte), ASCII has width 1. *)
Definition first (c : ascii) : option (nat * (Z * Z)) :=
  let n := Z.of_N (N_of_ascii c) in
  if n <? 128 then Some (1%nat, (0, 255))
  else if n <? 194 then None
  else if n <? 224 then Some (2%nat, (128, 191))
  else if n =? 224 then Some (3%nat, (160, 191))
  else if n <? 237 then Some (3%nat, (128, 191))
  else if n =? 237 then Some (3%nat, (128, 159))
  else if n <? 240 then Some (3%nat, (128, 191))
  else if n =? 240 then Some (4%nat, (144, 191))
  else if n <? 244 then Some (4%nat, (128, 191))
  else if n =? 244 then Some (4%nat, (128, 143))
  else None.

(** Continuation bytes [locb .. hicb]. *)
Definition continuation (c : ascii) : bool := byte_in 128 191 c.

(** The number of bytes the loop of [RuneCountInString] advances by at a
    byte [c] followed by [rest]. *)
Definition advance (c : ascii) (rest : string) : nat :=
  match first c with
  | None => 1
  | Some (size, (lo, hi)) =>
      if (Nat.ltb (String.length rest) (size - 1)) then 1
      else match size, rest with
           | 2%nat, String c1 _ =>
               if byte_in lo hi c1 then 2 else 1
           | 3%nat, String c1 (String c2 _) =>
               if negb (byte_in lo hi c1) then 1
               else if negb (continuation c2) then 1 else 3
           | 4%nat, String c1 (String c2 (String c3 _)) =>
               if negb (byte_in lo hi c1) then 1
               else if negb (continuation c2) then 1
               else if negb (continuation c3) then 1 else 4
           | _, _ => 1
           end
  end%nat.

(** [count skip s]: runes in [s] once [skip] more bytes of the current
    sequence have been passed over. *)
Fixpoint count (skip : nat) (s : string) : nat :=
  match s with
  | EmptyString => 0
  | String c rest =>
      match skip with
      | S k => count k rest
      | O => S (count (advance c rest - 1) rest)
      end
  end%nat.

Definition RuneCountInString (s : string) : Z := Z.of_nat (count 0 s).

End utf8.

(** ** strings *)

Module strings.

(** [Split s sep] for a separator of one byte, which is how the handler
    calls it: the substrings of [s] between the occurrences of [sep], in
    order, one more than there are occurrences. [cur] is the substring
    being read. *)
Fixpoint split_from (cur : string) (s : string) (sep : ascii) : list string :=
  match s with
  | EmptyString => [cur]
  | String c rest =>
      if Ascii.eqb c sep then cur :: split_from EmptyString rest sep
      else split_from (cur +:+ String c EmptyString) rest sep
  end.

Definition Split (s : string) (sep : ascii) : list string :=
  split_from EmptyString s sep.

(** [Join] with a one-byte separator, the inverse of [Split]. *)
Fixpoint Join (parts : list string) (sep : ascii) : string :=
  match parts with
  | [] => EmptyString
  | [p] => p
  | p :: ps => p +:+ String sep (Join ps sep)
  end.

Fixpoint Contains (s : string) (c : ascii) : bool :=
  match s with
  | EmptyString => false
  | String c' rest => Ascii.eqb c' c || Contains rest c
  end.

End strings.

(** ** float64

    An IEEE 754 binary64 value by its three fields, as
    [math.Float64frombits (sign | bexp<<52 | mant)] assembles it: a biased
    exponent of 11 bits and a fraction of 52 bits. *)

Record float64 : Type := Float64frombits {
  signbit : bool;
  bexp : Z;
  fraction : Z
}.

Module math.

Definition IsNaN (f : float64) : bool :=
  (bexp f =? 2047) && negb (fraction f =? 0).

Definition IsInf (f : float64) : bool :=
  (bexp f =? 2047) && (fraction f =? 0).

Definition IsZero (f : float64) : bool :=
  (bexp f =? 0) && (fraction f =? 0).

(** [Inf(+1)], [Inf(-1)] and [SmallestNonzeroFloat64] with a sign. *)
Definition Inf (neg : bool) : float64 := Float64frombits neg 2047 0.
Definition Zero (neg : bool) : float64 := Float64frombits neg 0 0.
Definition SmallestNonzeroFloat64 (neg : bool) : float64 :=
  Float64frombits neg 0 1.

End math.

(** ** math/big: arbitrary-precision floating point

    A [big.Float] is a sign and a form: zero, infinite, or finite with the
    magnitude [0.mant * 2^exp], the mantissa read as a binary fraction with
    its leading bit set, so [0.5 <= 0.mant < 1]. The precision, rounding
    mode and accuracy fields are left out: [Float64] and [Cmp] do not read
    them. The exponent is an integer without bound; Go holds it in an
    int32, so a number whose exponent is [MinExp], where [x.exp - 1] wraps
    around in Go, is outside what is modelled. *)

Module big.

Inductive Accuracy : Type := Below | Exact | Above.

Inductive Float : Type :=
| Zero (neg : bool)
| Finite (neg : bool) (mant : positive) (exp : Z)
| Inf (neg : bool).

Definition mbits : Z := 52.
Definition ebits : Z := 11.
Definition bias : Z := 1023.
Definition emin : Z := 1 - bias.
Definition emax : Z := bias.

(** Number of bits of a mantissa ([nat.bitLen]). *)
Definition bitLen (m : Z) : Z := Z.log2 m + 1.

(** [sticky m i] is 1 when one of the [i] least significant bits of [m]
    is set. *)
Definition sticky (m i : Z) : Z :=
  if Z.land m (Z.ones i) =? 0 then 0 else 1.

Definition makeAcc (above : bool) : Accuracy :=
  if above then Above else Below.

(** [round] to [prec > 0] bits, to nearest even: the rounded mantissa,
    the exponent (one more when the mantissa carried over) and the
    accuracy of the result with respect to the argument. *)
Definition round (neg : bool) (mant exp prec : Z) : Z * Z * Accuracy :=
  let bits := bitLen mant in
  if bits <=? prec then (mant, exp, Exact)
  else
    let r := bits - prec - 1 in
    let rbit := Z.testbit mant r in
    let sbit := sticky mant r in
    let trunc := Z.shiftr mant (r + 1) in
    if negb rbit && (sbit =? 0) then (trunc, exp, Exact)
    else
      let inc := rbit && (negb (sbit =? 0) || Z.odd trunc) in
      let acc := makeAcc (xorb inc neg) in
      if inc then
        if trunc + 1 =? 2 ^ prec
        then (2 ^ (prec - 1), exp + 1, acc)
        else (trunc + 1, exp, acc)
      else (trunc, exp, acc).

(** The [p] leading bits of a mantissa, as a number:
    [msb64(mant) >> (64 - p)]. *)
Definition leading (mant p : Z) : Z := Z.shiftl mant (p - bitLen mant).

(** [x.Float64()]: the nearest float64 and whether it lies below the
    argument, is exact, or lies above it. *)
Definition Float64 (x : Float) : float64 * Accuracy :=
  match x with
  | Zero neg => (math.Zero neg, Exact)
  | Inf neg => (math.Inf neg, Exact)
  | Finite neg m xexp =>
      let mant := Z.pos m in
      let e := xexp - 1 in
      let p := if e <? emin then mbits + 1 - emin + e else mbits + 1 in
      if (e <? emin)
         && ((p <? 0) || ((p =? 0) && (sticky mant (bitLen mant - 1) =? 0)))
      then (* underflow to a zero *)
        (math.Zero neg, if neg then Above else Below)
      else if (e <? emin) && (p =? 0)
      then (* rounds up to the smallest denormal *)
        (math.SmallestNonzeroFloat64 neg, if neg then Below else Above)
      else
        let '(rmant, rexp, racc) := round neg mant xexp p in
        let e := rexp - 1 in
        if e >? emax
        then (* overflow *)
          (math.Inf neg, if neg then Below else Above)
        else if e <? emin
        then (* denormal *)
          let p := mbits + 1 - emin + e in
          (Float64frombits neg 0 (leading rmant p), racc)
        else (* normal: the leading bit is implicit *)
          (Float64frombits neg (e + bias)
             (Z.land (leading rmant (mbits + 1)) (Z.ones mbits)), racc)
  end.

(** [big.NewFloat x]: the value of [x], exactly; it panics with [ErrNaN]
    when [x] is a NaN ([None]). The mantissa and exponent are those of
    [math.Frexp]. *)
Definition NewFloat (x : float64) : option Float :=
  if math.IsNaN x then None
  else if math.IsZero x then Some (Zero (signbit x))
  else if math.IsInf x then Some (Inf (signbit x))
  else if bexp x =? 0
  then Some (Finite (signbit x) (Z.to_pos (fraction x))
               (bitLen (fraction x) + (emin - mbits)))
  else Some (Finite (signbit x) (Z.to_pos (2 ^ mbits + fraction x))
               (bexp x - bias + 1)).

(** [ord]: -2, -1, 0, 1, 2 for -Inf, negative, zero, positive, +Inf. *)
Definition ord (x : Float) : Z :=
  match x with
  | Zero _ => 0
  | Finite neg _ _ => if neg then -1 else 1
  | Inf neg => if neg then -2 else 2
  end.

(** [ucmp]: compares the magnitudes of two finite numbers, first by
    exponent, then by mantissa, both mantissas aligned at their leading
    bit. *)
Definition ucmp (xm : positive) (xe : Z) (ym : positive) (ye : Z) : Z :=
  if xe <? ye then -1
  else if xe >? ye then 1
  else
    let n := Z.max (bitLen (Z.pos xm)) (bitLen (Z.pos ym)) in
    match leading (Z.pos xm) n ?= leading (Z.pos ym) n with
    | Lt => -1
    | Eq => 0
    | Gt => 1
    end.

(** [x.Cmp(y)]: -1, 0 or +1 as [x] is less than, equal to or greater
    than [y]. *)
Definition Cmp (x y : Float) : Z :=
  let mx := ord x in
  let my := ord y in
  if mx <? my then -1
  else if mx >? my then 1
  else
    match x, y with
    | Finite true xm xe, Finite _ ym ye => ucmp ym ye xm xe
    | Finite false xm xe, Finite _ ym ye => ucmp xm xe ym ye
    | _, _ => 0
    end.

End big.

(** 1, 0.1 at 512 bits of precision (as a configuration literal is parsed:
    inexact in binary64), and 2^53 + 1. *)
Definition bf_one : big.Float := big.Finite false 1 1.
Definition bf_tenth : big.Float :=
  big.Finite false (Z.to_pos ((2 ^ 515 + 5) / 10)) (-3).
Definition bf_2p53_1 : big.Float := big.Finite false (2 ^ 53 + 1) 54.

(** ** regexp: a compiled expression is its matching predicate *)

Module regexp.
Definition Regexp : Type := string -> bool.
Definition MatchString (re : Regexp) (s : string) : bool := re s.
End regexp.

(** ** fmt: a formatted message is kept as its format and arguments *)

Module fmt.
Inductive Arg : Type :=
| ArgError (err : option error)   (* an [error] value, [None] for nil *)
| ArgString (s : string).
Inductive Formatted : Type :=
| Sprintf (format : string) (args : list Arg).

#[global] Instance Arg_eq_dec : EqDecision Arg.
Proof. solve_decision. Defined.

#[global] Instance Formatted_eq_dec : EqDecision Formatted.
Proof. solve_decision. Defined.
End fmt.

(** ** The plugin framework: attribute values *)

Module types.

Inductive String : Type :=
| StringNull
| StringUnknown
| StringValue (value : string).

Inductive Number : Type :=
| NumberNull
| NumberUnknown
| NumberValue (value : big.Float).

Definition IsNull (v : String) : bool :=
  match v with StringNull => true | _ => false end.
Definition IsUnknown (v : String) : bool :=
  match v with StringUnknown => true | _ => false end.

Definition NumberIsNull (v : Number) : bool :=
  match v with NumberNull => true | _ => false end.

(** [ValueString]: the known value, the empty string otherwise. *)
Definition ValueString (v : String) : string :=
  match v with StringValue s => s | _ => EmptyString end.

(** [ValueStringPointer]: nil for null, otherwise a pointer to
    [ValueString]. *)
Definition ValueStringPointer (v : String) : option string :=
  match v with StringNull => None | _ => Some (ValueString v) end.

(** [StringPointerValue]: null for nil. *)
Definition StringPointerValue (p : option string) : String :=
  match p with None => StringNull | Some s => StringValue s end.

(** [ValueBigFloat]: the stored pointer, nil for null and unknown. *)
Definition ValueBigFloat (v : Number) : option big.Float :=
  match v with NumberValue f => Some f | _ => None end.

Definition StringEqual (a b : String) : bool :=
  match a, b with
  | StringNull, StringNull => true
  | StringUnknown, StringUnknown => true
  | StringValue x, StringValue y => String.eqb x y
  | _, _ => false
  end.

(** Two known numbers are [Equal] when [Cmp] is 0. *)
Definition NumberEqual (a b : Number) : bool :=
  match a, b with
  | NumberNull, NumberNull => true
  | NumberUnknown, NumberUnknown => true
  | NumberValue x, NumberValue y => big.Cmp x y =? 0
  | _, _ => false
  end.

End types.

(** ** Schema: validators, plan modifiers, attributes *)

Inductive Validator : Type :=
| UTF8LengthAtLeast (minLength : Z)
| OneOf (values : list string)
| RegexMatches (re : regexp.Regexp) (message : string).

(** What the [Description] of a validator says, by its parts; the
    expression of [RegexMatches] is described by the message given with
    it. *)
Inductive ValidatorDescription : Type :=
| AtLeastCharacters (minLength : Z)
| OneOfValues (values : list string)
| Message (message : string).

Definition Describe (v : Validator) : ValidatorDescription :=
  match v with
  | UTF8LengthAtLeast minLength => AtLeastCharacters minLength
  | OneOf values => OneOfValues values
  | RegexMatches _ message => Message message
  end.

#[global] Instance ValidatorDescription_eq_dec : EqDecision ValidatorDescription.
Proof. solve_decision. Defined.

Inductive PlanModifier : Type :=
| UseStateForUnknown
| RequiresReplace.

Record StringAttribute : Type := {
  MarkdownDescription : string;
  Required : bool;
  Optional : bool;
  Computed : bool;
  PlanModifiers : list PlanModifier;
  Validators : list Validator
}.

Inductive Attribute : Type :=
| AttrString (a : StringAttribute)
| AttrNumber (description : string) (required optional computed : bool).

(** ** Diagnostics *)

Module diag.

Inductive Diagnostic : Type :=
| ErrorDiagnostic (summary : string) (detail : fmt.Formatted)
| WarningDiagnostic (summary : string) (detail : fmt.Formatted)
(* what a declarative validator reports: the attribute, the description
   of the validator that rejected it and the rejected value *)
| AttributeErrorDiagnostic (path : string) (description : ValidatorDescription)
    (value : string)
(* what the framework reports itself on the configuration of an attribute,
   by its summary *)
| AttributeConfigurationDiagnostic (path : string) (summary : string).

#[global] Instance Diagnostic_eq_dec : EqDecision Diagnostic.
Proof. solve_decision. Defined.

Definition Diagnostics : Type := list Diagnostic.

Definition IsError (d : Diagnostic) : bool :=
  match d with WarningDiagnostic _ _ => false | _ => true end.

Definition HasError (ds : Diagnostics) : bool := existsb IsError ds.

Definition Contains (ds : Diagnostics) (d : Diagnostic) : bool :=
  bool_decide (d ∈ ds).

(** [Append] adds the diagnostics that are not in the list yet. *)
Definition Append (ds new : Diagnostics) : Diagnostics :=
  fold_left (fun acc d => if Contains acc d then acc else acc ++ [d]) new ds.

Definition AddError (ds : Diagnostics) (summary : string)
    (detail : fmt.Formatted) : Diagnostics :=
  Append ds [ErrorDiagnostic summary detail].

End diag.

(** ** The handler's model of the resource *)

Record WorkflowStateResourceModel : Type := {
  Id : types.String;            (* tfsdk:"id" *)
  Name : types.String;          (* tfsdk:"name" *)
  Type_ : types.String;         (* tfsdk:"type" *)
  Description : types.String;   (* tfsdk:"description" *)
  Color : types.String;         (* tfsdk:"color" *)
  Position : types.Number;      (* tfsdk:"position" *)
  TeamId : types.String         (* tfsdk:"team_id" *)
}.

(** ** tfsdk: plan, state and configuration objects

    An object of the resource's schema is null ([None]) or holds the seven
    attributes. [Get] into the handler's [*WorkflowStateResourceModel]
    yields nil for a null object and reports nothing. *)

Module tfsdk.

Definition Object : Type := option WorkflowStateResourceModel.
Definition State : Type := Object.
Definition Plan : Type := Object.

Definition Get (o : Object) : diag.Diagnostics * option WorkflowStateResourceModel :=
  ([], o).

(** [State.Set(ctx, &data)]: the state becomes the model. *)
Definition StateSet (s : State) (data : WorkflowStateResourceModel)
    : diag.Diagnostics * State :=
  ([], Some data).

Definition null_object : WorkflowStateResourceModel :=
  {| Id := types.StringNull; Name := types.StringNull;
     Type_ := types.StringNull; Description := types.StringNull;
     Color := types.StringNull; Position := types.NumberNull;
     TeamId := types.StringNull |}.

(** The string attribute at a root path, written in place. *)
Definition set_string (m : WorkflowStateResourceModel) (path : string)
    (v : types.String) : option WorkflowStateResourceModel :=
  if String.eqb path "id" then
    Some {| Id := v; Name := Name m; Type_ := Type_ m;
            Description := Description m; Color := Color m;
            Position := Position m; TeamId := TeamId m |}
  else if String.eqb path "name" then
    Some {| Id := Id m; Name := v; Type_ := Type_ m;
            Description := Description m; Color := Color m;
            Position := Position m; TeamId := TeamId m |}
  else if String.eqb path "type" then
    Some {| Id := Id m; Name := Name m; Type_ := v;
            Description := Description m; Color := Color m;
            Position := Position m; TeamId := TeamId m |}
  else if String.eqb path "description" then
    Some {| Id := Id m; Name := Name m; Type_ := Type_ m;
            Description := v; Color := Color m;
            Position := Position m; TeamId := TeamId m |}
  else if String.eqb path "color" then
    Some {| Id := Id m; Name := Name m; Type_ := Type_ m;
            Description := Description m; Color := v;
            Position := Position m; TeamId := TeamId m |}
  else if String.eqb path "team_id" then
    Some {| Id := Id m; Name := Name m; Type_ := Type_ m;
            Description := Description m; Color := Color m;
            Position := Position m; TeamId := v |}
  else None.

(** [State.SetAttribute(ctx, path.Root(p), val)] for a Go string [val]:
    the attribute at [p] becomes the known string, the other attributes
    keep their values (null in a null state); a path that is not a
    string attribute of the schema is reported and nothing is written. *)
Definition SetAttribute (s : State) (path : string) (val : string)
    : diag.Diagnostics * State :=
  let obj := match s with Some m => m | None => null_object end in
  match set_string obj path (types.StringValue val) with
  | Some m => ([], Some m)
  | None =>
      ([diag.ErrorDiagnostic "Value Conversion Error"
          (fmt.Sprintf "%s" [fmt.ArgString path])], s)
  end.

(** The value of a string attribute by its name. *)
Definition string_attribute (m : WorkflowStateResourceModel)
    (name : string) : option types.String :=
  if String.eqb name "id" then Some (Id m)
  else if String.eqb name "name" then Some (Name m)
  else if String.eqb name "type" then Some (Type_ m)
  else if String.eqb name "description" then Some (Description m)
  else if String.eqb name "color" then Some (Color m)
  else if String.eqb name "team_id" then Some (TeamId m)
  else None.

(** The value of a number attribute by its name. *)
Definition number_attribute (m : WorkflowStateResourceModel)
    (name : string) : option types.Number :=
  if String.eqb name "position" then Some (Position m) else None.

(** Whether the attribute at a root path is null in the object. *)
Definition attribute_is_null (m : WorkflowStateResourceModel)
    (name : string) : option bool :=
  match string_attribute m name, number_attribute m name with
  | Some v, _ => Some (types.IsNull v)
  | None, Some n => Some (types.NumberIsNull n)
  | None, None => None
  end.

End tfsdk.

(** ** The schema of the resource ([Schema]) *)

Record schema : Type := {
  SchemaDescription : string;
  Attributes : gmap string Attribute
}.

Section Schema.

(** [colorRegex()] and [uuidRegex()] are functions of the provider
    package declared outside this file: the schema is stated over any
    two compiled expressions. *)
Variables colorRegex uuidRegex : regexp.Regexp.

Definition Schema : schema := {|
  SchemaDescription := "Linear team workflow state.";
  Attributes := list_to_map [
    ("id", AttrString {|
       MarkdownDescription := "Identifier of the workflow state.";
       Required := false; Optional := false; Computed := true;
       PlanModifiers := [UseStateForUnknown];
       Validators := [] |});
    ("name", AttrString {|
       MarkdownDescription := "Name of the workflow state.";
       Required := true; Optional := false; Computed := false;
       PlanModifiers := [];
       Validators := [UTF8LengthAtLeast 1] |});
    ("type", AttrString {|
       MarkdownDescription := "Type of the workflow state.";
       Required := true; Optional := false; Computed := false;
       PlanModifiers := [RequiresReplace];
       Validators := [OneOf ["triage"; "backlog"; "unstarted";
                             "started"; "completed"; "canceled"]] |});
    ("position",
       AttrNumber "Position of the workflow state." true false false);
    ("color", AttrString {|
       MarkdownDescription := "Color of the workflow state.";
       Required := true; Optional := false; Computed := false;
       PlanModifiers := [];
       Validators := [RegexMatches colorRegex "must be a hex color"] |});
    ("description", AttrString {|
       MarkdownDescription := "Description of the workflow state.";
       Required := false; Optional := true; Computed := false;
       PlanModifiers := [];
       Validators := [] |});
    ("team_id", AttrString {|
       MarkdownDescription := "Identifier of the team.";
       Required := true; Optional := false; Computed := false;
       PlanModifiers := [RequiresReplace];
       Validators := [RegexMatches uuidRegex "must be an uuid"] |})
  ]
|}.

End Schema.

(** ** Validation and plan modifiers, as the framework runs them over a
    schema *)

(** A string validator skips null and unknown values and reports a known
    value it rejects. *)
Definition ValidateString (v : Validator) (path : string)
    (value : types.String) : diag.Diagnostics :=
  if types.IsNull value || types.IsUnknown value then []
  else
    let s := types.ValueString value in
    match v with
    | UTF8LengthAtLeast minLength =>
        if utf8.RuneCountInString s <? minLength
        then [diag.AttributeErrorDiagnostic path (Describe v) s] else []
    | OneOf values =>
        if existsb (String.eqb s) values
        then [] else [diag.AttributeErrorDiagnostic path (Describe v) s]
    | RegexMatches re _ =>
        if regexp.MatchString re s
        then [] else [diag.AttributeErrorDiagnostic path (Describe v) s]
    end.

Definition IsRequired (a : Attribute) : bool :=
  match a with
  | AttrString a => Required a
  | AttrNumber _ required _ _ => required
  end.

Definition IsOptional (a : Attribute) : bool :=
  match a with
  | AttrString a => Optional a
  | AttrNumber _ _ optional _ => optional
  end.

Definition IsComputed (a : Attribute) : bool :=
  match a with
  | AttrString a => Computed a
  | AttrNumber _ _ _ computed => computed
  end.

(** The validation of one attribute ([AttributeValidate]), into
    diagnostics of its own: an attribute that is neither required,
    optional nor computed is reported and nothing else is looked at;
    a value configured for a read-only attribute (computed and not
    optional) is reported; a required attribute left null is reported;
    then the validators of the attribute run in turn, each appending what
    it reports. An unknown value is not null. The objects validated are
    those of this resource: for a name they do not hold nothing is
    reported. *)
Definition AttributeValidate (config : WorkflowStateResourceModel)
    (entry : string * Attribute) : diag.Diagnostics :=
  let (name, a) := entry in
  if negb (IsRequired a) && negb (IsOptional a) && negb (IsComputed a)
  then [diag.AttributeConfigurationDiagnostic name
          "Invalid Attribute Definition"]
  else
    match tfsdk.attribute_is_null config name with
    | None => []
    | Some null =>
        let ds :=
          if IsComputed a && negb (IsOptional a) && negb null
          then [diag.AttributeConfigurationDiagnostic name
                  "Invalid Configuration for Read-Only Attribute"]
          else [] in
        let ds :=
          if IsRequired a && null
          then diag.Append ds
                 [diag.AttributeConfigurationDiagnostic name
                    "Missing Configuration for Required Attribute"]
          else ds in
        match a with
        | AttrString a =>
            match tfsdk.string_attribute config name with
            | Some value =>
                fold_left
                  (fun acc v => diag.Append acc (ValidateString v name value))
                  (Validators a) ds
            | None => ds
            end
        | AttrNumber _ _ _ _ => ds
        end
    end.

(** The validation of a configuration ([ValidateResourceConfig], which
    for a resource without validation of its own is [SchemaValidate]):
    every attribute of the schema is validated and what it reports is
    appended. Go ranges over the map of attributes in no fixed order; the
    order here is the one of [map_to_list], and the properties below do
    not depend on it. *)
Definition ValidateConfig (s : schema) (config : WorkflowStateResourceModel)
    : diag.Diagnostics :=
  fold_left (fun acc entry => diag.Append acc (AttributeValidate config entry))
    (map_to_list (Attributes s)) [].

Definition is_RequiresReplace (m : PlanModifier) : bool :=
  match m with RequiresReplace => true | UseStateForUnknown => false end.

(** [stringplanmodifier.RequiresReplace()] on an attribute asks for the
    replacement of the resource when its planned value is not [Equal] to
    the value in the prior state. *)
Definition requires_replace (state plan : WorkflowStateResourceModel)
    (entry : string * Attribute) : bool :=
  match entry with
  | (name, AttrString a) =>
      existsb is_RequiresReplace (PlanModifiers a)
      && match tfsdk.string_attribute state name,
               tfsdk.string_attribute plan name with
         | Some old, Some new => negb (types.StringEqual new old)
         | _, _ => false
         end
  | (_, AttrNumber _ _ _ _) => false
  end.

(** The attributes whose change makes the plan a replacement (delete, then
    create) instead of an in-place [Update]. *)
Definition RequiresReplacePaths (s : schema)
    (state plan : WorkflowStateResourceModel) : list string :=
  map fst (List.filter (requires_replace state plan) (map_to_list (Attributes s))).

(** ** The remote API client (generated GraphQL bindings) *)

Module WorkflowStateCreateInput.
Record t : Type := {
  Name : string;
  Type_ : string;
  Position : float64;
  Color : string;
  Description : option string;
  TeamId : string
}.
End WorkflowStateCreateInput.

Module WorkflowStateUpdateInput.
Record t : Type := {
  Name : string;
  Color : string;
  Description : option string;
  Position : float64
}.
End WorkflowStateUpdateInput.

Module createWorkflowStateResponse.
Record workflowState : Type := {
  Id : string;
  Name : string;
  Type_ : string;
  Position : float64;
  Color : string;
  Description : option string
}.
Record payload : Type := { WorkflowState : workflowState }.
Record t : Type := { WorkflowStateCreate : payload }.
End createWorkflowStateResponse.

Module getWorkflowStateResponse.
Record team : Type := { Id : string }.
Record workflowState : Type := {
  Name : string;
  Type_ : string;
  Position : float64;
  Color : string;
  Team : team;
  Description : option string
}.
Record t : Type := { WorkflowState : workflowState }.
End getWorkflowStateResponse.

Module updateWorkflowStateResponse.
Record workflowState : Type := {
  Name : string;
  Position : float64;
  Color : string;
  Description : option string
}.
Record payload : Type := { WorkflowState : workflowState }.
Record t : Type := { WorkflowStateUpdate : payload }.
End updateWorkflowStateResponse.

Module findWorkflowStateResponse.
Record node : Type := { Id : string }.
Record connection : Type := { Nodes : list node }.
Record t : Type := { WorkflowStates : connection }.
End findWorkflowStateResponse.

(** The five operations of the client over a remote world [W]; each
    returns its result and the world after the call. The result of a
    delete carries no data the handler reads. *)
Record Client (W : Type) : Type := {
  createWorkflowState :
    W -> WorkflowStateCreateInput.t ->
    Result createWorkflowStateResponse.t * W;
  getWorkflowState :
    W -> string -> Result getWorkflowStateResponse.t * W;
  updateWorkflowState :
    W -> WorkflowStateUpdateInput.t -> string ->
    Result updateWorkflowStateResponse.t * W;
  deleteWorkflowState :
    W -> string -> Result unit * W;
  findWorkflowState :
    W -> string -> string -> Result findWorkflowStateResponse.t * W
}.
Arguments createWorkflowState {W} _ _ _.
Arguments getWorkflowState {W} _ _ _.
Arguments updateWorkflowState {W} _ _ _ _.
Arguments deleteWorkflowState {W} _ _ _.
Arguments findWorkflowState {W} _ _ _ _.

(** What went over the wire. *)
Inductive RemoteCall : Type :=
| CallCreate (input : WorkflowStateCreateInput.t)
| CallGet (id : string)
| CallUpdate (input : WorkflowStateUpdateInput.t) (id : string)
| CallDelete (id : string)
| CallFind (name teamKey : string).

(** ** The handler monad: remote world, trace of calls, panics *)

Record Outcome (W A : Type) : Type := {
  response : A;
  world : W;
  calls : list RemoteCall
}.
Arguments response {W A} _.
Arguments world {W A} _.
Arguments calls {W A} _.

Definition M (W A : Type) : Type := W -> Exec (Outcome W A).

Definition ret {W A} (a : A) : M W A :=
  fun w => Returned {| response := a; world := w; calls := [] |}.

Definition bind {W A B} (m : M W A) (k : A -> M W B) : M W B :=
  fun w =>
    match m w with
    | Panicked => Panicked
    | Returned o =>
        match k (response o) (world o) with
        | Panicked => Panicked
        | Returned o' =>
            Returned {| response := response o'; world := world o';
                        calls := calls o ++ calls o' |}
        end
    end.

(** Dereferencing a nil pointer panics. *)
Definition deref {W A} (p : option A) : M W A :=
  match p with
  | Some a => ret a
  | None => fun _ => Panicked
  end.

(** One call of the client, recorded. *)
Definition remote {W A} (c : RemoteCall) (f : W -> Result A * W)
    : M W (Result A) :=
  fun w =>
    let (res, w') := f w in
    Returned {| response := res; world := w'; calls := [c] |}.

Notation "'let*' x ':=' m 'in' k" := (bind m (fun x => k))
  (at level 10, x name, m at level 100, k at level 200).

(** ** Requests and responses of the lifecycle methods

    A response is the pointer the framework hands to the method: the state
    and the diagnostics it holds on entry are the ones the method extends
    or leaves alone. *)

Record Response : Type := {
  State : tfsdk.State;
  Diagnostics : diag.Diagnostics
}.

Definition CreateResponse := Response.
Definition ReadResponse := Response.
Definition UpdateResponse := Response.
Definition DeleteResponse := Response.
Definition ImportStateResponse := Response.

Module CreateRequest.
Record t : Type := { Plan : tfsdk.Plan }.
End CreateRequest.

Module ReadRequest.
Record t : Type := { State : tfsdk.State }.
End ReadRequest.

Module UpdateRequest.
Record t : Type := { Plan : tfsdk.Plan; State : tfsdk.State }.
End UpdateRequest.

Module DeleteRequest.
Record t : Type := { State : tfsdk.State }.
End DeleteRequest.

Module ImportStateRequest.
Record t : Type := { ID : string }.
End ImportStateRequest.

(** [resp.Diagnostics.Append(...)] and [resp.Diagnostics.AddError(...)]. *)
Definition append_diagnostics (resp : Response) (ds : diag.Diagnostics)
    : Response :=
  {| State := State resp; Diagnostics := diag.Append (Diagnostics resp) ds |}.

Definition add_error (resp : Response) (summary : string)
    (detail : fmt.Formatted) : Response :=
  {| State := State resp;
     Diagnostics := diag.AddError (Diagnostics resp) summary detail |}.

(** [resp.Diagnostics.Append(resp.State.Set(ctx, &data)...)]. *)
Definition set_state (resp : Response) (data : WorkflowStateResourceModel)
    : Response :=
  let (ds, st) := tfsdk.StateSet (State resp) data in
  {| State := st; Diagnostics := diag.Append (Diagnostics resp) ds |}.

(** [resp.Diagnostics.Append(resp.State.SetAttribute(ctx, path.Root(p), v)...)]. *)
Definition set_state_attribute (resp : Response) (path : string)
    (val : string) : Response :=
  let (ds, st) := tfsdk.SetAttribute (State resp) path val in
  {| State := st; Diagnostics := diag.Append (Diagnostics resp) ds |}.

(** ** The resource and its lifecycle methods

    Each method takes the request and the response the framework hands it
    and returns the response it leaves, in the handler monad. The resource
    is one whose client pointer is set; the context argument and the
    [tflog.Trace] lines have no part in what is returned and are left
    out. A nil [data] (a null plan or state), a nil [*big.Float] (a null or
    unknown position) and [big.NewFloat] of a NaN panic. *)

Record WorkflowStateResource (W : Type) : Type := {
  client : Client W
}.
Arguments client {W} _.

Section Lifecycle.

Context {W : Type}.
Variable r : WorkflowStateResource W.

Definition Create (req : CreateRequest.t) (resp : CreateResponse)
    : M W CreateResponse :=
  let (ds, data) := tfsdk.Get (CreateRequest.Plan req) in
  let resp := append_diagnostics resp ds in
  if diag.HasError (Diagnostics resp) then ret resp
  else
    let* data := deref data in
    let* value := deref (types.ValueBigFloat (Position data)) in
    let (position, _) := big.Float64 value in
    let input := {|
      WorkflowStateCreateInput.Name := types.ValueString (Name data);
      WorkflowStateCreateInput.Type_ := types.ValueString (Type_ data);
      WorkflowStateCreateInput.Position := position;
      WorkflowStateCreateInput.Color := types.ValueString (Color data);
      WorkflowStateCreateInput.Description :=
        types.ValueStringPointer (Description data);
      WorkflowStateCreateInput.TeamId := types.ValueString (TeamId data)
    |} in
    let* result :=
      remote (CallCreate input) (fun w => createWorkflowState (client r) w input) in
    match result with
    | Err err =>
        ret (add_error resp "Client Error"
               (fmt.Sprintf "Unable to create workflow state, got error: %s"
                  [fmt.ArgError (Some err)]))
    | Ok response =>
        let workflowState :=
          createWorkflowStateResponse.WorkflowState
            (createWorkflowStateResponse.WorkflowStateCreate response) in
        let* position :=
          deref (big.NewFloat
                   (createWorkflowStateResponse.Position workflowState)) in
        let data := {|
          Id := types.StringValue
                  (createWorkflowStateResponse.Id workflowState);
          Name := types.StringValue
                    (createWorkflowStateResponse.Name workflowState);
          Type_ := types.StringValue
                     (createWorkflowStateResponse.Type_ workflowState);
          Description := types.StringPointerValue
                     (createWorkflowStateResponse.Description workflowState);
          Color := types.StringValue
                     (createWorkflowStateResponse.Color workflowState);
          Position := types.NumberValue position;
          TeamId := TeamId data
        |} in
        ret (set_state resp data)
    end.

Definition Read (req : ReadRequest.t) (resp : ReadResponse)
    : M W ReadResponse :=
  let (ds, data) := tfsdk.Get (ReadRequest.State req) in
  let resp := append_diagnostics resp ds in
  if diag.HasError (Diagnostics resp) then ret resp
  else
    let* data := deref data in
    let id := types.ValueString (Id data) in
    let* result :=
      remote (CallGet id) (fun w => getWorkflowState (client r) w id) in
    match result with
    | Err err =>
        ret (add_error resp "Client Error"
               (fmt.Sprintf "Unable to read workflow state, got error: %s"
                  [fmt.ArgError (Some err)]))
    | Ok response =>
        let workflowState := getWorkflowStateResponse.WorkflowState response in
        let* position :=
          deref (big.NewFloat
                   (getWorkflowStateResponse.Position workflowState)) in
        let data := {|
          Id := Id data;
          Name := types.StringValue
                    (getWorkflowStateResponse.Name workflowState);
          Type_ := types.StringValue
                     (getWorkflowStateResponse.Type_ workflowState);
          Description := types.StringPointerValue
                     (getWorkflowStateResponse.Description workflowState);
          Color := types.StringValue
                     (getWorkflowStateResponse.Color workflowState);
          Position := types.NumberValue position;
          TeamId := types.StringValue
                      (getWorkflowStateResponse.Id
                         (getWorkflowStateResponse.Team workflowState))
        |} in
        ret (set_state resp data)
    end.

Definition Update (req : UpdateRequest.t) (resp : UpdateResponse)
    : M W UpdateResponse :=
  let (ds, data) := tfsdk.Get (UpdateRequest.Plan req) in
  let resp := append_diagnostics resp ds in
  if diag.HasError (Diagnostics resp) then ret resp
  else
    let* data := deref data in
    let* value := deref (types.ValueBigFloat (Position data)) in
    let (position, _) := big.Float64 value in
    let input := {|
      WorkflowStateUpdateInput.Name := types.ValueString (Name data);
      WorkflowStateUpdateInput.Color := types.ValueString (Color data);
      WorkflowStateUpdateInput.Description :=
        types.ValueStringPointer (Description data);
      WorkflowStateUpdateInput.Position := position
    |} in
    let id := types.ValueString (Id data) in
    let* result :=
      remote (CallUpdate input id)
        (fun w => updateWorkflowState (client r) w input id) in
    match result with
    | Err err =>
        ret (add_error resp "Client Error"
               (fmt.Sprintf "Unable to update workflow state, got error: %s"
                  [fmt.ArgError (Some err)]))
    | Ok response =>
        let workflowState :=
          updateWorkflowStateResponse.WorkflowState
            (updateWorkflowStateResponse.WorkflowStateUpdate response) in
        let* position :=
          deref (big.NewFloat
                   (updateWorkflowStateResponse.Position workflowState)) in
        let data := {|
          Id := Id data;
          Name := types.StringValue
                    (updateWorkflowStateResponse.Name workflowState);
          Type_ := Type_ data;
          Description := types.StringPointerValue
                     (updateWorkflowStateResponse.Description workflowState);
          Color := types.StringValue
                     (updateWorkflowStateResponse.Color workflowState);
          Position := types.NumberValue position;
          TeamId := TeamId data
        |} in
        ret (set_state resp data)
    end.

Definition Delete (req : DeleteRequest.t) (resp : DeleteResponse)
    : M W DeleteResponse :=
  let (ds, data) := tfsdk.Get (DeleteRequest.State req) in
  let resp := append_diagnostics resp ds in
  if diag.HasError (Diagnostics resp) then ret resp
  else
    let* data := deref data in
    let id := types.ValueString (Id data) in
    let* result :=
      remote (CallDelete id) (fun w => deleteWorkflowState (client r) w id) in
    match result with
    | Err err =>
        ret (add_error resp "Client Error"
               (fmt.Sprintf "Unable to delete workflow state, got error: %s"
                  [fmt.ArgError (Some err)]))
    | Ok _ => ret resp
    end.

Definition ImportState (req : ImportStateRequest.t)
    (resp : ImportStateResponse) : M W ImportStateResponse :=
  let parts := strings.Split (ImportStateRequest.ID req) ":" in
  let malformed :=
    add_error resp "Unexpected Import Identifier"
      (fmt.Sprintf
         "Expected import identifier with format: workflow_state_name:team_key. Got: %q"
         [fmt.ArgString (ImportStateRequest.ID req)]) in
  match parts with
  | [name; teamKey] =>
      if String.eqb name "" || String.eqb teamKey "" then ret malformed
      else
        let* result :=
          remote (CallFind name teamKey)
            (fun w => findWorkflowState (client r) w name teamKey) in
        let failed (err : option error) :=
          add_error resp "Client Error"
            (fmt.Sprintf "Unable to import workflow state, got error: %s"
               [fmt.ArgError err]) in
        match result with
        | Err err => ret (failed (Some err))
        | Ok response =>
            match findWorkflowStateResponse.Nodes
                    (findWorkflowStateResponse.WorkflowStates response) with
            | [node] =>
                ret (set_state_attribute resp "id"
                       (findWorkflowStateResponse.Id node))
            | _ => ret (failed None)
            end
        end
  | _ => ret malformed
  end.

End Lifecycle.

(** ** Validation comes first

    Terraform has the provider validate the configuration of a resource
    ([ValidateResourceConfig]) before it plans and applies that
    configuration, and goes no further when the validation reports an
    error: [Create] and [Update], which apply a configuration, are
    invoked only after its validation has passed. This order is the one of
    the protocol between Terraform and the plugin framework, not of the
    handler. [validated] is an invocation behind that check: what
    validation reported when it holds an error, the response of the
    invocation otherwise. *)

Inductive Applied : Type :=
| Rejected (ds : diag.Diagnostics)
| Invoked (resp : Response).

Definition validated {W : Type} (s : schema)
    (config : WorkflowStateResourceModel) (invocation : M W Response)
    : M W Applied :=
  if diag.HasError (ValidateConfig s config)
  then ret (Rejected (ValidateConfig s config))
  else let* resp := invocation in ret (Invoked resp).

(** The plan of a configuration: the configured values, and the [id],
    which is computed and cannot be configured, as the planner sets it:
    unknown before the resource exists, the id of the state afterwards. *)
Definition plan_of (config : WorkflowStateResourceModel) (id : types.String)
    : WorkflowStateResourceModel := {|
  Id := id;
  Name := Name config;
  Type_ := Type_ config;
  Description := Description config;
  Color := Color config;
  Position := Position config;
  TeamId := TeamId config
|}.

(** ** Metadata and Configure

    The struct as [NewWorkflowStateResource] allocates it: the client
    pointer is nil until [Configure] stores one. The lifecycle methods
    above are those of a resource whose pointer is set. *)

Module MetadataRequest.
Record t : Type := { ProviderTypeName : string }.
End MetadataRequest.

Module MetadataResponse.
Record t : Type := { TypeName : string }.
End MetadataResponse.

Definition Metadata (req : MetadataRequest.t) (resp : MetadataResponse.t)
    : MetadataResponse.t :=
  {| MetadataResponse.TypeName :=
       MetadataRequest.ProviderTypeName req +:+ "_workflow_state" |}.

(** [req.ProviderData] is an [any]: nil ([None]), a [*graphql.Client]
    (which may itself be a nil pointer), or a value of another type, kept
    by the name [%T] prints. *)
Inductive ProviderValue (W : Type) : Type :=
| IsClient (pointer : option (Client W))
| IsOther (typeName : string).
Arguments IsClient {W} pointer.
Arguments IsOther {W} typeName.

Module ConfigureRequest.
Record t (W : Type) : Type := { ProviderData : option (ProviderValue W) }.
Arguments ProviderData {W} _.
End ConfigureRequest.

Module ConfigureResponse.
Record t : Type := { Diagnostics : diag.Diagnostics }.
End ConfigureResponse.

Record Allocated (W : Type) : Type := {
  pointer : option (Client W)
}.
Arguments pointer {W} _.

Definition NewWorkflowStateResource {W : Type} : Allocated W :=
  {| pointer := None |}.

(** [Configure]: the receiver and the response after the call. *)
Definition Configure {W : Type} (r : Allocated W)
    (req : ConfigureRequest.t W) (resp : ConfigureResponse.t)
    : Allocated W * ConfigureResponse.t :=
  match ConfigureRequest.ProviderData req with
  | None => (r, resp)
  | Some (IsOther typeName) =>
      (r, {| ConfigureResponse.Diagnostics :=
               diag.AddError (ConfigureResponse.Diagnostics resp)
                 "Unexpected Resource Configure Type"
                 (fmt.Sprintf
                    "Expected *graphql.Client, got: %T. Please report this issue to the provider developers."
                    [fmt.ArgString typeName]) |})
  | Some (IsClient client) => ({| pointer := client |}, resp)
  end.

(** The resource the lifecycle methods run on, once the pointer is set. *)
Definition configured {W : Type} (r : Allocated W)
    : option (WorkflowStateResource W) :=
  match pointer r with
  | Some c => Some {| client := c |}
  | None => None
  end.

(** ** Two clients to run the handler against *)

(** A client whose every call fails. *)
Definition unreachable : Client unit := {|
  createWorkflowState := fun w _ => (Err "connection refused", w);
  getWorkflowState := fun w _ => (Err "connection refused", w);
  updateWorkflowState := fun w _ _ => (Err "connection refused", w);
  deleteWorkflowState := fun w _ => (Err "connection refused", w);
  findWorkflowState := fun w _ _ => (Err "connection refused", w)
|}.

(** An API in memory that stores what it is sent and answers with what it
    stores. *)
Module Echo.

Record record : Type := {
  name : string;
  type : string;
  position : float64;
  color : string;
  description : option string;
  team : string
}.

Record world : Type := {
  next : nat;                       (* the ids given out so far *)
  records : gmap string record;     (* workflow states by id *)
  teams : gmap string string        (* team ids by team key *)
}.

Definition fresh (w : world) : string :=
  String.append "state-" (String.string_of_list_ascii (repeat "i"%char (next w))).

Definition create (w : world) (input : WorkflowStateCreateInput.t)
    : Result createWorkflowStateResponse.t * world :=
  let id := fresh w in
  let rec := {|
    name := WorkflowStateCreateInput.Name input;
    type := WorkflowStateCreateInput.Type_ input;
    position := WorkflowStateCreateInput.Position input;
    color := WorkflowStateCreateInput.Color input;
    description := WorkflowStateCreateInput.Description input;
    team := WorkflowStateCreateInput.TeamId input |} in
  (Ok {| createWorkflowStateResponse.WorkflowStateCreate := {|
           createWorkflowStateResponse.WorkflowState := {|
             createWorkflowStateResponse.Id := id;
             createWorkflowStateResponse.Name := name rec;
             createWorkflowStateResponse.Type_ := type rec;
             createWorkflowStateResponse.Position := position rec;
             createWorkflowStateResponse.Color := color rec;
             createWorkflowStateResponse.Description := description rec
           |} |} |},
   {| next := S (next w); records := <[id := rec]> (records w);
      teams := teams w |}).

Definition get (w : world) (id : string)
    : Result getWorkflowStateResponse.t * world :=
  match records w !! id with
  | None => (Err "Entity not found", w)
  | Some rec =>
      (Ok {| getWorkflowStateResponse.WorkflowState := {|
               getWorkflowStateResponse.Name := name rec;
               getWorkflowStateResponse.Type_ := type rec;
               getWorkflowStateResponse.Position := position rec;
               getWorkflowStateResponse.Color := color rec;
               getWorkflowStateResponse.Team :=
                 {| getWorkflowStateResponse.Id := team rec |};
               getWorkflowStateResponse.Description := description rec
             |} |}, w)
  end.

Definition update (w : world) (input : WorkflowStateUpdateInput.t)
    (id : string) : Result updateWorkflowStateResponse.t * world :=
  match records w !! id with
  | None => (Err "Entity not found", w)
  | Some old =>
      let rec := {|
        name := WorkflowStateUpdateInput.Name input;
        type := type old;
        position := WorkflowStateUpdateInput.Position input;
        color := WorkflowStateUpdateInput.Color input;
        description := WorkflowStateUpdateInput.Description input;
        team := team old |} in
      (Ok {| updateWorkflowStateResponse.WorkflowStateUpdate := {|
               updateWorkflowStateResponse.WorkflowState := {|
                 updateWorkflowStateResponse.Name := name rec;
                 updateWorkflowStateResponse.Position := position rec;
                 updateWorkflowStateResponse.Color := color rec;
                 updateWorkflowStateResponse.Description := description rec
               |} |} |},
       {| next := next w; records := <[id := rec]> (records w);
          teams := teams w |})
  end.

Definition delete (w : world) (id : string) : Result unit * world :=
  match records w !! id with
  | None => (Err "Entity not found", w)
  | Some _ =>
      (Ok tt, {| next := next w; records := base.delete id (records w);
                 teams := teams w |})
  end.

Definition find (w : world) (nm key : string)
    : Result findWorkflowStateResponse.t * world :=
  let matches (entry : string * record) :=
    String.eqb (name (snd entry)) nm
    && match teams w !! key with
       | Some t => String.eqb (team (snd entry)) t
       | None => false
       end in
  (Ok {| findWorkflowStateResponse.WorkflowStates := {|
           findWorkflowStateResponse.Nodes :=
             map (fun entry => {| findWorkflowStateResponse.Id := fst entry |})
                 (List.filter matches (map_to_list (records w)))
         |} |}, w).

Definition api : Client world := {|
  createWorkflowState := create;
  getWorkflowState := get;
  updateWorkflowState := update;
  deleteWorkflowState := delete;
  findWorkflowState := find
|}.

Definition empty : world :=
  {| next := 0; records := ∅; teams := {[ "ENG" := "0b9e7d5c-3f2a-4c1b-8e6d-7a5f4c3b2a19" ]} |}.

End Echo.

(** ** Patterns and inputs for the examples *)

Definition is_hex (c : ascii) : bool :=
  utf8.byte_in 48 57 c || utf8.byte_in 65 70 c || utf8.byte_in 97 102 c.

Fixpoint all_hex (s : string) : bool :=
  match s with
  | EmptyString => true
  | String c rest => is_hex c && all_hex rest
  end.

(** Modelled from the spec: [colorRegex()], declared outside this file;
    the spec says a color is "text matching a hex-color pattern": a [#]
    and three or six hexadecimal digits. *)
Definition hexColorPattern : regexp.Regexp := fun s =>
  match s with
  | String "#" digits =>
      all_hex digits
      && ((String.length digits =? 3)%nat || (String.length digits =? 6)%nat)
  | _ => false
  end.

(** Modelled from the spec: [uuidRegex()], declared outside this file;
    the spec says a team id "must match a UUID pattern": hexadecimal groups
    of 8, 4, 4, 4 and 12 digits joined by hyphens. *)
Definition uuidPattern : regexp.Regexp := fun s =>
  let groups := strings.Split s "-" in
  forallb all_hex groups
  && match map String.length groups with
     | [8; 4; 4; 4; 12]%nat => true
     | _ => false
     end.

(** A configuration, and the plan it gives: the id is not known yet. *)
Definition config_done : WorkflowStateResourceModel := {|
  Id := types.StringNull;
  Name := types.StringValue "Done";
  Type_ := types.StringValue "completed";
  Description := types.StringNull;
  Color := types.StringValue "#5e6ad2";
  Position := types.NumberValue bf_one;
  TeamId := types.StringValue "0b9e7d5c-3f2a-4c1b-8e6d-7a5f4c3b2a19"
|}.

Definition plan_done : WorkflowStateResourceModel := {|
  Id := types.StringUnknown;
  Name := types.StringValue "Done";
  Type_ := types.StringValue "completed";
  Description := types.StringNull;
  Color := types.StringValue "#5e6ad2";
  Position := types.NumberValue bf_one;
  TeamId := types.StringValue "0b9e7d5c-3f2a-4c1b-8e6d-7a5f4c3b2a19"
|}.

Definition fresh_response : Response := {| State := None; Diagnostics := [] |}.

(** The state [Create] stores for that plan, the record the API in memory
    holds for it, and a world where it is the only record. *)
Definition state_done : WorkflowStateResourceModel := {|
  Id := types.StringValue "state-";
  Name := types.StringValue "Done";
  Type_ := types.StringValue "completed";
  Description := types.StringNull;
  Color := types.StringValue "#5e6ad2";
  Position := types.NumberValue (big.Finite false (2 ^ 52) 1);
  TeamId := types.StringValue "0b9e7d5c-3f2a-4c1b-8e6d-7a5f4c3b2a19"
|}.

Definition record_done : Echo.record := {|
  Echo.name := "Done";
  Echo.type := "completed";
  Echo.position := Float64frombits false 1023 0;
  Echo.color := "#5e6ad2";
  Echo.description := None;
  Echo.team := "0b9e7d5c-3f2a-4c1b-8e6d-7a5f4c3b2a19"
|}.

Definition world_done : Echo.world := {|
  Echo.next := 1;
  Echo.records := {[ "state-" := record_done ]};
  Echo.teams := {[ "ENG" := "0b9e7d5c-3f2a-4c1b-8e6d-7a5f4c3b2a19" ]}
|}.


Definition plan_renamed : WorkflowStateResourceModel := {|
  Id := types.StringValue "state-";
  Name := types.StringValue "Finished";
  Type_ := types.StringValue "completed";
  Description := types.StringValue "all done";
  Color := types.StringValue "#5e6ad2";
  Position := types.NumberValue bf_tenth;
  TeamId := types.StringValue "0b9e7d5c-3f2a-4c1b-8e6d-7a5f4c3b2a19"
|}.

(** The state [ImportState] seeds for it: the id alone. *)
Definition state_imported : WorkflowStateResourceModel := {|
  Id := types.StringValue "state-";
  Name := types.StringNull;
  Type_ := types.StringNull;
  Description := types.StringNull;
  Color := types.StringNull;
  Position := types.NumberNull;
  TeamId := types.StringNull
|}.

(** The response [Read], [Update] and [Delete] are handed: it holds the
    current state. *)
Definition response_done : Response :=
  {| State := Some state_done; Diagnostics := [] |}.

(** Two configurations the validators reject. *)
Definition config_blue : WorkflowStateResourceModel := {|
  Id := types.StringNull;
  Name := types.StringValue "Done";
  Type_ := types.StringValue "completed";
  Description := types.StringNull;
  Color := types.StringValue "blue";
  Position := types.NumberValue bf_one;
  TeamId := types.StringValue "0b9e7d5c-3f2a-4c1b-8e6d-7a5f4c3b2a19"
|}.

Definition config_no_uuid : WorkflowStateResourceModel := {|
  Id := types.StringNull;
  Name := types.StringValue "Done";
  Type_ := types.StringValue "completed";
  Description := types.StringNull;
  Color := types.StringValue "#5e6ad2";
  Position := types.NumberValue bf_one;
  TeamId := types.StringValue "not-a-uuid"
|}.

(** A response that already holds an error, and one that holds a
    warning. *)
Definition earlier_error : diag.Diagnostic :=
  diag.ErrorDiagnostic "Provider Error" (fmt.Sprintf "not ready" []).

Definition earlier_warning : diag.Diagnostic :=
  diag.WarningDiagnostic "Deprecated" (fmt.Sprintf "use another attribute" []).

Definition response_failed : Response :=
  {| State := Some state_done; Diagnostics := [earlier_error] |}.

Definition response_warned : Response :=
  {| State := Some state_done; Diagnostics := [earlier_warning] |}.

Definition echo_resource : WorkflowStateResource Echo.world :=
  {| client := Echo.api |}.

Definition down_resource : WorkflowStateResource unit :=
  {| client := unreachable |}.

(** * Vocabulary of the properties *)

(** The two kinds of error the handler adds itself. *)
Definition is_client_error (d : diag.Diagnostic) : Prop :=
  exists detail, d = diag.ErrorDiagnostic "Client Error" detail.

Definition is_identifier_error (d : diag.Diagnostic) : Prop :=
  exists detail, d = diag.ErrorDiagnostic "Unexpected Import Identifier" detail.

(** The invocation failed with one more diagnostic, a Client Error, and
    left the state as it was. *)
Definition fails_with_client_error (before after : Response) : Prop :=
  State after = State before /\
  exists d, is_client_error d /\
            Diagnostics after = Diagnostics before ++ [d].

Definition fails_with_identifier_error (before after : Response) : Prop :=
  State after = State before /\
  exists d, is_identifier_error d /\
            Diagnostics after = Diagnostics before ++ [d].

(** The object a state holds, all attributes null in a null state. *)
Definition object_of (s : tfsdk.State) : WorkflowStateResourceModel :=
  match s with Some m => m | None => tfsdk.null_object end.

(** The input [Create] and [Update] build from the planned values. *)
Definition create_input (data : WorkflowStateResourceModel) (p : big.Float)
    : WorkflowStateCreateInput.t := {|
  WorkflowStateCreateInput.Name := types.ValueString (Name data);
  WorkflowStateCreateInput.Type_ := types.ValueString (Type_ data);
  WorkflowStateCreateInput.Position := fst (big.Float64 p);
  WorkflowStateCreateInput.Color := types.ValueString (Color data);
  WorkflowStateCreateInput.Description :=
    types.ValueStringPointer (Description data);
  WorkflowStateCreateInput.TeamId := types.ValueString (TeamId data)
|}.

Definition update_input (data : WorkflowStateResourceModel) (p : big.Float)
    : WorkflowStateUpdateInput.t := {|
  WorkflowStateUpdateInput.Name := types.ValueString (Name data);
  WorkflowStateUpdateInput.Color := types.ValueString (Color data);
  WorkflowStateUpdateInput.Description :=
    types.ValueStringPointer (Description data);
  WorkflowStateUpdateInput.Position := fst (big.Float64 p)
|}.

(** The response of [ImportState] to an identifier it does not accept. *)
Definition malformed (req : ImportStateRequest.t) (resp : Response) : Response :=
  add_error resp "Unexpected Import Identifier"
    (fmt.Sprintf
       "Expected import identifier with format: workflow_state_name:team_key. Got: %q"
       [fmt.ArgString (ImportStateRequest.ID req)]).

(** The six types of a workflow state. *)
Definition workflow_state_types : list string :=
  ["triage"; "backlog"; "unstarted"; "started"; "completed"; "canceled"].

(** A remote API that echoes stored values: a create succeeds and answers
    with the values it was sent, and a read of the id it gave out answers
    with the same values, the team in the nested team reference. *)
Definition echoes {W : Type} (c : Client W) : Prop :=
  forall (w : W) (input : WorkflowStateCreateInput.t),
  exists answer w1,
    createWorkflowState c w input = (Ok answer, w1) /\
    let ws := createWorkflowStateResponse.WorkflowState
                (createWorkflowStateResponse.WorkflowStateCreate answer) in
    createWorkflowStateResponse.Name ws = WorkflowStateCreateInput.Name input /\
    createWorkflowStateResponse.Type_ ws = WorkflowStateCreateInput.Type_ input /\
    createWorkflowStateResponse.Position ws
      = WorkflowStateCreateInput.Position input /\
    createWorkflowStateResponse.Color ws = WorkflowStateCreateInput.Color input /\
    createWorkflowStateResponse.Description ws
      = WorkflowStateCreateInput.Description input /\
    exists got w2,
      getWorkflowState c w1 (createWorkflowStateResponse.Id ws) = (Ok got, w2) /\
      let g := getWorkflowStateResponse.WorkflowState got in
      getWorkflowStateResponse.Name g = WorkflowStateCreateInput.Name input /\
      getWorkflowStateResponse.Type_ g = WorkflowStateCreateInput.Type_ input /\
      getWorkflowStateResponse.Position g
        = WorkflowStateCreateInput.Position input /\
      getWorkflowStateResponse.Color g = WorkflowStateCreateInput.Color input /\
      getWorkflowStateResponse.Description g
        = WorkflowStateCreateInput.Description input /\
      getWorkflowStateResponse.Id (getWorkflowStateResponse.Team g)
        = WorkflowStateCreateInput.TeamId input.

(** A valid input: a configuration whose required attributes are known,
    whose optional description is null or known, and which the validation
    of the schema accepts. *)
Definition known (v : types.String) : Prop :=
  exists s, v = types.StringValue s.

Definition valid_input (s : schema) (config : WorkflowStateResourceModel)
    : Prop :=
  known (Name config) /\ known (Type_ config) /\ known (Color config) /\
  known (TeamId config) /\ Description config <> types.StringUnknown /\
  (exists p, Position config = types.NumberValue p) /\
  diag.HasError (ValidateConfig s config) = false.

(** The two errors the framework reports on the configuration of an
    attribute against its flags. *)
Definition read_only (path : string) : diag.Diagnostic :=
  diag.AttributeConfigurationDiagnostic path
    "Invalid Configuration for Read-Only Attribute".

Definition missing (path : string) : diag.Diagnostic :=
  diag.AttributeConfigurationDiagnostic path
    "Missing Configuration for Required Attribute".

(** What the validation of an attribute with a well-formed definition
    reports on a configuration: a read-only attribute that is configured,
    a required attribute that is null, and what a validator of a string
    attribute reports on its value. *)
Definition reports (config : WorkflowStateResourceModel)
    (entry : string * Attribute) (d : diag.Diagnostic) : Prop :=
  exists null,
    tfsdk.attribute_is_null config (fst entry) = Some null /\
    ((IsComputed (snd entry) && negb (IsOptional (snd entry)) && negb null
      = true /\ d = read_only (fst entry)) \/
     (IsRequired (snd entry) && null = true /\ d = missing (fst entry)) \/
     exists a v value,
       snd entry = AttrString a /\ In v (Validators a) /\
       tfsdk.string_attribute config (fst entry) = Some value /\
       In d (ValidateString v (fst entry) value)).

(** An import identifier of the form [name:team_key]: one colon, between
    two non-empty halves. *)
Definition names_workflow_state (id name teamKey : string) : Prop :=
  id = name +:+ String ":" teamKey /\
  name <> "" /\ teamKey <> "" /\
  strings.Contains name ":" = false /\ strings.Contains teamKey ":" = false.

(** The errors the validation of the schema can report on a
    configuration: an id that is configured, a required attribute that is
    left out, and the four errors of the validators. *)
Definition validation_error (colorRegex uuidRegex : regexp.Regexp)
    (config : WorkflowStateResourceModel) (d : diag.Diagnostic) : Prop :=
  (d = read_only "id" /\ Id config <> types.StringNull) \/
  (d = missing "name" /\ Name config = types.StringNull) \/
  (d = missing "type" /\ Type_ config = types.StringNull) \/
  (d = missing "position" /\ Position config = types.NumberNull) \/
  (d = missing "color" /\ Color config = types.StringNull) \/
  (d = missing "team_id" /\ TeamId config = types.StringNull) \/
  (d = diag.AttributeErrorDiagnostic "name" (AtLeastCharacters 1) ""
   /\ Name config = types.StringValue "") \/
  (exists t,
     d = diag.AttributeErrorDiagnostic "type"
           (OneOfValues workflow_state_types) t
     /\ Type_ config = types.StringValue t /\ ~ In t workflow_state_types) \/
  (exists c,
     d = diag.AttributeErrorDiagnostic "color" (Message "must be a hex color") c
     /\ Color config = types.StringValue c
     /\ regexp.MatchString colorRegex c = false) \/
  (exists u,
     d = diag.AttributeErrorDiagnostic "team_id" (Message "must be an uuid") u
     /\ TeamId config = types.StringValue u
     /\ regexp.MatchString uuidRegex u = false).

(** The fields of a float64 are in range. *)
Definition wellformed (x : float64) : Prop :=
  0 <= bexp x <= 2047 /\ 0 <= fraction x < 2 ^ big.mbits.

(** * Properties *)

(** ** math/big: an exact narrowing loses nothing *)

Module big_facts.
Import big.

Lemma bitLen_pos (m : Z) : 0 < m -> 1 <= bitLen m.
Proof. intros H. unfold bitLen. pose proof (Z.log2_nonneg m). lia. Qed.

Lemma bitLen_bounds (m : Z) :
  0 < m -> 2 ^ (bitLen m - 1) <= m < 2 ^ bitLen m.
Proof.
  intros H. unfold bitLen.
  replace (Z.log2 m + 1 - 1) with (Z.log2 m) by lia.
  apply Z.log2_spec; assumption.
Qed.

Lemma leading_pos (m p : Z) : 0 < m -> 1 <= p -> 0 < leading m p.
Proof.
  intros Hm Hp. unfold leading.
  pose proof (bitLen_bounds m Hm) as [Hlo Hhi].
  pose proof (bitLen_pos m Hm) as HL.
  destruct (Z_le_gt_dec (bitLen m) p) as [Hle | Hgt].
  - rewrite Z.shiftl_mul_pow2 by lia.
    apply Z.mul_pos_pos; [assumption | apply Z.pow_pos_nonneg; lia].
  - replace (p - bitLen m) with (- (bitLen m - p)) by lia.
    rewrite Z.shiftl_opp_r, Z.shiftr_div_pow2 by lia.
    apply Z.div_str_pos. split; [apply Z.pow_pos_nonneg; lia |].
    eapply Z.le_trans; [| exact Hlo].
    apply Z.pow_le_mono_r; lia.
Qed.

Lemma bitLen_leading (m p : Z) :
  0 < m -> 1 <= p -> bitLen (leading m p) = p.
Proof.
  intros Hm Hp. unfold leading, bitLen at 1.
  rewrite Z.log2_shiftl' by assumption.
  unfold bitLen. lia.
Qed.

Lemma leading_self (m : Z) : leading m (bitLen m) = m.
Proof. unfold leading. rewrite Z.sub_diag. apply Z.shiftl_0_r. Qed.

(** The bits [round] drops are all zero exactly when the mantissa is the
    truncation shifted back. *)
Lemma low_bits_zero (m r : Z) :
  0 <= r -> Z.testbit m r = false -> Z.land m (Z.ones r) = 0 ->
  Z.shiftl (Z.shiftr m (r + 1)) (r + 1) = m.
Proof.
  intros Hr Hbit Hlow.
  apply Z.bits_inj'. intros i Hi.
  destruct (Z_lt_ge_dec i (r + 1)) as [Hlt | Hge].
  - rewrite Z.shiftl_spec_low by assumption.
    destruct (Z.eq_dec i r) as [-> | Hne]; [now rewrite Hbit |].
    assert (Hb : Z.testbit (Z.land m (Z.ones r)) i = false)
      by (rewrite Hlow; apply Z.bits_0).
    rewrite Z.land_spec, Z.ones_spec_low in Hb by lia.
    now rewrite andb_true_r in Hb.
  - rewrite Z.shiftl_spec by assumption.
    rewrite Z.shiftr_spec by lia. f_equal. lia.
Qed.

Lemma makeAcc_not_exact (b : bool) : makeAcc b <> Exact.
Proof. destruct b; discriminate. Qed.

Lemma round_exact (neg : bool) (mant exp prec rm re : Z) :
  0 < mant -> 1 <= prec ->
  round neg mant exp prec = (rm, re, Exact) ->
  re = exp /\
  ((bitLen mant <= prec /\ rm = mant) \/
   (prec < bitLen mant /\ rm = Z.shiftr mant (bitLen mant - prec)
    /\ Z.shiftl rm (bitLen mant - prec) = mant)).
Proof.
  intros Hm Hp. unfold round.
  destruct (Z.leb_spec (bitLen mant) prec) as [Hle | Hgt].
  - intros [= <- <-]. split; [reflexivity | left; split; [lia | reflexivity]].
  - set (r := bitLen mant - prec - 1).
    replace (bitLen mant - prec) with (r + 1) by (unfold r; lia).
    destruct (Z.testbit mant r) eqn:Hbit; simpl.
    + destruct (negb (sticky mant r =? 0) || Z.odd (Z.shiftr mant (r + 1)));
        [destruct (Z.shiftr mant (r + 1) + 1 =? 2 ^ prec) |];
        intros [= _ _ Hacc]; now apply makeAcc_not_exact in Hacc.
    + destruct (sticky mant r =? 0) eqn:Hs; simpl.
      * intros [= <- <-]. split; [reflexivity | right].
        split; [lia | split; [reflexivity |]].
        apply low_bits_zero; [unfold r; lia | assumption |].
        unfold sticky in Hs.
        destruct (Z.land mant (Z.ones r) =? 0) eqn:Hl;
          [now apply Z.eqb_eq in Hl | discriminate].
      * intros [= _ _ Hacc]. now apply makeAcc_not_exact in Hacc.
Qed.

Lemma round_exact_leading (neg : bool) (mant exp prec rm re : Z) :
  0 < mant -> 1 <= prec ->
  round neg mant exp prec = (rm, re, Exact) ->
  re = exp /\ 0 < rm /\
  leading (leading rm prec) (Z.max prec (bitLen mant))
  = leading mant (Z.max prec (bitLen mant)).
Proof.
  intros Hm Hp Hr.
  destruct (round_exact _ _ _ _ _ _ Hm Hp Hr) as [-> [[Hle ->] | [Hlt [Hrm Hback]]]];
    (split; [reflexivity |]).
  - split; [assumption |].
    rewrite Z.max_l by assumption.
    rewrite <- (bitLen_leading mant prec Hm Hp) at 2.
    apply leading_self.
  - assert (Hlead : leading mant prec = rm).
    { unfold leading. rewrite Hrm.
      replace (prec - bitLen mant) with (- (bitLen mant - prec)) by lia.
      apply Z.shiftl_opp_r. }
    assert (Hpos : 0 < rm) by (rewrite <- Hlead; now apply leading_pos).
    assert (Hlen : bitLen rm = prec) by (rewrite <- Hlead; now apply bitLen_leading).
    split; [assumption |].
    rewrite Z.max_r by lia.
    rewrite <- Hlen at 1. rewrite leading_self, leading_self.
    unfold leading. now rewrite Hlen.
Qed.

Lemma ucmp_aligned (xm ym : positive) (e : Z) :
  leading (Z.pos xm) (Z.max (bitLen (Z.pos xm)) (bitLen (Z.pos ym)))
  = leading (Z.pos ym) (Z.max (bitLen (Z.pos xm)) (bitLen (Z.pos ym))) ->
  ucmp xm e ym e = 0 /\ ucmp ym e xm e = 0.
Proof.
  intros H. unfold ucmp. rewrite Z.gtb_ltb, Z.ltb_irrefl.
  rewrite (Z.max_comm (bitLen (Z.pos ym))), H, Z.compare_refl. now split.
Qed.

Lemma Cmp_same_sign (neg : bool) (xm ym : positive) (e : Z) :
  leading (Z.pos xm) (Z.max (bitLen (Z.pos xm)) (bitLen (Z.pos ym)))
  = leading (Z.pos ym) (Z.max (bitLen (Z.pos xm)) (bitLen (Z.pos ym))) ->
  Cmp (Finite neg xm e) (Finite neg ym e) = 0.
Proof.
  intros H. destruct (ucmp_aligned xm ym e H) as [H1 H2].
  unfold Cmp. simpl. destruct neg; simpl; assumption.
Qed.

Lemma Float64_exact (x : Float) (f : float64) :
  Float64 x = (f, Exact) ->
  exists y, NewFloat f = Some y /\ Cmp y x = 0.
Proof.
  destruct x as [neg | neg m xexp | neg]; simpl.
  - intros [= <-]. exists (Zero neg). split; [reflexivity | now destruct neg].
  - set (mant := Z.pos m). assert (Hm : 0 < mant) by (unfold mant; lia).
    set (e := xexp - 1).
    set (p := if e <? emin then mbits + 1 - emin + e else mbits + 1).
    destruct ((e <? emin) && ((p <? 0) || ((p =? 0) && (sticky mant (bitLen mant - 1) =? 0)))) eqn:Hu.
    { destruct neg; intros [= _ ]. }
    destruct ((e <? emin) && (p =? 0)) eqn:Hd.
    { destruct neg; intros [= _ ]. }
    assert (Hp : 1 <= p).
    { unfold p in *. destruct (Z.ltb_spec e emin); [| unfold mbits; lia].
      simpl in Hu, Hd. apply Z.eqb_neq in Hd.
      apply orb_false_iff in Hu as [Hu _]. apply Z.ltb_ge in Hu. lia. }
    destruct (round neg mant xexp p) as [[rm re] racc] eqn:Hr.
    destruct (re - 1 >? emax) eqn:Hov.
    { destruct neg; intros [= _ ]. }
    assert (Hov' : re - 1 <= emax) by (destruct (Z.gtb_spec (re - 1) emax); [discriminate | lia]).
    destruct (Z.ltb_spec (re - 1) emin) as [Hden | Hden]; intros [= <- ->];
      destruct (round_exact_leading _ _ _ _ _ _ Hm Hp Hr) as [-> [Hrm Hlead]];
      fold e in Hden, Hov' |- *.
    + (* denormal *)
      assert (Hpe : p = mbits + 1 - emin + e)
        by (unfold p; destruct (Z.ltb_spec e emin); [reflexivity | lia]).
      rewrite <- Hpe.
      pose proof (leading_pos rm p Hrm Hp) as HA.
      pose proof (bitLen_leading rm p Hrm Hp) as HL.
      unfold NewFloat, math.IsNaN, math.IsZero, math.IsInf; simpl.
      destruct (Z.eqb_spec (leading rm p) 0) as [H0 | _]; [lia |]. simpl.
      eexists. split; [reflexivity |].
      rewrite HL.
      replace (p + (emin - mbits)) with xexp by (unfold e in Hpe; unfold emin, mbits, bias in *; lia).
      apply Cmp_same_sign.
      rewrite Z2Pos.id by assumption. rewrite HL. exact Hlead.
    + (* normal *)
      assert (Hpe : p = mbits + 1)
        by (unfold p; destruct (Z.ltb_spec e emin); [lia | reflexivity]).
      rewrite <- Hpe.
      pose proof (leading_pos rm p Hrm Hp) as HA.
      pose proof (bitLen_leading rm p Hrm Hp) as HL.
      pose proof (bitLen_bounds _ HA) as HB. rewrite HL in HB.
      assert (Hfrac : Z.land (leading rm p) (Z.ones mbits) = leading rm p - 2 ^ mbits).
      { rewrite Z.land_ones by (unfold mbits; lia).
        symmetry. apply Z.mod_unique_pos with (q := 1); [| lia].
        replace (p - 1) with mbits in HB by lia.
        replace (2 ^ p) with (2 * 2 ^ mbits) in HB
          by (rewrite Hpe, Z.pow_add_r by (unfold mbits; lia);
              change (2 ^ 1) with 2; lia).
        lia. }
      rewrite Hfrac.
      unfold NewFloat, math.IsNaN, math.IsZero, math.IsInf; simpl.
      destruct (Z.eqb_spec (e + bias) 2047) as [H0 | _];
        [unfold emax, bias in *; lia |].
      destruct (Z.eqb_spec (e + bias) 0) as [H0 | _];
        [unfold emin, bias in *; lia |]. simpl.
      eexists. split; [reflexivity |].
      replace (2 ^ mbits + (leading rm p - 2 ^ mbits)) with (leading rm p) by lia.
      replace (e + bias - bias + 1) with xexp by (unfold e; lia).
      apply Cmp_same_sign.
      rewrite Z2Pos.id by assumption. rewrite HL. exact Hlead.
  - intros [= <-]. exists (Inf neg). split; [reflexivity | now destruct neg].
Qed.

(** [NewFloat] panics on a NaN only. *)
Lemma NewFloat_not_NaN (x : float64) :
  math.IsNaN x = false <-> exists y, NewFloat x = Some y.
Proof.
  unfold NewFloat. split.
  - intros ->. destruct (math.IsZero x); [now eexists |].
    destruct (math.IsInf x); [now eexists |].
    destruct (bexp x =? 0); now eexists.
  - intros [y H]. destruct (math.IsNaN x); [discriminate | reflexivity].
Qed.

Lemma bitLen_le (m n : Z) : 0 < m -> m < 2 ^ n -> 0 <= n -> bitLen m <= n.
Proof.
  intros Hm Hlt Hn. unfold bitLen.
  assert (Z.log2 m < n) by (apply Z.log2_lt_pow2; assumption). lia.
Qed.

Lemma round_fits (neg : bool) (mant exp prec : Z) :
  bitLen mant <= prec -> round neg mant exp prec = (mant, exp, Exact).
Proof.
  intros H. unfold round.
  destruct (Z.leb_spec (bitLen mant) prec); [reflexivity | lia].
Qed.

(** Narrowing the exact value of a float64 gives it back, exactly. *)
Lemma Float64_NewFloat (x : float64) (y : Float) :
  wellformed x -> NewFloat x = Some y -> Float64 y = (x, Exact).
Proof.
  destruct x as [s be fr]. unfold wellformed, NewFloat, math.IsNaN,
    math.IsZero, math.IsInf. simpl. intros [Hbe Hfr].
  destruct (Z.eqb_spec be 2047) as [-> | Hne]; simpl.
  - destruct (Z.eqb_spec fr 0) as [-> | Hz]; simpl; [| discriminate].
    now intros [= <-].
  - destruct (Z.eqb_spec be 0) as [-> | Hn0]; simpl.
    + destruct (Z.eqb_spec fr 0) as [-> | Hz]; simpl.
      * now intros [= <-].
      * intros [= <-]. simpl.
        assert (Hpos : 0 < fr) by lia.
        rewrite Z2Pos.id by assumption.
        pose proof (bitLen_pos fr Hpos) as HL1.
        pose proof (bitLen_le fr mbits Hpos (proj2 Hfr) ltac:(unfold mbits; lia)) as HL2.
        unfold emin, emax, bias, mbits in *.
        destruct (Z.ltb_spec (bitLen fr + (1 - 1023 - 52) - 1) (1 - 1023)) as [_ | ?]; [| lia].
        replace (52 + 1 - (1 - 1023) + (bitLen fr + (1 - 1023 - 52) - 1))
          with (bitLen fr) by lia.
        destruct (Z.ltb_spec (bitLen fr) 0); [lia |].
        destruct (Z.eqb_spec (bitLen fr) 0); [lia |]. simpl.
        rewrite round_fits by lia.
        destruct (Z.gtb_spec (bitLen fr + (1 - 1023 - 52) - 1) 1023); [lia |].
        destruct (Z.ltb_spec (bitLen fr + (1 - 1023 - 52) - 1) (1 - 1023)); [| lia].
        replace (52 + 1 - (1 - 1023) + (bitLen fr + (1 - 1023 - 52) - 1))
          with (bitLen fr) by lia.
        now rewrite leading_self.
    + intros [= <-]. simpl.
      assert (Hpos : 0 < 2 ^ mbits + fr) by lia.
      rewrite Z2Pos.id by assumption.
      assert (HL : bitLen (2 ^ mbits + fr) = mbits + 1).
      { unfold bitLen. f_equal. apply Z.log2_unique; [unfold mbits; lia |].
        replace (2 ^ Z.succ mbits) with (2 * 2 ^ mbits)
          by (rewrite Z.pow_succ_r; unfold mbits; lia).
        lia. }
      unfold emin, emax, bias in *.
      destruct (Z.ltb_spec (be - 1023 + 1 - 1) (1 - 1023)); [lia |]. simpl.
      rewrite round_fits by lia.
      destruct (Z.gtb_spec (be - 1023 + 1 - 1) 1023); [lia |].
      destruct (Z.ltb_spec (be - 1023 + 1 - 1) (1 - 1023)); [lia |].
      rewrite <- HL at 1. rewrite leading_self.
      rewrite Z.land_ones by (unfold mbits; lia).
      replace (be - 1023 + 1 - 1 + 1023) with be by lia.
      replace ((2 ^ mbits + fr) mod 2 ^ mbits) with fr;
        [reflexivity |].
      apply Z.mod_unique_pos with (q := 1); lia.
Qed.

Lemma round_pos (neg : bool) (mant exp prec rm re : Z) (acc : Accuracy) :
  0 < mant -> 1 <= prec ->
  round neg mant exp prec = (rm, re, acc) -> 0 < rm /\ exp <= re.
Proof.
  intros Hm Hp. unfold round.
  destruct (Z.leb_spec (bitLen mant) prec) as [Hle | Hgt].
  - intros [= <- <- _]. lia.
  - set (r := bitLen mant - prec - 1).
    assert (Ht : 0 < Z.shiftr mant (r + 1)).
    { pose proof (leading_pos mant prec Hm Hp) as H. unfold leading in H.
      replace (prec - bitLen mant) with (- (r + 1)) in H by (unfold r; lia).
      now rewrite Z.shiftl_opp_r in H. }
    assert (Hpow : 0 < 2 ^ (prec - 1)) by (apply Z.pow_pos_nonneg; lia).
    destruct (negb (Z.testbit mant r) && (sticky mant r =? 0)).
    + intros [= <- <- _]. lia.
    + destruct (Z.testbit mant r && _).
      * destruct (_ =? _); intros [= <- <- _]; lia.
      * intros [= <- <- _]. lia.
Qed.

(** What [Float64] returns is a float64 with its fields in range, and
    never a NaN. *)
Lemma Float64_wellformed (x : Float) :
  wellformed (fst (Float64 x)) /\ math.IsNaN (fst (Float64 x)) = false.
Proof.
  assert (H52 : 0 < 2 ^ mbits) by (apply Z.pow_pos_nonneg; unfold mbits; lia).
  destruct x as [neg | neg m xexp | neg]; simpl.
  - unfold wellformed; simpl. split; [lia | reflexivity].
  - set (mant := Z.pos m). assert (Hm : 0 < mant) by (unfold mant; lia).
    set (e := xexp - 1).
    set (p := if e <? emin then mbits + 1 - emin + e else mbits + 1).
    destruct ((e <? emin) && ((p <? 0) || ((p =? 0) && (sticky mant (bitLen mant - 1) =? 0)))) eqn:Hu.
    { unfold wellformed; simpl. split; [lia | reflexivity]. }
    destruct ((e <? emin) && (p =? 0)) eqn:Hd.
    { unfold wellformed; simpl. split; [unfold mbits; lia | reflexivity]. }
    assert (Hp : 1 <= p).
    { unfold p in *. destruct (Z.ltb_spec e emin); [| unfold mbits; lia].
      simpl in Hu, Hd. apply Z.eqb_neq in Hd.
      apply orb_false_iff in Hu as [Hu _]. apply Z.ltb_ge in Hu. lia. }
    destruct (round neg mant xexp p) as [[rm re] racc] eqn:Hr.
    destruct (round_pos _ _ _ _ _ _ _ Hm Hp Hr) as [Hrm Hre].
    destruct (Z.gtb_spec (re - 1) emax) as [Hov | Hov].
    { unfold wellformed; simpl. split; [lia | reflexivity]. }
    destruct (Z.ltb_spec (re - 1) emin) as [Hden | Hnorm];
      unfold wellformed; simpl.
    + assert (Hp' : 1 <= mbits + 1 - emin + (re - 1) <= mbits).
      { unfold p, e in Hp. destruct (Z.ltb_spec (xexp - 1) emin);
          unfold emin, bias, mbits in *; lia. }
      pose proof (leading_pos rm _ Hrm (proj1 Hp')) as HA.
      pose proof (bitLen_bounds _ HA) as HB.
      rewrite bitLen_leading in HB by lia.
      split; [| reflexivity]. split; [lia |]. split; [lia |].
      eapply Z.lt_le_trans; [apply HB |].
      apply Z.pow_le_mono_r; lia.
    + rewrite Z.land_ones by (unfold mbits; lia).
      pose proof (Z.mod_pos_bound (leading rm (mbits + 1)) (2 ^ mbits) H52).
      unfold emin, emax, bias in *.
      split; [split; [lia | assumption] |].
      unfold math.IsNaN; simpl.
      destruct (Z.eqb_spec (re - 1 + 1023) 2047); [lia | reflexivity].
  - unfold wellformed; simpl. split; [lia | reflexivity].
Qed.


End big_facts.

(** ** Diagnostics *)

Module diag_facts.
Import diag.

Lemma Append_nil (ds : Diagnostics) : Append ds [] = ds.
Proof. reflexivity. Qed.

Lemma Append_cons (ds new : Diagnostics) (d : Diagnostic) :
  Append ds (d :: new)
  = Append (if Contains ds d then ds else ds ++ [d]) new.
Proof. reflexivity. Qed.

Lemma Contains_In (ds : Diagnostics) (d : Diagnostic) :
  Contains ds d = true <-> In d ds.
Proof.
  unfold Contains. rewrite bool_decide_eq_true. apply list_elem_of_In.
Qed.

(** After [Append] the list holds what it held and what was appended. *)
Lemma In_Append (d : Diagnostic) (ds new : Diagnostics) :
  In d (Append ds new) <-> In d ds \/ In d new.
Proof.
  revert ds. induction new as [| n new IH]; intros ds.
  - rewrite Append_nil. simpl. tauto.
  - rewrite Append_cons, IH. simpl.
    destruct (Contains ds n) eqn:E.
    + apply Contains_In in E. split; [tauto |].
      intros [H | [<- | H]]; tauto.
    + rewrite in_app_iff. simpl. tauto.
Qed.

(** A list without errors does not hold the error that is added. *)
Lemma AddError_fresh (ds : Diagnostics) (summary : string)
    (detail : fmt.Formatted) :
  HasError ds = false ->
  AddError ds summary detail = ds ++ [ErrorDiagnostic summary detail].
Proof.
  intros H. unfold AddError. rewrite Append_cons, Append_nil.
  destruct (Contains ds (ErrorDiagnostic summary detail)) eqn:E;
    [| reflexivity].
  apply Contains_In in E.
  assert (HasError ds = true)
    by (apply existsb_exists; eexists; split; [exact E | reflexivity]).
  congruence.
Qed.

Lemma HasError_In (ds : Diagnostics) (d : Diagnostic) :
  In d ds -> IsError d = true -> HasError ds = true.
Proof. intros H E. apply existsb_exists. now exists d. Qed.

End diag_facts.

(** An error added to a response that holds none is one more diagnostic,
    and the state is not touched. *)
Lemma client_error_fails (resp : Response) (detail : fmt.Formatted) :
  diag.HasError (Diagnostics resp) = false ->
  fails_with_client_error resp (add_error resp "Client Error" detail).
Proof.
  intros H. split; [reflexivity |].
  eexists. split; [now eexists |].
  unfold add_error. cbn [Diagnostics]. now apply diag_facts.AddError_fresh.
Qed.

Lemma identifier_error_fails (resp : Response) (detail : fmt.Formatted) :
  diag.HasError (Diagnostics resp) = false ->
  fails_with_identifier_error resp
    (add_error resp "Unexpected Import Identifier" detail).
Proof.
  intros H. split; [reflexivity |].
  eexists. split; [now eexists |].
  unfold add_error. cbn [Diagnostics]. now apply diag_facts.AddError_fresh.
Qed.

(** ** What one invocation does, by the answer of the client *)

Section Runs.

Context {W : Type}.
Variable r : WorkflowStateResource W.
Variable w : W.
Variable resp : Response.
Hypothesis no_error : diag.HasError (Diagnostics resp) = false.

Lemma append_nothing : append_diagnostics resp [] = resp.
Proof.
  unfold append_diagnostics. rewrite diag_facts.Append_nil.
  now destruct resp.
Qed.

Ltac enter :=
  unfold tfsdk.Get;
  cbn [CreateRequest.Plan ReadRequest.State UpdateRequest.Plan DeleteRequest.State];
  cbv beta iota zeta; rewrite append_nothing, no_error;
  unfold bind, deref, ret, remote; simpl.

Ltac stored :=
  unfold set_state, tfsdk.StateSet; simpl; reflexivity.

Lemma Create_run (data : WorkflowStateResourceModel) (p : big.Float) :
  Position data = types.NumberValue p ->
  Create r {| CreateRequest.Plan := Some data |} resp w =
  let (result, w') := createWorkflowState (client r) w (create_input data p) in
  match result with
  | Err err =>
      Returned {|
        response := add_error resp "Client Error"
          (fmt.Sprintf "Unable to create workflow state, got error: %s"
             [fmt.ArgError (Some err)]);
        world := w';
        calls := [CallCreate (create_input data p)] |}
  | Ok response =>
      let ws := createWorkflowStateResponse.WorkflowState
                  (createWorkflowStateResponse.WorkflowStateCreate response) in
      match big.NewFloat (createWorkflowStateResponse.Position ws) with
      | None => Panicked
      | Some f =>
          Returned {|
            response := {|
              State := Some {|
                Id := types.StringValue (createWorkflowStateResponse.Id ws);
                Name := types.StringValue (createWorkflowStateResponse.Name ws);
                Type_ := types.StringValue (createWorkflowStateResponse.Type_ ws);
                Description := types.StringPointerValue
                                 (createWorkflowStateResponse.Description ws);
                Color := types.StringValue (createWorkflowStateResponse.Color ws);
                Position := types.NumberValue f;
                TeamId := TeamId data |};
              Diagnostics := Diagnostics resp |};
            world := w';
            calls := [CallCreate (create_input data p)] |}
      end
  end.
Proof.
  intros Hp. unfold Create. enter. rewrite Hp. simpl.
  unfold create_input.
  destruct (big.Float64 p) as [position acc]. simpl.
  destruct (createWorkflowState _ _ _) as [[response | err] w']; simpl.
  - destruct (big.NewFloat _); simpl; [stored | reflexivity].
  - reflexivity.
Qed.

Lemma Read_run (data : WorkflowStateResourceModel) :
  Read r {| ReadRequest.State := Some data |} resp w =
  let id := types.ValueString (Id data) in
  let (result, w') := getWorkflowState (client r) w id in
  match result with
  | Err err =>
      Returned {|
        response := add_error resp "Client Error"
          (fmt.Sprintf "Unable to read workflow state, got error: %s"
             [fmt.ArgError (Some err)]);
        world := w';
        calls := [CallGet id] |}
  | Ok response =>
      let ws := getWorkflowStateResponse.WorkflowState response in
      match big.NewFloat (getWorkflowStateResponse.Position ws) with
      | None => Panicked
      | Some f =>
          Returned {|
            response := {|
              State := Some {|
                Id := Id data;
                Name := types.StringValue (getWorkflowStateResponse.Name ws);
                Type_ := types.StringValue (getWorkflowStateResponse.Type_ ws);
                Description := types.StringPointerValue
                                 (getWorkflowStateResponse.Description ws);
                Color := types.StringValue (getWorkflowStateResponse.Color ws);
                Position := types.NumberValue f;
                TeamId := types.StringValue
                            (getWorkflowStateResponse.Id
                               (getWorkflowStateResponse.Team ws)) |};
              Diagnostics := Diagnostics resp |};
            world := w';
            calls := [CallGet id] |}
      end
  end.
Proof.
  unfold Read. enter.
  destruct (getWorkflowState _ _ _) as [[response | err] w']; simpl.
  - destruct (big.NewFloat _); simpl; [stored | reflexivity].
  - reflexivity.
Qed.

Lemma Update_run (data : WorkflowStateResourceModel) (prior : tfsdk.State)
    (p : big.Float) :
  Position data = types.NumberValue p ->
  Update r {| UpdateRequest.Plan := Some data; UpdateRequest.State := prior |}
    resp w =
  let id := types.ValueString (Id data) in
  let (result, w') :=
    updateWorkflowState (client r) w (update_input data p) id in
  match result with
  | Err err =>
      Returned {|
        response := add_error resp "Client Error"
          (fmt.Sprintf "Unable to update workflow state, got error: %s"
             [fmt.ArgError (Some err)]);
        world := w';
        calls := [CallUpdate (update_input data p) id] |}
  | Ok response =>
      let ws := updateWorkflowStateResponse.WorkflowState
                  (updateWorkflowStateResponse.WorkflowStateUpdate response) in
      match big.NewFloat (updateWorkflowStateResponse.Position ws) with
      | None => Panicked
      | Some f =>
          Returned {|
            response := {|
              State := Some {|
                Id := Id data;
                Name := types.StringValue (updateWorkflowStateResponse.Name ws);
                Type_ := Type_ data;
                Description := types.StringPointerValue
                                 (updateWorkflowStateResponse.Description ws);
                Color := types.StringValue (updateWorkflowStateResponse.Color ws);
                Position := types.NumberValue f;
                TeamId := TeamId data |};
              Diagnostics := Diagnostics resp |};
            world := w';
            calls := [CallUpdate (update_input data p) id] |}
      end
  end.
Proof.
  intros Hp. unfold Update. enter. rewrite Hp. simpl.
  unfold update_input.
  destruct (big.Float64 p) as [position acc]. simpl.
  destruct (updateWorkflowState _ _ _ _) as [[response | err] w']; simpl.
  - destruct (big.NewFloat _); simpl; [stored | reflexivity].
  - reflexivity.
Qed.

Lemma Delete_run (data : WorkflowStateResourceModel) :
  Delete r {| DeleteRequest.State := Some data |} resp w =
  let id := types.ValueString (Id data) in
  let (result, w') := deleteWorkflowState (client r) w id in
  Returned {|
    response :=
      match result with
      | Err err =>
          add_error resp "Client Error"
            (fmt.Sprintf "Unable to delete workflow state, got error: %s"
               [fmt.ArgError (Some err)])
      | Ok _ => resp
      end;
    world := w';
    calls := [CallDelete id] |}.
Proof.
  unfold Delete. enter.
  destruct (deleteWorkflowState _ _ _) as [[response | err] w']; reflexivity.
Qed.

End Runs.

Section ImportRuns.

Context {W : Type}.
Variable r : WorkflowStateResource W.

Lemma ImportState_rejects (req : ImportStateRequest.t) (resp : Response) (w : W) :
  (forall name teamKey,
     strings.Split (ImportStateRequest.ID req) ":" = [name; teamKey] ->
     name = "" \/ teamKey = "") ->
  ImportState r req resp w =
  Returned {| response := malformed req resp; world := w; calls := [] |}.
Proof.
  intros H. unfold ImportState.
  destruct (strings.Split _ _) as [| name [| teamKey [| extra parts]]];
    try reflexivity.
  destruct (H name teamKey eq_refl) as [-> | ->]; simpl.
  - reflexivity.
  - now rewrite orb_true_r.
Qed.

Lemma ImportState_run (req : ImportStateRequest.t) (resp : Response) (w : W)
    (name teamKey : string) :
  strings.Split (ImportStateRequest.ID req) ":" = [name; teamKey] ->
  name <> "" -> teamKey <> "" ->
  ImportState r req resp w =
  let (result, w') := findWorkflowState (client r) w name teamKey in
  Returned {|
    response :=
      match result with
      | Err err =>
          add_error resp "Client Error"
            (fmt.Sprintf "Unable to import workflow state, got error: %s"
               [fmt.ArgError (Some err)])
      | Ok response =>
          match findWorkflowStateResponse.Nodes
                  (findWorkflowStateResponse.WorkflowStates response) with
          | [node] =>
              set_state_attribute resp "id" (findWorkflowStateResponse.Id node)
          | _ =>
              add_error resp "Client Error"
                (fmt.Sprintf "Unable to import workflow state, got error: %s"
                   [fmt.ArgError None])
          end
      end;
    world := w';
    calls := [CallFind name teamKey] |}.
Proof.
  intros Hs Hn Hk. unfold ImportState. rewrite Hs.
  apply String.eqb_neq in Hn, Hk. rewrite Hn, Hk. simpl.
  unfold bind, remote, ret.
  destruct (findWorkflowState _ _ _ _) as [[response | err] w']; simpl;
    [| reflexivity].
  destruct (findWorkflowStateResponse.Nodes _) as [| node [| node' rest]];
    reflexivity.
Qed.

End ImportRuns.

(** ** strings.Split *)

Module strings_facts.
Import strings.
Local Arguments String.append : simpl nomatch.

Lemma append_empty (s : string) : s +:+ EmptyString = s.
Proof. induction s; simpl; congruence. Qed.

Lemma append_byte (cur s : string) (c : ascii) :
  (cur +:+ String c EmptyString) +:+ s = cur +:+ String c s.
Proof. induction cur; simpl; congruence. Qed.

Lemma split_from_cons (cur s : string) (sep : ascii) :
  exists first rest, split_from cur s sep = first :: rest.
Proof.
  revert cur. induction s as [| c s IH]; intros cur; simpl.
  - now exists cur, [].
  - destruct (Ascii.eqb c sep); [now eexists _, _ | apply IH].
Qed.

(** No separator: one part, the string itself. *)
Lemma split_from_no_separator (cur s : string) (sep : ascii) :
  Contains s sep = false -> split_from cur s sep = [cur +:+ s].
Proof.
  revert cur. induction s as [| c s IH]; intros cur; simpl.
  - intros _. now rewrite append_empty.
  - intros H. apply orb_false_iff in H as [Hc Hs]. rewrite Hc.
    rewrite IH by assumption. now rewrite append_byte.
Qed.

Lemma Split_no_separator (s : string) (sep : ascii) :
  Contains s sep = false -> Split s sep = [s].
Proof. apply split_from_no_separator. Qed.

(** The parts, joined by the separator, are the string that was split. *)
Lemma Join_split_from (cur s : string) (sep : ascii) :
  Join (split_from cur s sep) sep = cur +:+ s.
Proof.
  revert cur. induction s as [| c s IH]; intros cur; simpl.
  - now rewrite append_empty.
  - destruct (Ascii.eqb_spec c sep) as [-> | Hne].
    + destruct (split_from_cons EmptyString s sep) as (first & rest & E).
      specialize (IH EmptyString). rewrite E in *. simpl in *.
      now rewrite IH.
    + rewrite IH. apply append_byte.
Qed.

Lemma Join_Split (s : string) (sep : ascii) : Join (Split s sep) sep = s.
Proof. apply Join_split_from. Qed.

Lemma Contains_append (a b : string) (sep : ascii) :
  Contains (a +:+ b) sep = Contains a sep || Contains b sep.
Proof. induction a; simpl; [reflexivity | now rewrite IHa, orb_assoc]. Qed.

(** No part holds the separator. *)
Lemma split_from_free (cur s : string) (sep : ascii) :
  Contains cur sep = false ->
  Forall (fun part => Contains part sep = false) (split_from cur s sep).
Proof.
  revert cur. induction s as [| c s IH]; intros cur Hcur; simpl.
  - now constructor.
  - destruct (Ascii.eqb c sep) eqn:E.
    + constructor; [assumption | now apply IH].
    + apply IH. rewrite Contains_append, Hcur. simpl. now rewrite E.
Qed.

Lemma Split_free (s : string) (sep : ascii) :
  Forall (fun part => Contains part sep = false) (Split s sep).
Proof. now apply split_from_free. Qed.

(** A part without the separator, followed by the separator, is split
    off. *)
Lemma split_from_part (cur part rest : string) (sep : ascii) :
  Contains part sep = false ->
  split_from cur (part +:+ String sep rest) sep
  = (cur +:+ part) :: split_from EmptyString rest sep.
Proof.
  revert cur. induction part as [| c part IH]; intros cur Hp; simpl.
  - now rewrite Ascii.eqb_refl, append_empty.
  - simpl in Hp. apply orb_false_iff in Hp as [Hc Hp]. rewrite Hc.
    rewrite IH by assumption. now rewrite append_byte.
Qed.

(** A name and a key without the separator, joined by it, split back
    into the two. *)
Lemma Split_two (name key : string) (sep : ascii) :
  Contains name sep = false -> Contains key sep = false ->
  Split (name +:+ String sep key) sep = [name; key].
Proof.
  intros Hn Hk. unfold Split.
  rewrite split_from_part by assumption.
  now rewrite split_from_no_separator by assumption.
Qed.

(** Two separators make three parts or more. *)
Lemma Split_three (a b rest : string) (sep : ascii) :
  Contains a sep = false -> Contains b sep = false ->
  exists c more,
    Split (a +:+ String sep (b +:+ String sep rest)) sep = a :: b :: c :: more.
Proof.
  intros Ha Hb. unfold Split.
  rewrite split_from_part by assumption.
  rewrite split_from_part by assumption.
  destruct (split_from_cons EmptyString rest sep) as (c & more & ->).
  now exists c, more.
Qed.

End strings_facts.

Section ImportClaims.

Context {W : Type}.
Variable r : WorkflowStateResource W.

(** C1. An identifier that splits on [:] into a name and a team key, both
    non-empty, sends one find-by-name-and-team-key query (the response
    holds no error on entry, as the framework hands it over). Unless it
    answers with exactly one match (an error, no match, two or more
    matches) the import fails with a Client Error; with exactly one
    match, the id attribute of the state becomes that match's id and no
    other attribute is written. *)
Theorem import_needs_exactly_one_match
    (req : ImportStateRequest.t) (resp : Response) (w w' : W)
    (name teamKey : string) (result : Result findWorkflowStateResponse.t) :
  diag.HasError (Diagnostics resp) = false ->
  strings.Split (ImportStateRequest.ID req) ":" = [name; teamKey] ->
  name <> "" -> teamKey <> "" ->
  findWorkflowState (client r) w name teamKey = (result, w') ->
  exists out,
    ImportState r req resp w = Returned out /\
    world out = w' /\
    calls out = [CallFind name teamKey] /\
    match result with
    | Ok found =>
        match findWorkflowStateResponse.Nodes
                (findWorkflowStateResponse.WorkflowStates found) with
        | [node] =>
            Diagnostics (response out) = Diagnostics resp /\
            exists m,
              State (response out) = Some m /\
              Id m = types.StringValue (findWorkflowStateResponse.Id node) /\
              Name m = Name (object_of (State resp)) /\
              Type_ m = Type_ (object_of (State resp)) /\
              Description m = Description (object_of (State resp)) /\
              Color m = Color (object_of (State resp)) /\
              Position m = Position (object_of (State resp)) /\
              TeamId m = TeamId (object_of (State resp))
        | _ => fails_with_client_error resp (response out)
        end
    | Err _ => fails_with_client_error resp (response out)
    end.
Proof.
  intros Hok Hs Hn Hk Hfind.
  rewrite (ImportState_run r req resp w name teamKey Hs Hn Hk), Hfind.
  eexists. split; [reflexivity |]. cbn [response world calls].
  split; [reflexivity |]. split; [reflexivity |].
  destruct result as [found | err]; [| now apply client_error_fails].
  destruct (findWorkflowStateResponse.Nodes _) as [| node [| node' rest]];
    try now apply client_error_fails.
  unfold set_state_attribute, tfsdk.SetAttribute. simpl.
  split; [reflexivity |].
  eexists. split; [reflexivity |]. simpl.
  destruct (State resp); simpl; repeat split; reflexivity.
Qed.

(** C2. An identifier that does not split on [:] into exactly two
    non-empty parts fails with the identifier-format error, and nothing
    is sent to the remote API (the response holds no error on entry, as
    the framework hands it over). *)
Theorem import_rejects_malformed_identifier
    (req : ImportStateRequest.t) (resp : Response) (w : W) :
  diag.HasError (Diagnostics resp) = false ->
  (forall name teamKey,
     strings.Split (ImportStateRequest.ID req) ":" = [name; teamKey] ->
     name = "" \/ teamKey = "") ->
  exists out,
    ImportState r req resp w = Returned out /\
    fails_with_identifier_error resp (response out) /\
    calls out = [] /\
    world out = w.
Proof.
  intros Hok H. rewrite (ImportState_rejects r req resp w H).
  eexists. split; [reflexivity |]. cbn [response world calls].
  split; [| split; reflexivity].
  now apply identifier_error_fails.
Qed.

End ImportClaims.

(** The four shapes of a malformed identifier. *)

Local Arguments String.append : simpl nomatch.

Lemma no_two_parts_without_separator (id : string) :
  strings.Contains id ":" = false ->
  forall name teamKey, strings.Split id ":" = [name; teamKey] ->
                       name = "" \/ teamKey = "".
Proof.
  intros H name teamKey E.
  rewrite strings_facts.Split_no_separator in E by assumption. discriminate.
Qed.

Lemma no_two_parts_empty_name (key : string) :
  forall name teamKey, strings.Split (String ":" key) ":" = [name; teamKey] ->
                       name = "" \/ teamKey = "".
Proof.
  intros name teamKey E. unfold strings.Split in E. simpl in E.
  injection E as <- _. now left.
Qed.

Lemma no_two_parts_empty_key (nm : string) :
  strings.Contains nm ":" = false ->
  forall name teamKey, strings.Split (nm +:+ ":") ":" = [name; teamKey] ->
                       name = "" \/ teamKey = "".
Proof.
  intros H name teamKey E.
  rewrite strings_facts.Split_two in E by (assumption || reflexivity).
  injection E as _ <-. now right.
Qed.

Lemma no_two_parts_of_three (a b rest : string) :
  strings.Contains a ":" = false -> strings.Contains b ":" = false ->
  forall name teamKey,
    strings.Split (a +:+ String ":" (b +:+ String ":" rest)) ":" = [name; teamKey] ->
    name = "" \/ teamKey = "".
Proof.
  intros Ha Hb name teamKey E.
  destruct (strings_facts.Split_three a b rest ":" Ha Hb) as (c & more & E').
  rewrite E' in E. discriminate.
Qed.

(** ** Replace-on-change attributes *)

Lemma StringEqual_eq (a b : types.String) :
  types.StringEqual a b = true <-> a = b.
Proof.
  destruct a, b; simpl; split; try congruence; try discriminate.
  - intros H. apply String.eqb_eq in H. now subst.
  - intros [= ->]. apply String.eqb_refl.
Qed.

Section Listed.

Variable s : schema.
Variables state plan : WorkflowStateResourceModel.

Lemma attribute_listed (name : string) (a : Attribute) :
  Attributes s !! name = Some a ->
  In (name, a) (map_to_list (Attributes s)).
Proof.
  intros H. apply list_elem_of_In.
  apply (elem_of_map_to_list (Attributes s) name a). exact H.
Qed.

Lemma listed_attribute (name : string) (a : Attribute) :
  In (name, a) (map_to_list (Attributes s)) ->
  Attributes s !! name = Some a.
Proof.
  intros H. apply list_elem_of_In in H.
  apply (elem_of_map_to_list (Attributes s) name a). exact H.
Qed.

Lemma replace_listed (name : string) (a : Attribute) :
  Attributes s !! name = Some a ->
  requires_replace state plan (name, a) = true
  <-> In name (RequiresReplacePaths s state plan).
Proof.
  intros Hl. unfold RequiresReplacePaths. split.
  - intros H. apply (in_map fst _ (name, a)), filter_In.
    split; [now apply attribute_listed | assumption].
  - intros H. apply in_map_iff in H as [[name' a'] [Hn H]]. simpl in Hn. subst.
    apply filter_In in H as [H Hr].
    apply listed_attribute in H.
    rewrite Hl in H. now injection H as <-.
Qed.

Lemma listed_replace (name : string) :
  In name (RequiresReplacePaths s state plan) ->
  exists a, In (name, a) (map_to_list (Attributes s)) /\
            requires_replace state plan (name, a) = true.
Proof.
  unfold RequiresReplacePaths. intros H.
  apply in_map_iff in H as [[name' a] [Hn H]]. simpl in Hn. subst.
  apply filter_In in H as [H Hr]. now exists a.
Qed.

End Listed.

Section ReplaceOnChange.

Variables colorRegex uuidRegex : regexp.Regexp.
Variables state plan : WorkflowStateResourceModel.

Let paths := RequiresReplacePaths (Schema colorRegex uuidRegex) state plan.

Lemma lookup_type :
  Attributes (Schema colorRegex uuidRegex) !! "type" =
  Some (AttrString {|
    MarkdownDescription := "Type of the workflow state.";
    Required := true; Optional := false; Computed := false;
    PlanModifiers := [RequiresReplace];
    Validators := [OneOf ["triage"; "backlog"; "unstarted";
                          "started"; "completed"; "canceled"]] |}).
Proof. vm_compute. reflexivity. Qed.

Lemma lookup_team_id :
  Attributes (Schema colorRegex uuidRegex) !! "team_id" =
  Some (AttrString {|
    MarkdownDescription := "Identifier of the team.";
    Required := true; Optional := false; Computed := false;
    PlanModifiers := [RequiresReplace];
    Validators := [RegexMatches uuidRegex "must be an uuid"] |}).
Proof. vm_compute. reflexivity. Qed.

Lemma type_change_replaces : Type_ plan <> Type_ state <-> In "type" paths.
Proof.
  unfold paths. rewrite <- (replace_listed _ state plan "type" _ lookup_type).
  cbn [requires_replace PlanModifiers existsb is_RequiresReplace orb andb].
  change (tfsdk.string_attribute state "type") with (Some (Type_ state)).
  change (tfsdk.string_attribute plan "type") with (Some (Type_ plan)).
  rewrite negb_true_iff, <- not_true_iff_false, StringEqual_eq. reflexivity.
Qed.

Lemma team_change_replaces : TeamId plan <> TeamId state <-> In "team_id" paths.
Proof.
  unfold paths. rewrite <- (replace_listed _ state plan "team_id" _ lookup_team_id).
  cbn [requires_replace PlanModifiers existsb is_RequiresReplace orb andb].
  change (tfsdk.string_attribute state "team_id") with (Some (TeamId state)).
  change (tfsdk.string_attribute plan "team_id") with (Some (TeamId plan)).
  rewrite negb_true_iff, <- not_true_iff_false, StringEqual_eq. reflexivity.
Qed.

(** No replacement is asked for: the type and the team are the ones of
    the prior state. *)
Lemma in_place_keeps_type_and_team :
  paths = [] -> Type_ plan = Type_ state /\ TeamId plan = TeamId state.
Proof.
  intros H. split.
  - destruct (types.StringEqual (Type_ plan) (Type_ state)) eqn:E;
      [now apply StringEqual_eq |].
    exfalso. assert (Hin : In "type" paths).
    { apply type_change_replaces. intros Heq.
      apply StringEqual_eq in Heq. congruence. }
    rewrite H in Hin. exact Hin.
  - destruct (types.StringEqual (TeamId plan) (TeamId state)) eqn:E;
      [now apply StringEqual_eq |].
    exfalso. assert (Hin : In "team_id" paths).
    { apply team_change_replaces. intros Heq.
      apply StringEqual_eq in Heq. congruence. }
    rewrite H in Hin. exact Hin.
Qed.

(** The attributes of the schema, as listed. *)
Lemma schema_names (name : string) (a : Attribute) :
  In (name, a) (map_to_list (Attributes (Schema colorRegex uuidRegex))) ->
  In name ["id"; "name"; "type"; "position"; "color"; "description"; "team_id"].
Proof.
  intros H. apply (listed_attribute (Schema colorRegex uuidRegex)) in H.
  apply (elem_of_dom_2 (D := gset string)) in H.
  assert (Hdom : dom (Attributes (Schema colorRegex uuidRegex))
                 = list_to_set ["id"; "name"; "type"; "position"; "color";
                                "description"; "team_id"] :> gset string).
  { unfold Schema. cbn [Attributes]. rewrite dom_list_to_map_L. reflexivity. }
  rewrite Hdom in H. apply elem_of_list_to_set in H.
  now apply list_elem_of_In.
Qed.

Lemma lookup_id :
  Attributes (Schema colorRegex uuidRegex) !! "id" =
  Some (AttrString {|
    MarkdownDescription := "Identifier of the workflow state.";
    Required := false; Optional := false; Computed := true;
    PlanModifiers := [UseStateForUnknown];
    Validators := [] |}).
Proof. vm_compute. reflexivity. Qed.

Lemma lookup_name :
  Attributes (Schema colorRegex uuidRegex) !! "name" =
  Some (AttrString {|
    MarkdownDescription := "Name of the workflow state.";
    Required := true; Optional := false; Computed := false;
    PlanModifiers := [];
    Validators := [UTF8LengthAtLeast 1] |}).
Proof. vm_compute. reflexivity. Qed.

Lemma lookup_position :
  Attributes (Schema colorRegex uuidRegex) !! "position" =
  Some (AttrNumber "Position of the workflow state." true false false).
Proof. vm_compute. reflexivity. Qed.

Lemma lookup_color :
  Attributes (Schema colorRegex uuidRegex) !! "color" =
  Some (AttrString {|
    MarkdownDescription := "Color of the workflow state.";
    Required := true; Optional := false; Computed := false;
    PlanModifiers := [];
    Validators := [RegexMatches colorRegex "must be a hex color"] |}).
Proof. vm_compute. reflexivity. Qed.

Lemma lookup_description :
  Attributes (Schema colorRegex uuidRegex) !! "description" =
  Some (AttrString {|
    MarkdownDescription := "Description of the workflow state.";
    Required := false; Optional := true; Computed := false;
    PlanModifiers := [];
    Validators := [] |}).
Proof. vm_compute. reflexivity. Qed.

(** A change of another attribute asks for no replacement. *)
Lemma only_type_and_team_replace (name : string) :
  In name paths -> name = "type" \/ name = "team_id".
Proof.
  unfold paths. intros H.
  apply (listed_replace (Schema colorRegex uuidRegex)) in H as [a [H Hr]].
  pose proof (schema_names _ _ H) as Hname.
  apply (listed_attribute (Schema colorRegex uuidRegex)) in H.
  simpl in Hname.
  destruct Hname as [<- | [<- | [<- | [<- | [<- | [<- | [<- | []]]]]]]];
    [ rewrite lookup_id in H | rewrite lookup_name in H
    | auto | rewrite lookup_position in H | rewrite lookup_color in H
    | rewrite lookup_description in H | auto ];
    injection H as <-; discriminate Hr.
Qed.

End ReplaceOnChange.

Section LifecycleClaims.

Context {W : Type}.
Variable r : WorkflowStateResource W.

(** C3. [Update] sends the planned name, color, description and position
    (narrowed) to the update-by-id call, and nothing of the type or the
    team; on success the state holds the name, position, color and
    description of the answer and the planned id, type and team. The type
    and the team are those of the prior state whenever the plan is not a
    replacement, and a plan that changes either of them is one. *)
Theorem update_sends_and_refreshes_mutable_fields
    (colorRegex uuidRegex : regexp.Regexp)
    (w w' : W) (resp : Response) (data prior : WorkflowStateResourceModel)
    (p f : big.Float) (answer : updateWorkflowStateResponse.t) :
  let ws := updateWorkflowStateResponse.WorkflowState
              (updateWorkflowStateResponse.WorkflowStateUpdate answer) in
  let input := {|
    WorkflowStateUpdateInput.Name := types.ValueString (Name data);
    WorkflowStateUpdateInput.Color := types.ValueString (Color data);
    WorkflowStateUpdateInput.Description :=
      types.ValueStringPointer (Description data);
    WorkflowStateUpdateInput.Position := fst (big.Float64 p) |} in
  let paths :=
    RequiresReplacePaths (Schema colorRegex uuidRegex) prior data in
  diag.HasError (Diagnostics resp) = false ->
  Position data = types.NumberValue p ->
  updateWorkflowState (client r) w input (types.ValueString (Id data))
    = (Ok answer, w') ->
  big.NewFloat (updateWorkflowStateResponse.Position ws) = Some f ->
  exists out m,
    Update r {| UpdateRequest.Plan := Some data;
                UpdateRequest.State := Some prior |} resp w = Returned out /\
    calls out = [CallUpdate input (types.ValueString (Id data))] /\
    Diagnostics (response out) = Diagnostics resp /\
    State (response out) = Some m /\
    Name m = types.StringValue (updateWorkflowStateResponse.Name ws) /\
    Position m = types.NumberValue f /\
    Color m = types.StringValue (updateWorkflowStateResponse.Color ws) /\
    Description m = types.StringPointerValue
                      (updateWorkflowStateResponse.Description ws) /\
    Id m = Id data /\ Type_ m = Type_ data /\ TeamId m = TeamId data /\
    (paths = [] -> Type_ m = Type_ prior /\ TeamId m = TeamId prior) /\
    (Type_ data <> Type_ prior -> In "type" paths) /\
    (TeamId data <> TeamId prior -> In "team_id" paths).
Proof.
  intros ws input paths Hok Hp Hcall Hf.
  rewrite (Update_run r w resp Hok data (Some prior) p Hp).
  subst ws input paths. unfold update_input. cbv zeta.
  rewrite Hcall, Hf.
  eexists _, _. split; [reflexivity |]. cbn [response calls State Diagnostics
    Id Name Type_ Description Color Position TeamId].
  repeat (split; [reflexivity |]).
  cbn [Type_ TeamId].
  split; [apply in_place_keeps_type_and_team |].
  split; [apply type_change_replaces | apply team_change_replaces].
Qed.

(** C4. [Read] asks for the workflow state of the current id. On success
    every attribute but the id is overwritten from the answer, the team
    from the answer's nested team; on any error the invocation fails
    with a Client Error and the state stays as it was: the resource is
    not removed from it. *)
Theorem read_overwrites_or_fails
    (w w' : W) (resp : Response) (data : WorkflowStateResourceModel)
    (result : Result getWorkflowStateResponse.t) :
  diag.HasError (Diagnostics resp) = false ->
  getWorkflowState (client r) w (types.ValueString (Id data)) = (result, w') ->
  (forall answer, result = Ok answer ->
     math.IsNaN (getWorkflowStateResponse.Position
                   (getWorkflowStateResponse.WorkflowState answer)) = false) ->
  exists out,
    Read r {| ReadRequest.State := Some data |} resp w = Returned out /\
    world out = w' /\
    calls out = [CallGet (types.ValueString (Id data))] /\
    match result with
    | Ok answer =>
        let ws := getWorkflowStateResponse.WorkflowState answer in
        Diagnostics (response out) = Diagnostics resp /\
        exists m f,
          State (response out) = Some m /\
          big.NewFloat (getWorkflowStateResponse.Position ws) = Some f /\
          Id m = Id data /\
          Name m = types.StringValue (getWorkflowStateResponse.Name ws) /\
          Type_ m = types.StringValue (getWorkflowStateResponse.Type_ ws) /\
          Position m = types.NumberValue f /\
          Color m = types.StringValue (getWorkflowStateResponse.Color ws) /\
          Description m = types.StringPointerValue
                            (getWorkflowStateResponse.Description ws) /\
          TeamId m = types.StringValue
                       (getWorkflowStateResponse.Id
                          (getWorkflowStateResponse.Team ws))
    | Err _ =>
        fails_with_client_error resp (response out) /\
        (State resp <> None -> State (response out) <> None)
    end.
Proof.
  intros Hok Hcall Hnan.
  rewrite (Read_run r w resp Hok data). cbv zeta. rewrite Hcall.
  destruct result as [answer | err].
  - specialize (Hnan answer eq_refl).
    apply big_facts.NewFloat_not_NaN in Hnan as [f Hf]. rewrite Hf.
    eexists. split; [reflexivity |]. simpl.
    repeat (split; [reflexivity |]).
    eexists _, f. repeat (split; [reflexivity |]). reflexivity.
  - eexists. split; [reflexivity |]. simpl.
    repeat (split; [reflexivity |]).
    split; [| trivial].
    now apply client_error_fails.
Qed.

(** C5. When the remote call of [Create], [Read], [Update] or [Delete]
    returns an error, the invocation ends there: one Client Error is
    added to the diagnostics, the call that failed is the only one made,
    and the state of the response is the one it had on entry. [Create]
    and [Update] reach their call with a planned position; [Read] and
    [Delete] do not look at the position of the state. *)
Theorem remote_error_is_terminal
    (w w' : W) (resp : Response) (data : WorkflowStateResourceModel)
    (err : error) :
  diag.HasError (Diagnostics resp) = false ->
  let id := types.ValueString (Id data) in
  (forall p,
   Position data = types.NumberValue p ->
   createWorkflowState (client r) w (create_input data p) = (Err err, w') ->
   exists out,
     Create r {| CreateRequest.Plan := Some data |} resp w = Returned out /\
     fails_with_client_error resp (response out) /\
     calls out = [CallCreate (create_input data p)] /\ world out = w') /\
  (getWorkflowState (client r) w id = (Err err, w') ->
   exists out,
     Read r {| ReadRequest.State := Some data |} resp w = Returned out /\
     fails_with_client_error resp (response out) /\
     calls out = [CallGet id] /\ world out = w') /\
  (forall p prior,
   Position data = types.NumberValue p ->
   updateWorkflowState (client r) w (update_input data p) id = (Err err, w') ->
   exists out,
     Update r {| UpdateRequest.Plan := Some data;
                 UpdateRequest.State := prior |} resp w = Returned out /\
     fails_with_client_error resp (response out) /\
     calls out = [CallUpdate (update_input data p) id] /\ world out = w') /\
  (deleteWorkflowState (client r) w id = (Err err, w') ->
   exists out,
     Delete r {| DeleteRequest.State := Some data |} resp w = Returned out /\
     fails_with_client_error resp (response out) /\
     calls out = [CallDelete id] /\ world out = w').
Proof.
  intros Hok id.
  assert (Hfail : forall msg,
    fails_with_client_error resp
      (add_error resp "Client Error" (fmt.Sprintf msg [fmt.ArgError (Some err)])))
    by (intros msg; now apply client_error_fails).
  repeat split.
  - intros p Hp Hcall. rewrite (Create_run r w resp Hok data p Hp), Hcall.
    eexists. split; [reflexivity |]. simpl. auto.
  - intros Hcall. rewrite (Read_run r w resp Hok data). cbv zeta.
    fold id. rewrite Hcall.
    eexists. split; [reflexivity |]. simpl. auto.
  - intros p prior Hp Hcall. rewrite (Update_run r w resp Hok data prior p Hp).
    cbv zeta. fold id. rewrite Hcall.
    eexists. split; [reflexivity |]. simpl. auto.
  - intros Hcall. rewrite (Delete_run r w resp Hok data). cbv zeta.
    fold id. rewrite Hcall.
    eexists. split; [reflexivity |]. simpl. auto.
Qed.

(** C8. The position [Create] and [Update] put on the wire is the
    float64 narrowing of the planned number. The accuracy of the
    narrowing is dropped: two plans whose positions narrow to the same
    float64 run alike, and a narrowing that is not exact adds no
    diagnostic to a call that succeeds. *)
Theorem position_is_narrowed_silently
    (w w' : W) (resp : Response) (data : WorkflowStateResourceModel)
    (p : big.Float) :
  diag.HasError (Diagnostics resp) = false ->
  Position data = types.NumberValue p ->
  (* Create *)
  (forall result,
     createWorkflowState (client r) w (create_input data p) = (result, w') ->
     (forall answer, result = Ok answer ->
        math.IsNaN (createWorkflowStateResponse.Position
                      (createWorkflowStateResponse.WorkflowState
                         (createWorkflowStateResponse.WorkflowStateCreate answer)))
        = false) ->
     exists out input,
       Create r {| CreateRequest.Plan := Some data |} resp w = Returned out /\
       calls out = [CallCreate input] /\
       WorkflowStateCreateInput.Position input = fst (big.Float64 p) /\
       (forall answer, result = Ok answer ->
          Diagnostics (response out) = Diagnostics resp)) /\
  (* Update *)
  (forall prior result,
     updateWorkflowState (client r) w (update_input data p)
       (types.ValueString (Id data)) = (result, w') ->
     (forall answer, result = Ok answer ->
        math.IsNaN (updateWorkflowStateResponse.Position
                      (updateWorkflowStateResponse.WorkflowState
                         (updateWorkflowStateResponse.WorkflowStateUpdate answer)))
        = false) ->
     exists out input id,
       Update r {| UpdateRequest.Plan := Some data;
                   UpdateRequest.State := prior |} resp w = Returned out /\
       calls out = [CallUpdate input id] /\
       WorkflowStateUpdateInput.Position input = fst (big.Float64 p) /\
       (forall answer, result = Ok answer ->
          Diagnostics (response out) = Diagnostics resp)) /\
  (* the accuracy is not read *)
  (forall data' p' prior,
     Position data' = types.NumberValue p' ->
     fst (big.Float64 p') = fst (big.Float64 p) ->
     Id data' = Id data -> Name data' = Name data ->
     Type_ data' = Type_ data -> Description data' = Description data ->
     Color data' = Color data -> TeamId data' = TeamId data ->
     Create r {| CreateRequest.Plan := Some data' |} resp w
     = Create r {| CreateRequest.Plan := Some data |} resp w /\
     Update r {| UpdateRequest.Plan := Some data';
                 UpdateRequest.State := prior |} resp w
     = Update r {| UpdateRequest.Plan := Some data;
                   UpdateRequest.State := prior |} resp w).
Proof.
  intros Hok Hp. split; [| split].
  - intros result Hcall Hnan.
    rewrite (Create_run r w resp Hok data p Hp), Hcall.
    destruct result as [answer | err].
    + specialize (Hnan answer eq_refl). cbv zeta.
      apply big_facts.NewFloat_not_NaN in Hnan as [f Hf]. rewrite Hf.
      eexists _, _. split; [reflexivity |]. simpl.
      repeat (split; [reflexivity |]). reflexivity.
    + eexists _, _. split; [reflexivity |]. simpl.
      repeat (split; [reflexivity |]). discriminate.
  - intros prior result Hcall Hnan.
    rewrite (Update_run r w resp Hok data prior p Hp). cbv zeta. rewrite Hcall.
    destruct result as [answer | err].
    + specialize (Hnan answer eq_refl).
      apply big_facts.NewFloat_not_NaN in Hnan as [f Hf]. rewrite Hf.
      eexists _, _, _. split; [reflexivity |]. simpl.
      repeat (split; [reflexivity |]). reflexivity.
    + eexists _, _, _. split; [reflexivity |]. simpl.
      repeat (split; [reflexivity |]). discriminate.
  - intros data' p' prior Hp' Hfst Hid Hname Htype Hdesc Hcolor Hteam.
    rewrite (Create_run r w resp Hok data p Hp),
            (Create_run r w resp Hok data' p' Hp'),
            (Update_run r w resp Hok data prior p Hp),
            (Update_run r w resp Hok data' prior p' Hp').
    unfold create_input, update_input.
    rewrite Hfst, Hid, Hname, Htype, Hdesc, Hcolor, Hteam. split; reflexivity.
Qed.

(** C9. The input of the create call is built from the planned name,
    type, position, color, description and team: it has no id, and the
    planned id has no part in it. On success the id in the state is the
    id of the answer. *)
Theorem create_takes_the_id_from_the_answer
    (w w' : W) (resp : Response) (data : WorkflowStateResourceModel)
    (p f : big.Float) (answer : createWorkflowStateResponse.t) :
  let ws := createWorkflowStateResponse.WorkflowState
              (createWorkflowStateResponse.WorkflowStateCreate answer) in
  let input := {|
    WorkflowStateCreateInput.Name := types.ValueString (Name data);
    WorkflowStateCreateInput.Type_ := types.ValueString (Type_ data);
    WorkflowStateCreateInput.Position := fst (big.Float64 p);
    WorkflowStateCreateInput.Color := types.ValueString (Color data);
    WorkflowStateCreateInput.Description :=
      types.ValueStringPointer (Description data);
    WorkflowStateCreateInput.TeamId := types.ValueString (TeamId data) |} in
  diag.HasError (Diagnostics resp) = false ->
  Position data = types.NumberValue p ->
  createWorkflowState (client r) w input = (Ok answer, w') ->
  big.NewFloat (createWorkflowStateResponse.Position ws) = Some f ->
  exists out m,
    Create r {| CreateRequest.Plan := Some data |} resp w = Returned out /\
    calls out = [CallCreate input] /\
    Diagnostics (response out) = Diagnostics resp /\
    State (response out) = Some m /\
    Id m = types.StringValue (createWorkflowStateResponse.Id ws) /\
    (forall id',
       Create r {| CreateRequest.Plan := Some {|
                     Id := id'; Name := Name data; Type_ := Type_ data;
                     Description := Description data; Color := Color data;
                     Position := Position data; TeamId := TeamId data |} |}
         resp w = Returned out).
Proof.
  intros ws input Hok Hp Hcall Hf.
  assert (Hrun : forall id',
    Create r {| CreateRequest.Plan := Some {|
                  Id := id'; Name := Name data; Type_ := Type_ data;
                  Description := Description data; Color := Color data;
                  Position := Position data; TeamId := TeamId data |} |}
      resp w
    = Create r {| CreateRequest.Plan := Some data |} resp w).
  { intros id'.
    rewrite (Create_run r w resp Hok data p Hp).
    now rewrite (Create_run r w resp Hok
                   {| Id := id'; Name := Name data; Type_ := Type_ data;
                      Description := Description data; Color := Color data;
                      Position := Position data; TeamId := TeamId data |}
                   p Hp). }
  rewrite (Create_run r w resp Hok data p Hp) in Hrun |- *.
  subst ws input. unfold create_input in Hrun |- *.
  rewrite Hcall in Hrun |- *. cbv zeta in Hrun |- *.
  rewrite Hf in Hrun |- *.
  eexists _, _. split; [reflexivity |]. simpl.
  repeat (split; [reflexivity |]). exact Hrun.
Qed.

(** C10. On success [Create] stores the planned team: the answer of the
    create call has no team in it, and whatever it holds the team of the
    state is the one of the plan. *)
Theorem create_keeps_the_planned_team
    (w w' : W) (resp : Response) (data : WorkflowStateResourceModel)
    (p f : big.Float) (answer : createWorkflowStateResponse.t) :
  let ws := createWorkflowStateResponse.WorkflowState
              (createWorkflowStateResponse.WorkflowStateCreate answer) in
  diag.HasError (Diagnostics resp) = false ->
  Position data = types.NumberValue p ->
  createWorkflowState (client r) w (create_input data p) = (Ok answer, w') ->
  big.NewFloat (createWorkflowStateResponse.Position ws) = Some f ->
  exists out m,
    Create r {| CreateRequest.Plan := Some data |} resp w = Returned out /\
    State (response out) = Some m /\
    TeamId m = TeamId data /\
    Id m = types.StringValue (createWorkflowStateResponse.Id ws) /\
    Name m = types.StringValue (createWorkflowStateResponse.Name ws) /\
    Type_ m = types.StringValue (createWorkflowStateResponse.Type_ ws) /\
    Position m = types.NumberValue f /\
    Color m = types.StringValue (createWorkflowStateResponse.Color ws) /\
    Description m = types.StringPointerValue
                      (createWorkflowStateResponse.Description ws).
Proof.
  intros ws Hok Hp Hcall Hf.
  rewrite (Create_run r w resp Hok data p Hp), Hcall. cbv zeta.
  subst ws. rewrite Hf.
  eexists _, _. split; [reflexivity |]. simpl.
  repeat (split; [reflexivity |]). reflexivity.
Qed.

End LifecycleClaims.

(** ** Validation *)

Section Validation.

Variable s : schema.
Variable config : WorkflowStateResourceModel.

(** What a validator reports is an error on the attribute. *)
Lemma ValidateString_errors (v : Validator) (path : string)
    (value : types.String) (d : diag.Diagnostic) :
  In d (ValidateString v path value) ->
  d = diag.AttributeErrorDiagnostic path (Describe v) (types.ValueString value).
Proof.
  unfold ValidateString.
  destruct (types.IsNull value || types.IsUnknown value); [intros [] |].
  destruct v as [n | values | re msg].
  - destruct (utf8.RuneCountInString _ <? n); simpl; intuition.
  - destruct (existsb _ values); simpl; intuition.
  - destruct (regexp.MatchString re _); simpl; intuition.
Qed.

(** The diagnostics after the validators of one attribute value: those
    held before and those a validator reports. *)
Lemma validators_run (name : string) (value : types.String)
    (vs : list Validator) (ds : diag.Diagnostics) (d : diag.Diagnostic) :
  In d (fold_left
          (fun acc v => diag.Append acc (ValidateString v name value)) vs ds)
  <-> In d ds \/ exists v, In v vs /\ In d (ValidateString v name value).
Proof.
  revert ds. induction vs as [| v vs IH]; intros ds; simpl.
  - split; [tauto | intros [H | (v & [] & _)]; exact H].
  - rewrite IH, diag_facts.In_Append. split.
    + intros [[H | H] | (v' & Hv & H)]; eauto.
    + intros [H | (v' & [<- | Hv] & H)]; eauto.
Qed.

Lemma attribute_is_null_string (name : string) (value : types.String) :
  tfsdk.string_attribute config name = Some value ->
  tfsdk.attribute_is_null config name = Some (types.IsNull value).
Proof. unfold tfsdk.attribute_is_null. now intros ->. Qed.

(** What the validation of one attribute reports. *)
Lemma AttributeValidate_In (entry : string * Attribute) (d : diag.Diagnostic) :
  IsRequired (snd entry) || IsOptional (snd entry) || IsComputed (snd entry)
  = true ->
  In d (AttributeValidate config entry) <-> reports config entry d.
Proof.
  destruct entry as [name a]. unfold reports, AttributeValidate.
  cbn [fst snd]. intros Hflags.
  replace (negb (IsRequired a) && negb (IsOptional a) && negb (IsComputed a))
    with false
    by (destruct (IsRequired a), (IsOptional a), (IsComputed a);
        first [reflexivity | discriminate Hflags]).
  destruct (tfsdk.attribute_is_null config name) as [null |];
    [| split; [intros [] | intros (null & [=] & _)]].
  set (ds0 := if IsComputed a && negb (IsOptional a) && negb null
              then [read_only name] else []).
  set (ds1 := if IsRequired a && null
              then diag.Append ds0 [missing name] else ds0).
  assert (Hds1 : In d ds1 <->
    (IsComputed a && negb (IsOptional a) && negb null = true
     /\ d = read_only name) \/
    (IsRequired a && null = true /\ d = missing name)).
  { unfold ds1, ds0.
    destruct (IsRequired a && null);
      destruct (IsComputed a && negb (IsOptional a) && negb null);
      rewrite ?diag_facts.In_Append; simpl; intuition congruence. }
  change (In d match a with
               | AttrString a0 =>
                   match tfsdk.string_attribute config name with
                   | Some value =>
                       fold_left
                         (fun acc v =>
                            diag.Append acc (ValidateString v name value))
                         (Validators a0) ds1
                   | None => ds1
                   end
               | AttrNumber _ _ _ _ => ds1
               end
          <-> exists null0, Some null = Some null0 /\
                ((IsComputed a && negb (IsOptional a) && negb null0 = true
                  /\ d = read_only name) \/
                 (IsRequired a && null0 = true /\ d = missing name) \/
                 exists a0 v value,
                   a = AttrString a0 /\ In v (Validators a0) /\
                   tfsdk.string_attribute config name = Some value /\
                   In d (ValidateString v name value))).
  destruct a as [a | desc req opt comp].
  - destruct (tfsdk.string_attribute config name) as [value |] eqn:E.
    + rewrite validators_run, Hds1. split.
      * intros [[H | H] | (v & Hv & H)]; exists null;
          (split; [reflexivity |]); [tauto | tauto |].
        right. right. now exists a, v, value.
      * intros (null' & [= <-] & [H | [H | (a' & v & value' & [= <-] & Hv & [= <-] & H)]]);
          [tauto | tauto | right; eauto].
    + rewrite Hds1. split.
      * intros H. exists null. split; [reflexivity | tauto].
      * intros (null' & [= <-] & [H | [H | (a' & v & value & _ & _ & [=] & _)]]);
          tauto.
  - rewrite Hds1. split.
    + intros H. exists null. split; [reflexivity | tauto].
    + intros (null' & [= <-] & [H | [H | (a & v & value & [=] & _)]]); tauto.
Qed.

Lemma validate_entries_In (entries : list (string * Attribute))
    (ds : diag.Diagnostics) (d : diag.Diagnostic) :
  In d (fold_left
          (fun acc entry => diag.Append acc (AttributeValidate config entry))
          entries ds)
  <-> In d ds \/
      exists entry, In entry entries /\ In d (AttributeValidate config entry).
Proof.
  revert ds. induction entries as [| e entries IH]; intros ds; simpl.
  - split; [tauto | intros [H | (e & [] & _)]; exact H].
  - rewrite IH, diag_facts.In_Append. split.
    + intros [[H | H] | (e' & He & H)]; eauto.
    + intros [H | (e' & [<- | He] & H)]; eauto.
Qed.

(** The diagnostics of a validation are what the validation of the
    attributes of the schema reports. *)
Lemma ValidateConfig_In (d : diag.Diagnostic) :
  In d (ValidateConfig s config) <->
  exists name a,
    Attributes s !! name = Some a /\ In d (AttributeValidate config (name, a)).
Proof.
  unfold ValidateConfig. rewrite validate_entries_In. split.
  - intros [[] | ([name a] & He & H)].
    apply listed_attribute in He. now exists name, a.
  - intros (name & a & Hl & H). right.
    exists (name, a). split; [now apply attribute_listed | exact H].
Qed.

(** A validator of a listed attribute that rejects the configured value
    makes the validation fail. *)
Lemma rejected_by (name : string) (a : StringAttribute) (v : Validator)
    (value : types.String) (d : diag.Diagnostic) :
  Attributes s !! name = Some (AttrString a) ->
  Required a || Optional a || Computed a = true ->
  In v (Validators a) ->
  tfsdk.string_attribute config name = Some value ->
  In d (ValidateString v name value) ->
  In d (ValidateConfig s config).
Proof.
  intros Hl Hflags Hv Hval Hd. apply ValidateConfig_In.
  exists name, (AttrString a). split; [exact Hl |].
  apply AttributeValidate_In; [exact Hflags |].
  exists (types.IsNull value).
  split; [now apply attribute_is_null_string |].
  right. right. now exists a, v, value.
Qed.

End Validation.

Section ValidationClaims.

Context {W : Type}.
Variable r : WorkflowStateResource W.
Variables colorRegex uuidRegex : regexp.Regexp.

(** C6. A configuration whose name is the empty string, whose type is
    not one of the six, whose color the color expression does not match
    or whose team id the UUID expression does not match is rejected by
    the validators of the schema: validation reports an error on that
    attribute. This happens before any remote call: a [Create] or an
    [Update] that waits behind the validation of such a configuration is
    not invoked, whatever its plan; nothing is sent and the remote world
    is as it was. *)
Theorem validators_reject_malformed_input
    (w : W) (config : WorkflowStateResourceModel) (path value : string) :
  (path = "name" /\ value = "" /\ Name config = types.StringValue value) \/
  (path = "type" /\ ~ In value workflow_state_types
     /\ Type_ config = types.StringValue value) \/
  (path = "color" /\ regexp.MatchString colorRegex value = false
     /\ Color config = types.StringValue value) \/
  (path = "team_id" /\ regexp.MatchString uuidRegex value = false
     /\ TeamId config = types.StringValue value) ->
  let ds := ValidateConfig (Schema colorRegex uuidRegex) config in
  let rejected :=
    Returned {| response := Rejected ds; world := w; calls := [] |} in
  diag.HasError ds = true /\
  (exists v, In (diag.AttributeErrorDiagnostic path v value) ds) /\
  forall (create : CreateRequest.t) (update : UpdateRequest.t)
         (resp : Response),
    validated (Schema colorRegex uuidRegex) config (Create r create resp) w
    = rejected /\
    validated (Schema colorRegex uuidRegex) config (Update r update resp) w
    = rejected.
Proof.
  intros H ds rejected.
  assert (Hin : exists v, In (diag.AttributeErrorDiagnostic path v value) ds).
  { unfold ds.
    destruct H as [(-> & -> & Hv) | [(-> & Hn & Hv) | [(-> & Hm & Hv) | (-> & Hm & Hv)]]].
    - eexists.
      eapply (rejected_by _ config "name" _ (UTF8LengthAtLeast 1));
        [apply lookup_name | reflexivity | now left
        | exact (f_equal Some Hv) | now left].
    - eexists.
      eapply (rejected_by _ config "type" _ (OneOf workflow_state_types));
        [apply lookup_type | reflexivity | now left
        | exact (f_equal Some Hv) |].
      unfold ValidateString. cbn [types.IsNull types.IsUnknown orb types.ValueString].
      destruct (existsb (String.eqb value) workflow_state_types) eqn:E;
        [| now left].
      apply existsb_exists in E as [t [Ht E]].
      apply String.eqb_eq in E. now subst.
    - eexists.
      eapply (rejected_by _ config "color" _
                (RegexMatches colorRegex "must be a hex color"));
        [apply lookup_color | reflexivity | now left
        | exact (f_equal Some Hv) |].
      unfold ValidateString. cbn [types.IsNull types.IsUnknown orb types.ValueString].
      rewrite Hm. now left.
    - eexists.
      eapply (rejected_by _ config "team_id" _
                (RegexMatches uuidRegex "must be an uuid"));
        [apply lookup_team_id | reflexivity | now left
        | exact (f_equal Some Hv) |].
      unfold ValidateString. cbn [types.IsNull types.IsUnknown orb types.ValueString].
      rewrite Hm. now left. }
  assert (Herr : diag.HasError ds = true).
  { destruct Hin as [v Hin]. now apply (diag_facts.HasError_In _ _ Hin). }
  split; [exact Herr |]. split; [exact Hin |].
  intros create update resp. unfold validated. fold ds. rewrite Herr.
  split; reflexivity.
Qed.

End ValidationClaims.

(** ** Create, then Read *)

Lemma Echo_api_echoes : echoes Echo.api.
Proof.
  intros w input. eexists _, _. split; [reflexivity |].
  cbn [createWorkflowStateResponse.WorkflowState
       createWorkflowStateResponse.WorkflowStateCreate
       createWorkflowStateResponse.Name createWorkflowStateResponse.Type_
       createWorkflowStateResponse.Position createWorkflowStateResponse.Color
       createWorkflowStateResponse.Description createWorkflowStateResponse.Id
       Echo.name Echo.type Echo.position Echo.color Echo.description].
  repeat (split; [reflexivity |]).
  cbn [Echo.api getWorkflowState]. unfold Echo.get. cbn [Echo.records].
  rewrite lookup_insert_eq.
  eexists _, _. split; [reflexivity |]. simpl. repeat split.
Qed.

Lemma known_roundtrip (v : types.String) :
  known v -> types.StringValue (types.ValueString v) = v.
Proof. now intros [s ->]. Qed.

Lemma pointer_roundtrip (v : types.String) :
  v <> types.StringUnknown ->
  types.StringPointerValue (types.ValueStringPointer v) = v.
Proof. destruct v; simpl; congruence. Qed.

Section RoundTrip.

Context {W : Type}.
Variable r : WorkflowStateResource W.
Variable w : W.
Variables resp resp' : Response.
Variable data : WorkflowStateResourceModel.
Variables p y : big.Float.

Hypothesis remote_echoes : echoes (client r).
Hypothesis name_known : known (Name data).
Hypothesis type_known : known (Type_ data).
Hypothesis color_known : known (Color data).
Hypothesis team_known : known (TeamId data).
Hypothesis description_set : Description data <> types.StringUnknown.
Hypothesis position_known : Position data = types.NumberValue p.
Hypothesis converts_back : big.NewFloat (fst (big.Float64 p)) = Some y.
Hypothesis no_error : diag.HasError (Diagnostics resp) = false.
Hypothesis no_error' : diag.HasError (Diagnostics resp') = false.

(** [Create], then [Read] of the state it stored: both return, neither
    adds a diagnostic, and the state holds the planned strings and the
    narrowed position converted back. *)
Lemma create_then_read_run :
  exists out1 out2 id,
    Create r {| CreateRequest.Plan := Some data |} resp w = Returned out1 /\
    Diagnostics (response out1) = Diagnostics resp /\
    Read r {| ReadRequest.State := State (response out1) |} resp' (world out1)
      = Returned out2 /\
    Diagnostics (response out2) = Diagnostics resp' /\
    State (response out2) = Some {|
      Id := types.StringValue id;
      Name := Name data;
      Type_ := Type_ data;
      Description := Description data;
      Color := Color data;
      Position := types.NumberValue y;
      TeamId := TeamId data |}.
Proof.
  destruct (remote_echoes w (create_input data p))
    as (answer & w1 & Hcreate & Hn & Ht & Hpos & Hc & Hd
        & got & w2 & Hget & Hn' & Ht' & Hpos' & Hc' & Hd' & Hteam').
  cbv zeta in *.
  change (WorkflowStateCreateInput.Position (create_input data p))
    with (fst (big.Float64 p)) in Hpos, Hpos'.
  rewrite (Create_run r w resp no_error data p position_known), Hcreate.
  cbv zeta. rewrite Hpos, converts_back.
  eexists _, _, _. split; [reflexivity |].
  cbn [response world State Diagnostics].
  split; [reflexivity |].
  rewrite (Read_run r w1 resp' no_error'). cbv zeta.
  cbn [Id types.ValueString]. rewrite Hget, Hpos', converts_back.
  split; [reflexivity |].
  cbn [response State Diagnostics].
  split; [reflexivity |].
  rewrite Hn', Ht', Hc', Hd', Hteam'. unfold create_input.
  cbn [WorkflowStateCreateInput.Name WorkflowStateCreateInput.Type_
       WorkflowStateCreateInput.Color WorkflowStateCreateInput.Description
       WorkflowStateCreateInput.TeamId].
  rewrite !known_roundtrip by assumption.
  now rewrite pointer_roundtrip by assumption.
Qed.

End RoundTrip.

Section RoundTripClaims.

Context {W : Type}.
Variable r : WorkflowStateResource W.
Variables colorRegex uuidRegex : regexp.Regexp.


(** C7. For a valid input whose position narrows to float64 exactly, a
    [Create] of its plan and then a [Read] of the state it stored, against
    an API that echoes stored values, both succeed, and the state after
    the [Read] has the configured name, type, color, description and
    team, and a position equal to the configured one. *)
Theorem create_then_read_returns_the_input
    (w : W) (resp resp' : Response) (config : WorkflowStateResourceModel)
    (id : types.String) (p : big.Float) :
  echoes (client r) ->
  valid_input (Schema colorRegex uuidRegex) config ->
  Position config = types.NumberValue p ->
  snd (big.Float64 p) = big.Exact ->
  diag.HasError (Diagnostics resp) = false ->
  diag.HasError (Diagnostics resp') = false ->
  exists out1 out2 m,
    Create r {| CreateRequest.Plan := Some (plan_of config id) |} resp w
      = Returned out1 /\
    Diagnostics (response out1) = Diagnostics resp /\
    Read r {| ReadRequest.State := State (response out1) |} resp' (world out1)
      = Returned out2 /\
    Diagnostics (response out2) = Diagnostics resp' /\
    State (response out2) = Some m /\
    Name m = Name config /\
    Type_ m = Type_ config /\
    Color m = Color config /\
    Description m = Description config /\
    TeamId m = TeamId config /\
    types.NumberEqual (Position m) (Position config) = true.
Proof.
  intros Hecho (Hname & Htype & Hcolor & Hteam & Hdesc & _ & _) Hp Hexact Hok Hok'.
  destruct (big.Float64 p) as [narrow acc] eqn:Hnarrow.
  simpl in Hexact. subst acc.
  destruct (big_facts.Float64_exact p narrow Hnarrow) as (y & Hy & Hcmp).
  assert (Hy' : big.NewFloat (fst (big.Float64 p)) = Some y)
    by now rewrite Hnarrow.
  destruct (create_then_read_run r w resp resp' (plan_of config id) p y Hecho
              Hname Htype Hcolor Hteam Hdesc Hp Hy' Hok Hok')
    as (out1 & out2 & id' & H1 & D1 & H2 & D2 & Hst).
  eexists out1, out2, _. repeat (split; [eassumption |]).
  cbn [Name Type_ Color Description TeamId Position plan_of].
  repeat (split; [reflexivity |]).
  rewrite Hp. simpl. now rewrite Hcmp.
Qed.

End RoundTripClaims.

(** * Further properties of the handler *)

Lemma append_diagnostics_nil (resp : Response) :
  append_diagnostics resp [] = resp.
Proof. now destruct resp. Qed.

Section Guards.

Context {W : Type}.
Variable r : WorkflowStateResource W.

(** X1. A response that holds an error on entry ends the invocation at the
    guard: nothing is sent and the response is returned as it was, whatever
    the plan or state, a null one included. *)
Theorem error_on_entry_stops_the_invocation
    (w : W) (resp : Response) (plan prior state : tfsdk.Object) :
  diag.HasError (Diagnostics resp) = true ->
  let stopped := Returned {| response := resp; world := w; calls := [] |} in
  Create r {| CreateRequest.Plan := plan |} resp w = stopped /\
  Read r {| ReadRequest.State := state |} resp w = stopped /\
  Update r {| UpdateRequest.Plan := plan; UpdateRequest.State := prior |}
    resp w = stopped /\
  Delete r {| DeleteRequest.State := state |} resp w = stopped.
Proof.
  intros H stopped. unfold Create, Read, Update, Delete, tfsdk.Get.
  cbn [CreateRequest.Plan ReadRequest.State UpdateRequest.Plan
       DeleteRequest.State].
  cbv beta iota zeta. rewrite append_diagnostics_nil, H.
  subst stopped. unfold ret. auto.
Qed.

(** X2. A [Delete] whose remote call succeeds sends the id of the state, adds
    no diagnostic and leaves the state of the response to the framework. *)
Theorem delete_success_leaves_the_response
    (w w' : W) (resp : Response) (data : WorkflowStateResourceModel)
    (answer : unit) :
  diag.HasError (Diagnostics resp) = false ->
  deleteWorkflowState (client r) w (types.ValueString (Id data))
    = (Ok answer, w') ->
  Delete r {| DeleteRequest.State := Some data |} resp w
  = Returned {| response := resp; world := w';
                calls := [CallDelete (types.ValueString (Id data))] |}.
Proof.
  intros Hok Hcall. rewrite (Delete_run r w resp Hok data). cbv zeta.
  now rewrite Hcall.
Qed.

End Guards.

Section Shapes.

Context {W : Type}.
Variable r : WorkflowStateResource W.

Lemma add_error_grows (resp : Response) (summary : string)
    (detail : fmt.Formatted) (d : diag.Diagnostic) :
  In d (Diagnostics resp) -> In d (Diagnostics (add_error resp summary detail)).
Proof.
  intros H. unfold add_error, diag.AddError. cbn [Diagnostics].
  apply diag_facts.In_Append. now left.
Qed.

Ltac returned :=
  intros [= <-]; cbn [calls response Diagnostics]; split;
  [ first [ left; reflexivity | right; eexists; reflexivity
          | right; eexists _, _; reflexivity ]
  | intros d Hd; first [ exact Hd | now apply add_error_grows ] ].

Lemma Create_shape (req : CreateRequest.t) (resp : Response) (w : W)
    (out : Outcome W Response) :
  Create r req resp w = Returned out ->
  (calls out = [] \/ exists input, calls out = [CallCreate input]) /\
  (forall d, In d (Diagnostics resp) -> In d (Diagnostics (response out))).
Proof.
  destruct req as [plan]. unfold Create, tfsdk.Get.
  cbn [CreateRequest.Plan]. cbv beta iota zeta.
  rewrite append_diagnostics_nil.
  destruct (diag.HasError (Diagnostics resp)); [unfold ret; returned |].
  unfold bind, deref, ret, remote.
  destruct plan as [data |]; cbn; [| discriminate].
  destruct (types.ValueBigFloat (Position data)) as [p |]; cbn;
    [| discriminate].
  destruct (big.Float64 p) as [position acc]; cbn.
  destruct (createWorkflowState _ _ _) as [[answer | err] w']; cbn.
  - destruct (big.NewFloat _); cbn; [returned | discriminate].
  - returned.
Qed.

Lemma Read_shape (req : ReadRequest.t) (resp : Response) (w : W)
    (out : Outcome W Response) :
  Read r req resp w = Returned out ->
  (calls out = [] \/ exists id, calls out = [CallGet id]) /\
  (forall d, In d (Diagnostics resp) -> In d (Diagnostics (response out))).
Proof.
  destruct req as [state]. unfold Read, tfsdk.Get.
  cbn [ReadRequest.State]. cbv beta iota zeta.
  rewrite append_diagnostics_nil.
  destruct (diag.HasError (Diagnostics resp)); [unfold ret; returned |].
  unfold bind, deref, ret, remote.
  destruct state as [data |]; cbn; [| discriminate].
  destruct (getWorkflowState _ _ _) as [[answer | err] w']; cbn.
  - destruct (big.NewFloat _); cbn; [returned | discriminate].
  - returned.
Qed.

Lemma Update_shape (req : UpdateRequest.t) (resp : Response) (w : W)
    (out : Outcome W Response) :
  Update r req resp w = Returned out ->
  (calls out = [] \/ exists input id, calls out = [CallUpdate input id]) /\
  (forall d, In d (Diagnostics resp) -> In d (Diagnostics (response out))).
Proof.
  destruct req as [plan prior]. unfold Update, tfsdk.Get.
  cbn [UpdateRequest.Plan]. cbv beta iota zeta.
  rewrite append_diagnostics_nil.
  destruct (diag.HasError (Diagnostics resp)); [unfold ret; returned |].
  unfold bind, deref, ret, remote.
  destruct plan as [data |]; cbn; [| discriminate].
  destruct (types.ValueBigFloat (Position data)) as [p |]; cbn;
    [| discriminate].
  destruct (big.Float64 p) as [position acc]; cbn.
  destruct (updateWorkflowState _ _ _ _) as [[answer | err] w']; cbn.
  - destruct (big.NewFloat _); cbn; [returned | discriminate].
  - returned.
Qed.

Lemma Delete_shape (req : DeleteRequest.t) (resp : Response) (w : W)
    (out : Outcome W Response) :
  Delete r req resp w = Returned out ->
  (calls out = [] \/ exists id, calls out = [CallDelete id]) /\
  (forall d, In d (Diagnostics resp) -> In d (Diagnostics (response out))).
Proof.
  destruct req as [state]. unfold Delete, tfsdk.Get.
  cbn [DeleteRequest.State]. cbv beta iota zeta.
  rewrite append_diagnostics_nil.
  destruct (diag.HasError (Diagnostics resp)); [unfold ret; returned |].
  unfold bind, deref, ret, remote.
  destruct state as [data |]; cbn; [| discriminate].
  destruct (deleteWorkflowState _ _ _) as [[answer | err] w']; cbn; returned.
Qed.

(** [ImportState] returns on every input. *)
Lemma ImportState_shape (req : ImportStateRequest.t) (resp : Response) (w : W) :
  exists out,
    ImportState r req resp w = Returned out /\
    (calls out = [] \/ exists name teamKey, calls out = [CallFind name teamKey]) /\
    (forall d, In d (Diagnostics resp) -> In d (Diagnostics (response out))).
Proof.
  unfold ImportState.
  destruct (strings.Split _ _) as [| name [| teamKey [| extra parts]]];
    try (eexists; split; [reflexivity |]; cbn [calls response]; split;
         [now left | intros d Hd; now apply add_error_grows]).
  destruct (String.eqb name "" || String.eqb teamKey "").
  { eexists; split; [reflexivity |]; cbn [calls response]; split;
      [now left | intros d Hd; now apply add_error_grows]. }
  unfold bind, remote, ret.
  destruct (findWorkflowState _ _ _ _) as [[found | err] w']; cbn.
  - destruct (findWorkflowStateResponse.Nodes _) as [| node [| node' rest]];
      (eexists; split; [reflexivity |]; cbn [calls response]; split;
       [right; now eexists _, _ |]; intros d Hd);
      try now apply add_error_grows.
    unfold set_state_attribute, tfsdk.SetAttribute. cbn. exact Hd.
  - eexists; split; [reflexivity |]; cbn [calls response]; split;
      [right; now eexists _, _ | intros d Hd; now apply add_error_grows].
Qed.

End Shapes.

Section Invariants.

Context {W : Type}.
Variable r : WorkflowStateResource W.

(** X3. No method retries or chains calls: an invocation that returns has
    sent at most one request, and only the request of its own operation. *)
Theorem at_most_one_remote_call (w : W) (resp : Response) :
  (forall req out, Create r req resp w = Returned out ->
     calls out = [] \/ exists input, calls out = [CallCreate input]) /\
  (forall req out, Read r req resp w = Returned out ->
     calls out = [] \/ exists id, calls out = [CallGet id]) /\
  (forall req out, Update r req resp w = Returned out ->
     calls out = [] \/ exists input id, calls out = [CallUpdate input id]) /\
  (forall req out, Delete r req resp w = Returned out ->
     calls out = [] \/ exists id, calls out = [CallDelete id]) /\
  (forall req, exists out, ImportState r req resp w = Returned out /\
     (calls out = [] \/
      exists name teamKey, calls out = [CallFind name teamKey])).
Proof.
  repeat split.
  - intros req out H. now apply (Create_shape r req resp w out).
  - intros req out H. now apply (Read_shape r req resp w out).
  - intros req out H. now apply (Update_shape r req resp w out).
  - intros req out H. now apply (Delete_shape r req resp w out).
  - intros req. destruct (ImportState_shape r req resp w) as (out & H & Hc & _).
    now exists out.
Qed.

(** X4. No method drops a diagnostic: what the response held on entry it
    holds on return. *)
Theorem diagnostics_only_grow (w : W) (resp : Response) (d : diag.Diagnostic) :
  In d (Diagnostics resp) ->
  (forall req out, Create r req resp w = Returned out ->
     In d (Diagnostics (response out))) /\
  (forall req out, Read r req resp w = Returned out ->
     In d (Diagnostics (response out))) /\
  (forall req out, Update r req resp w = Returned out ->
     In d (Diagnostics (response out))) /\
  (forall req out, Delete r req resp w = Returned out ->
     In d (Diagnostics (response out))) /\
  (forall req out, ImportState r req resp w = Returned out ->
     In d (Diagnostics (response out))).
Proof.
  intros Hd. repeat split; intros req out H.
  - now apply (Create_shape r req resp w out).
  - now apply (Read_shape r req resp w out).
  - now apply (Update_shape r req resp w out).
  - now apply (Delete_shape r req resp w out).
  - destruct (ImportState_shape r req resp w) as (out' & H' & _ & Hg).
    rewrite H in H'. injection H' as <-. now apply Hg.
Qed.

(** X5. [ImportState], then [Read] of the state it seeded: when the find
    query answers with one match and the read of its id succeeds, the
    state holds that id and every other attribute from the answer of the
    read. *)
Theorem import_then_read_fills_the_state
    (req : ImportStateRequest.t) (resp : Response) (w w1 w2 : W)
    (name teamKey : string) (node : findWorkflowStateResponse.node)
    (answer : getWorkflowStateResponse.t) (f : big.Float) :
  let ws := getWorkflowStateResponse.WorkflowState answer in
  diag.HasError (Diagnostics resp) = false ->
  strings.Split (ImportStateRequest.ID req) ":" = [name; teamKey] ->
  name <> "" -> teamKey <> "" ->
  findWorkflowState (client r) w name teamKey
    = (Ok {| findWorkflowStateResponse.WorkflowStates :=
               {| findWorkflowStateResponse.Nodes := [node] |} |}, w1) ->
  getWorkflowState (client r) w1 (findWorkflowStateResponse.Id node)
    = (Ok answer, w2) ->
  big.NewFloat (getWorkflowStateResponse.Position ws) = Some f ->
  exists out1 out2,
    ImportState r req resp w = Returned out1 /\
    Read r {| ReadRequest.State := State (response out1) |} (response out1)
      (world out1) = Returned out2 /\
    calls out1 ++ calls out2
    = [CallFind name teamKey; CallGet (findWorkflowStateResponse.Id node)] /\
    Diagnostics (response out2) = Diagnostics resp /\
    State (response out2) = Some {|
      Id := types.StringValue (findWorkflowStateResponse.Id node);
      Name := types.StringValue (getWorkflowStateResponse.Name ws);
      Type_ := types.StringValue (getWorkflowStateResponse.Type_ ws);
      Description := types.StringPointerValue
                       (getWorkflowStateResponse.Description ws);
      Color := types.StringValue (getWorkflowStateResponse.Color ws);
      Position := types.NumberValue f;
      TeamId := types.StringValue
                  (getWorkflowStateResponse.Id
                     (getWorkflowStateResponse.Team ws)) |}.
Proof.
  intros ws Hok Hs Hn Hk Hfind Hget Hf.
  rewrite (ImportState_run r req resp w name teamKey Hs Hn Hk), Hfind.
  eexists _, _. split; [reflexivity |].
  cbn [response world calls findWorkflowStateResponse.Nodes
       findWorkflowStateResponse.WorkflowStates].
  assert (Hseed : set_state_attribute resp "id"
                    (findWorkflowStateResponse.Id node)
                  = {| State := Some {|
                         Id := types.StringValue
                                 (findWorkflowStateResponse.Id node);
                         Name := Name (object_of (State resp));
                         Type_ := Type_ (object_of (State resp));
                         Description := Description (object_of (State resp));
                         Color := Color (object_of (State resp));
                         Position := Position (object_of (State resp));
                         TeamId := TeamId (object_of (State resp)) |};
                       Diagnostics := Diagnostics resp |})
    by reflexivity.
  rewrite Hseed. cbn [State].
  erewrite Read_run; [| exact Hok]. cbv zeta.
  cbn [Id types.ValueString]. rewrite Hget. subst ws. rewrite Hf.
  split; [reflexivity |]. cbn [calls response State Diagnostics].
  repeat split.
Qed.

(** X6. A second [Read] changes nothing when the remote record has not
    changed: the state after a [Read] is a fixed point of [Read]. *)
Theorem read_is_stable
    (w w1 w2 : W) (resp resp' : Response) (data : WorkflowStateResourceModel)
    (answer : getWorkflowStateResponse.t) (f : big.Float) :
  diag.HasError (Diagnostics resp) = false ->
  diag.HasError (Diagnostics resp') = false ->
  getWorkflowState (client r) w (types.ValueString (Id data)) = (Ok answer, w1) ->
  getWorkflowState (client r) w1 (types.ValueString (Id data)) = (Ok answer, w2) ->
  big.NewFloat (getWorkflowStateResponse.Position
                  (getWorkflowStateResponse.WorkflowState answer)) = Some f ->
  exists out1 out2,
    Read r {| ReadRequest.State := Some data |} resp w = Returned out1 /\
    Read r {| ReadRequest.State := State (response out1) |} resp' (world out1)
      = Returned out2 /\
    State (response out2) = State (response out1).
Proof.
  intros Hok Hok' Hget Hget' Hf.
  rewrite (Read_run r w resp Hok data). cbv zeta. rewrite Hget, Hf.
  eexists _, _. split; [reflexivity |]. cbn [response world State].
  rewrite (Read_run r w1 resp' Hok'). cbv zeta. cbn [Id].
  rewrite Hget', Hf. split; reflexivity.
Qed.

End Invariants.

Section Identifier.

Context {W : Type}.
Variable r : WorkflowStateResource W.

Lemma Split_names (id name teamKey : string) :
  strings.Split id ":" = [name; teamKey] ->
  id = name +:+ String ":" teamKey /\
  strings.Contains name ":" = false /\ strings.Contains teamKey ":" = false.
Proof.
  intros E.
  pose proof (strings_facts.Join_Split id ":") as HJ.
  pose proof (strings_facts.Split_free id ":") as HF.
  rewrite E in HJ, HF. simpl in HJ.
  inversion HF as [| ? ? Hname HF']; subst.
  inversion HF' as [| ? ? Hkey _]; subst.
  auto.
Qed.

(** X7. [ImportState] always returns, and it queries the remote API exactly
    for the identifiers of the form [name:team_key] (one colon between two
    non-empty halves), with that name and that key; any other identifier
    gets the format error and no request. *)
Theorem import_queries_exactly_name_colon_key
    (req : ImportStateRequest.t) (resp : Response) (w : W) :
  exists out,
    ImportState r req resp w = Returned out /\
    ((exists name teamKey,
        names_workflow_state (ImportStateRequest.ID req) name teamKey /\
        calls out = [CallFind name teamKey])
     \/
     ((forall name teamKey,
         ~ names_workflow_state (ImportStateRequest.ID req) name teamKey) /\
      calls out = [] /\ world out = w /\ response out = malformed req resp)).
Proof.
  destruct (strings.Split (ImportStateRequest.ID req) ":")
    as [| name [| teamKey [| extra parts]]] eqn:E.
  1, 2, 4:
    rewrite (ImportState_rejects r req resp w)
      by (intros n k E'; rewrite E in E'; discriminate);
    eexists; split; [reflexivity | right]; cbn [calls world response];
    (split; [| auto]);
    intros n k (Hid & _ & _ & Hn & Hk);
    rewrite Hid, strings_facts.Split_two in E by assumption; discriminate.
  destruct (String.eqb_spec name "") as [-> | Hname].
  { rewrite (ImportState_rejects r req resp w)
      by (intros n k E'; rewrite E in E'; injection E' as <- <-; now left).
    eexists; split; [reflexivity | right]; cbn [calls world response].
    split; [| auto].
    intros n k (Hid & Hn0 & _ & Hn & Hk).
    rewrite Hid, strings_facts.Split_two in E by assumption.
    injection E as -> _. now apply Hn0. }
  destruct (String.eqb_spec teamKey "") as [-> | Hkey].
  { rewrite (ImportState_rejects r req resp w)
      by (intros n k E'; rewrite E in E'; injection E' as <- <-; now right).
    eexists; split; [reflexivity | right]; cbn [calls world response].
    split; [| auto].
    intros n k (Hid & _ & Hk0 & Hn & Hk).
    rewrite Hid, strings_facts.Split_two in E by assumption.
    injection E as _ ->. now apply Hk0. }
  rewrite (ImportState_run r req resp w name teamKey E Hname Hkey).
  destruct (findWorkflowState _ _ _ _) as [result w'].
  eexists; split; [reflexivity | left]. cbn [calls].
  exists name, teamKey. split; [| reflexivity].
  destruct (Split_names _ _ _ E) as (Hid & Hn & Hk).
  now repeat split.
Qed.

End Identifier.

Section Positions.

Context {W : Type}.
Variable r : WorkflowStateResource W.

(** X8. The position on the wire is a float64 with its fields in range and
    never a NaN, whatever number is planned. *)
Theorem wire_position_is_never_nan (w : W) (resp : Response) :
  (forall req out input,
     Create r req resp w = Returned out -> In (CallCreate input) (calls out) ->
     math.IsNaN (WorkflowStateCreateInput.Position input) = false /\
     wellformed (WorkflowStateCreateInput.Position input)) /\
  (forall req out input id,
     Update r req resp w = Returned out -> In (CallUpdate input id) (calls out) ->
     math.IsNaN (WorkflowStateUpdateInput.Position input) = false /\
     wellformed (WorkflowStateUpdateInput.Position input)).
Proof.
  split.
  - intros [plan] out input. unfold Create, tfsdk.Get.
    cbn [CreateRequest.Plan]. cbv beta iota zeta.
    rewrite append_diagnostics_nil.
    destruct (diag.HasError (Diagnostics resp));
      [unfold ret; intros [= <-] [] |].
    unfold bind, deref, ret, remote.
    destruct plan as [data |]; cbn; [| discriminate].
    destruct (types.ValueBigFloat (Position data)) as [p |]; cbn;
      [| discriminate].
    pose proof (big_facts.Float64_wellformed p) as [Hw Hn].
    destruct (big.Float64 p) as [position acc]; cbn in *.
    destruct (createWorkflowState _ _ _) as [[answer | err] w']; cbn.
    + destruct (big.NewFloat _); cbn; [| discriminate].
      intros [= <-] [[= <-] | []]. now split.
    + intros [= <-] [[= <-] | []]. now split.
  - intros [plan prior] out input id. unfold Update, tfsdk.Get.
    cbn [UpdateRequest.Plan]. cbv beta iota zeta.
    rewrite append_diagnostics_nil.
    destruct (diag.HasError (Diagnostics resp));
      [unfold ret; intros [= <-] [] |].
    unfold bind, deref, ret, remote.
    destruct plan as [data |]; cbn; [| discriminate].
    destruct (types.ValueBigFloat (Position data)) as [p |]; cbn;
      [| discriminate].
    pose proof (big_facts.Float64_wellformed p) as [Hw Hn].
    destruct (big.Float64 p) as [position acc]; cbn in *.
    destruct (updateWorkflowState _ _ _ _) as [[answer | err] w']; cbn.
    + destruct (big.NewFloat _); cbn; [| discriminate].
      intros [= <-] [[= <- <-] | []]. now split.
    + intros [= <-] [[= <- <-] | []]. now split.
Qed.

(** X9. A position that came from the remote API goes back to it unchanged:
    when the planned number is the value [Read], [Create] or [Update]
    stored for a float64 [x], the next [Update] sends [x] itself. *)
Theorem stored_position_is_sent_unchanged
    (w w' : W) (resp : Response) (data : WorkflowStateResourceModel)
    (prior : tfsdk.State) (x : float64) (f : big.Float)
    (result : Result updateWorkflowStateResponse.t) :
  let input := {|
    WorkflowStateUpdateInput.Name := types.ValueString (Name data);
    WorkflowStateUpdateInput.Color := types.ValueString (Color data);
    WorkflowStateUpdateInput.Description :=
      types.ValueStringPointer (Description data);
    WorkflowStateUpdateInput.Position := x |} in
  diag.HasError (Diagnostics resp) = false ->
  wellformed x ->
  big.NewFloat x = Some f ->
  Position data = types.NumberValue f ->
  updateWorkflowState (client r) w input (types.ValueString (Id data))
    = (result, w') ->
  (forall answer, result = Ok answer ->
     math.IsNaN (updateWorkflowStateResponse.Position
                   (updateWorkflowStateResponse.WorkflowState
                      (updateWorkflowStateResponse.WorkflowStateUpdate answer)))
     = false) ->
  exists out,
    Update r {| UpdateRequest.Plan := Some data; UpdateRequest.State := prior |}
      resp w = Returned out /\
    calls out = [CallUpdate input (types.ValueString (Id data))].
Proof.
  intros input Hok Hw Hx Hp Hcall Hnan.
  rewrite (Update_run r w resp Hok data prior f Hp). cbv zeta.
  unfold update_input.
  rewrite (big_facts.Float64_NewFloat x f Hw Hx). cbn [fst].
  fold input. rewrite Hcall.
  destruct result as [answer | err].
  - specialize (Hnan answer eq_refl).
    apply big_facts.NewFloat_not_NaN in Hnan as [g Hg].
    rewrite Hg. eexists. split; reflexivity.
  - eexists. split; reflexivity.
Qed.

End Positions.

(** A string has no rune exactly when it is empty. *)
Lemma RuneCount_below_one (s : string) :
  (utf8.RuneCountInString s <? 1) = true <-> s = "".
Proof.
  unfold utf8.RuneCountInString. destruct s as [| c rest]; simpl.
  - split; reflexivity.
  - split; [| discriminate]. intros H. apply Z.ltb_lt in H. lia.
Qed.

Section ValidationOutcome.

Variables colorRegex uuidRegex : regexp.Regexp.
Variable config : WorkflowStateResourceModel.

Lemma IsNull_eq (v : types.String) :
  types.IsNull v = true <-> v = types.StringNull.
Proof. destruct v; simpl; split; congruence. Qed.

Lemma NumberIsNull_eq (v : types.Number) :
  types.NumberIsNull v = true <-> v = types.NumberNull.
Proof. destruct v; simpl; split; congruence. Qed.

Ltac reported H :=
  apply AttributeValidate_In in H; [| reflexivity];
  let null := fresh "null" in
  let Hnull := fresh "Hnull" in
  destruct H as (null & Hnull & H);
  cbn [fst snd] in Hnull, H;
  first [ change (Some (types.IsNull (Id config)) = Some null) in Hnull
        | change (Some (types.IsNull (Name config)) = Some null) in Hnull
        | change (Some (types.IsNull (Type_ config)) = Some null) in Hnull
        | change (Some (types.NumberIsNull (Position config)) = Some null) in Hnull
        | change (Some (types.IsNull (Color config)) = Some null) in Hnull
        | change (Some (types.IsNull (Description config)) = Some null) in Hnull
        | change (Some (types.IsNull (TeamId config)) = Some null) in Hnull ];
  injection Hnull as <-;
  cbn [IsComputed IsOptional IsRequired Computed Optional Required andb negb]
    in H.

Ltac reporting :=
  apply AttributeValidate_In; [reflexivity |];
  eexists; split; [reflexivity |];
  cbn [fst snd IsComputed IsOptional IsRequired Computed Optional Required
       andb negb].

Lemma validation_errors (d : diag.Diagnostic) :
  In d (ValidateConfig (Schema colorRegex uuidRegex) config)
  <-> validation_error colorRegex uuidRegex config d.
Proof.
  rewrite ValidateConfig_In. unfold validation_error. split.
  - intros (name & a & Hl & Hd).
    pose proof (attribute_listed _ _ _ Hl) as Hin.
    apply schema_names in Hin. simpl in Hin.
    destruct Hin as [<- | [<- | [<- | [<- | [<- | [<- | [<- | []]]]]]]].
    + rewrite lookup_id in Hl. injection Hl as <-. reported Hd.
      destruct Hd as [[Hro ->] | [[[=] _] | (a & v & value & [= <-] & [] & _)]].
      left. split; [reflexivity |]. intros E. rewrite E in Hro. discriminate.
    + rewrite lookup_name in Hl. injection Hl as <-. reported Hd.
      destruct Hd as [[[=] _] | [[Hreq ->] | (a & v & value & [= <-] & Hv & Hval & Hd)]].
      * right. left. split; [reflexivity | now apply IsNull_eq].
      * destruct Hv as [<- | []]. injection Hval as <-.
        do 6 right. left. unfold ValidateString in Hd.
        destruct (Name config) as [| | s];
          cbn [types.IsNull types.IsUnknown orb types.ValueString] in Hd;
          try (now destruct Hd).
        destruct (utf8.RuneCountInString s <? 1) eqn:E; [| destruct Hd].
        apply RuneCount_below_one in E. subst s.
        destruct Hd as [<- | []]. now split.
    + rewrite lookup_type in Hl. injection Hl as <-. reported Hd.
      destruct Hd as [[[=] _] | [[Hreq ->] | (a & v & value & [= <-] & Hv & Hval & Hd)]].
      * do 2 right. left. split; [reflexivity | now apply IsNull_eq].
      * destruct Hv as [<- | []]. injection Hval as <-.
        do 7 right. left. unfold ValidateString in Hd.
        destruct (Type_ config) as [| | t];
          cbn [types.IsNull types.IsUnknown orb types.ValueString] in Hd;
          try (now destruct Hd).
        destruct (existsb (String.eqb t) _) eqn:E; [destruct Hd |].
        destruct Hd as [<- | []]. exists t. repeat split.
        intros Hin. apply not_true_iff_false in E. apply E.
        apply existsb_exists. exists t. split; [exact Hin | apply String.eqb_refl].
    + rewrite lookup_position in Hl. injection Hl as <-. reported Hd.
      destruct Hd as [[[=] _] | [[Hreq ->] | (a & v & value & [=] & _)]].
      do 3 right. left. split; [reflexivity | now apply NumberIsNull_eq].
    + rewrite lookup_color in Hl. injection Hl as <-. reported Hd.
      destruct Hd as [[[=] _] | [[Hreq ->] | (a & v & value & [= <-] & Hv & Hval & Hd)]].
      * do 4 right. left. split; [reflexivity | now apply IsNull_eq].
      * destruct Hv as [<- | []]. injection Hval as <-.
        do 8 right. left. unfold ValidateString in Hd.
        destruct (Color config) as [| | c];
          cbn [types.IsNull types.IsUnknown orb types.ValueString] in Hd;
          try (now destruct Hd).
        destruct (regexp.MatchString colorRegex c) eqn:E; [destruct Hd |].
        destruct Hd as [<- | []]. now exists c.
    + rewrite lookup_description in Hl. injection Hl as <-. reported Hd.
      destruct Hd as [[[=] _] | [[[=] _] | (a & v & value & [= <-] & [] & _)]].
    + rewrite lookup_team_id in Hl. injection Hl as <-. reported Hd.
      destruct Hd as [[[=] _] | [[Hreq ->] | (a & v & value & [= <-] & Hv & Hval & Hd)]].
      * do 5 right. left. split; [reflexivity | now apply IsNull_eq].
      * destruct Hv as [<- | []]. injection Hval as <-.
        do 9 right. unfold ValidateString in Hd.
        destruct (TeamId config) as [| | u];
          cbn [types.IsNull types.IsUnknown orb types.ValueString] in Hd;
          try (now destruct Hd).
        destruct (regexp.MatchString uuidRegex u) eqn:E; [destruct Hd |].
        destruct Hd as [<- | []]. now exists u.
  - intros [(-> & Hv) | [(-> & Hv) | [(-> & Hv) | [(-> & Hv) | [(-> & Hv)
           | [(-> & Hv) | [(-> & Hv) | [(t & -> & Hv & Hn)
           | [(c & -> & Hv & Hm) | (u & -> & Hv & Hm)]]]]]]]]].
    + eexists "id", _. split; [apply lookup_id |]. reporting.
      left. split; [| reflexivity].
      change (negb (types.IsNull (Id config)) = true).
      destruct (Id config); [now destruct Hv | reflexivity | reflexivity].
    + eexists "name", _. split; [apply lookup_name |]. reporting.
      right. left. split; [| reflexivity].
      change (types.IsNull (Name config) = true). now rewrite Hv.
    + eexists "type", _. split; [apply lookup_type |]. reporting.
      right. left. split; [| reflexivity].
      change (types.IsNull (Type_ config) = true). now rewrite Hv.
    + eexists "position", _. split; [apply lookup_position |]. reporting.
      right. left. split; [| reflexivity].
      change (types.NumberIsNull (Position config) = true). now rewrite Hv.
    + eexists "color", _. split; [apply lookup_color |]. reporting.
      right. left. split; [| reflexivity].
      change (types.IsNull (Color config) = true). now rewrite Hv.
    + eexists "team_id", _. split; [apply lookup_team_id |]. reporting.
      right. left. split; [| reflexivity].
      change (types.IsNull (TeamId config) = true). now rewrite Hv.
    + eexists "name", _. split; [apply lookup_name |]. reporting.
      right. right. eexists _, (UTF8LengthAtLeast 1), _.
      split; [reflexivity |]. split; [now left |].
      split; [exact (f_equal Some Hv) | now left].
    + eexists "type", _. split; [apply lookup_type |]. reporting.
      right. right. eexists _, (OneOf workflow_state_types), _.
      split; [reflexivity |]. split; [now left |].
      split; [exact (f_equal Some Hv) |].
      unfold ValidateString.
      cbn [types.IsNull types.IsUnknown orb types.ValueString].
      destruct (existsb (String.eqb t) workflow_state_types) eqn:E;
        [| now left].
      apply existsb_exists in E as [t' [Ht E]].
      apply String.eqb_eq in E. now subst.
    + eexists "color", _. split; [apply lookup_color |]. reporting.
      right. right.
      eexists _, (RegexMatches colorRegex "must be a hex color"), _.
      split; [reflexivity |]. split; [now left |].
      split; [exact (f_equal Some Hv) |].
      unfold ValidateString.
      cbn [types.IsNull types.IsUnknown orb types.ValueString].
      rewrite Hm. now left.
    + eexists "team_id", _. split; [apply lookup_team_id |]. reporting.
      right. right.
      eexists _, (RegexMatches uuidRegex "must be an uuid"), _.
      split; [reflexivity |]. split; [now left |].
      split; [exact (f_equal Some Hv) |].
      unfold ValidateString.
      cbn [types.IsNull types.IsUnknown orb types.ValueString].
      rewrite Hm. now left.
Qed.

(** X10. The validation of a configuration against the schema reports
    the errors of [validation_error] and nothing else: an id that is
    configured (it is read-only), a name, type, position, color or team id
    that is left out (they are required), a known empty name, a known type
    outside the six, a known color or team id its expression does not
    match. Unknown values pass, and the description is never rejected. So
    a configuration passes validation exactly when it leaves out the id,
    sets the five required attributes, and its known name is not empty,
    its known type is one of the six, and its known color and team id
    match their expressions. *)
Theorem validation_reports_exactly :
  (forall d,
     In d (ValidateConfig (Schema colorRegex uuidRegex) config)
     <-> validation_error colorRegex uuidRegex config d) /\
  (ValidateConfig (Schema colorRegex uuidRegex) config = [] <->
   Id config = types.StringNull /\
   Name config <> types.StringNull /\
   Type_ config <> types.StringNull /\
   Position config <> types.NumberNull /\
   Color config <> types.StringNull /\
   TeamId config <> types.StringNull /\
   Name config <> types.StringValue "" /\
   (forall t, Type_ config = types.StringValue t -> In t workflow_state_types) /\
   (forall c, Color config = types.StringValue c ->
              regexp.MatchString colorRegex c = true) /\
   (forall u, TeamId config = types.StringValue u ->
              regexp.MatchString uuidRegex u = true)).
Proof.
  split; [exact validation_errors |].
  split.
  - intros Hnone.
    assert (Hno : forall d, ~ validation_error colorRegex uuidRegex config d).
    { intros d Hd. apply validation_errors in Hd.
      rewrite Hnone in Hd. exact Hd. }
    split; [| split; [| split; [| split; [| split; [| split; [| split;
      [| split; [| split]]]]]]]].
    + destruct (Id config) eqn:E; [reflexivity | exfalso | exfalso];
        eapply Hno; left; (split; [reflexivity | rewrite E; discriminate]).
    + intros Hv. eapply Hno. do 1 right. left. split; [reflexivity | exact Hv].
    + intros Hv. eapply Hno. do 2 right. left. split; [reflexivity | exact Hv].
    + intros Hv. eapply Hno. do 3 right. left. split; [reflexivity | exact Hv].
    + intros Hv. eapply Hno. do 4 right. left. split; [reflexivity | exact Hv].
    + intros Hv. eapply Hno. do 5 right. left. split; [reflexivity | exact Hv].
    + intros Hv. eapply Hno. do 6 right. left. split; [reflexivity | exact Hv].
    + intros t Hv.
      destruct (in_dec String.eq_dec t workflow_state_types) as [H | H];
        [exact H | exfalso].
      eapply Hno. do 7 right. left. exists t. now repeat split.
    + intros c Hv.
      destruct (regexp.MatchString colorRegex c) eqn:E; [reflexivity | exfalso].
      eapply Hno. do 8 right. left. exists c. now repeat split.
    + intros u Hv.
      destruct (regexp.MatchString uuidRegex u) eqn:E; [reflexivity | exfalso].
      eapply Hno. do 9 right. exists u. now repeat split.
  - intros (Hid & Hname & Htype & Hpos & Hcolor & Hteam & Hname' & Htype'
            & Hcolor' & Hteam').
    pose proof validation_errors as Hrep.
    remember (ValidateConfig (Schema colorRegex uuidRegex) config) as ds eqn:E.
    destruct ds as [| d ds]; [reflexivity | exfalso].
    pose proof (proj1 (Hrep d) (or_introl eq_refl)) as Hd.
    destruct Hd as [(_ & Hv) | [(_ & Hv) | [(_ & Hv) | [(_ & Hv) | [(_ & Hv)
           | [(_ & Hv) | [(_ & Hv) | [(t & _ & Hv & Hn)
           | [(c & _ & Hv & Hm) | (u & _ & Hv & Hm)]]]]]]]]].
    + now apply Hv.
    + now apply Hname.
    + now apply Htype.
    + now apply Hpos.
    + now apply Hcolor.
    + now apply Hteam.
    + now apply Hname'.
    + now apply Hn, Htype'.
    + rewrite (Hcolor' c Hv) in Hm. discriminate.
    + rewrite (Hteam' u Hv) in Hm. discriminate.
Qed.

End ValidationOutcome.

Section ReplacementOutcome.

Variables colorRegex uuidRegex : regexp.Regexp.

(** X11. A plan is applied in place exactly when it keeps the type and the
    team of the state: a change of the name, the color, the description,
    the position or the id alone never asks for a replacement. *)
Theorem in_place_iff_type_and_team_kept
    (state plan : WorkflowStateResourceModel) :
  RequiresReplacePaths (Schema colorRegex uuidRegex) state plan = [] <->
  Type_ plan = Type_ state /\ TeamId plan = TeamId state.
Proof.
  split; [apply in_place_keeps_type_and_team |].
  intros [Htype Hteam].
  destruct (RequiresReplacePaths _ state plan) as [| name rest] eqn:E;
    [reflexivity | exfalso].
  assert (Hin : In name (RequiresReplacePaths (Schema colorRegex uuidRegex)
                           state plan)) by (rewrite E; now left).
  destruct (only_type_and_team_replace _ _ _ _ _ Hin) as [-> | ->].
  - now apply type_change_replaces in Hin.
  - now apply team_change_replaces in Hin.
Qed.

End ReplacementOutcome.

(** ** Metadata and Configure *)

Lemma HasError_Append (ds new : diag.Diagnostics) :
  diag.HasError (diag.Append ds new) = diag.HasError ds || diag.HasError new.
Proof.
  destruct (diag.HasError (diag.Append ds new)) eqn:E; symmetry.
  - apply existsb_exists in E as (d & Hd & He).
    apply diag_facts.In_Append in Hd as [Hd | Hd]; apply orb_true_iff;
      [left | right]; now apply (diag_facts.HasError_In _ d).
  - apply orb_false_iff.
    split; apply not_true_iff_false; intros H;
      apply existsb_exists in H as (d & Hd & He);
      apply not_true_iff_false in E; apply E;
      apply (diag_facts.HasError_In _ d); try assumption;
      apply diag_facts.In_Append; auto.
Qed.

Section ConfigureOutcome.

Context {W : Type}.

(** X12. [Configure] stores a client only when the provider data is one: nil
    provider data changes nothing and reports nothing, a value of another
    type is reported as an error and leaves the receiver as it was, and a
    newly allocated resource is ready for the lifecycle methods exactly
    after a [Configure] with a client that is not nil. *)
Theorem configure_stores_only_a_client
    (r : Allocated W) (req : ConfigureRequest.t W)
    (resp : ConfigureResponse.t) :
  (ConfigureRequest.ProviderData req = None ->
   Configure r req resp = (r, resp)) /\
  (forall typeName,
     ConfigureRequest.ProviderData req = Some (IsOther typeName) ->
     fst (Configure r req resp) = r /\
     diag.HasError (ConfigureResponse.Diagnostics (snd (Configure r req resp)))
     = true) /\
  (diag.HasError (ConfigureResponse.Diagnostics (snd (Configure r req resp)))
   = true <->
   diag.HasError (ConfigureResponse.Diagnostics resp) = true \/
   exists typeName,
     ConfigureRequest.ProviderData req = Some (IsOther typeName)) /\
  (forall ready,
     configured (fst (Configure NewWorkflowStateResource req resp)) = Some ready
     <-> exists c,
           ConfigureRequest.ProviderData req = Some (IsClient (Some c)) /\
           ready = {| client := c |}).
Proof.
  unfold Configure.
  destruct (ConfigureRequest.ProviderData req) as [[[c |] | typeName] |];
    cbn [fst snd ConfigureResponse.Diagnostics configured pointer
         NewWorkflowStateResource];
    (split; [intros; first [reflexivity | discriminate] |]);
    (split; [intros T; try discriminate |]);
    unfold diag.AddError; rewrite ?HasError_Append; cbn [diag.HasError existsb
      diag.IsError orb]; rewrite ?orb_true_r.
  all: try (split; [split; [tauto | intros [H | (T & [=])]; exact H] |]).
  - intros ready. split.
    + intros [= <-]. now exists c.
    + intros (c' & [= <-] & ->). reflexivity.
  - intros ready. split; [discriminate | intros (c' & [=] & _)].
  - intros _. split; reflexivity.
  - split; [split; [intros _; right; now exists typeName | reflexivity] |].
    intros ready. split; [discriminate | intros (c' & [=] & _)].
  - intros ready. split; [discriminate | intros (c' & [=] & _)].
Qed.

End ConfigureOutcome.

Lemma append_cancel_r (a b s : string) : a +:+ s = b +:+ s -> a = b.
Proof.
  assert (Hlen : forall x y : string,
    String.length (x +:+ y) = (String.length x + String.length y)%nat).
  { induction x as [| c x IH]; intros y;
      [reflexivity | change (S (String.length (x +:+ y))
                              = S (String.length x + String.length y))%nat;
                     now rewrite IH]. }
  revert b. induction a as [| c a IH]; intros [| c' b] H.
  - reflexivity.
  - apply (f_equal String.length) in H. rewrite !Hlen in H.
    cbn [String.length] in H. lia.
  - apply (f_equal String.length) in H. rewrite !Hlen in H.
    cbn [String.length] in H. lia.
  - change (String c (a +:+ s) = String c' (b +:+ s)) in H.
    injection H as -> H. f_equal. now apply IH.
Qed.

(** X13. [Metadata] names the resource after the provider: the type name
    it reports is the type name of the provider followed by
    [_workflow_state], whatever the response held before. So the provider's
    name is a proper prefix of it, and two invocations report the same
    type name exactly when the providers have the same name. *)
Theorem metadata_names_the_resource_after_the_provider
    (req req' : MetadataRequest.t) (resp resp' : MetadataResponse.t) :
  let name := MetadataResponse.TypeName (Metadata req resp) in
  name = MetadataRequest.ProviderTypeName req +:+ "_workflow_state" /\
  String.prefix (MetadataRequest.ProviderTypeName req) name = true /\
  name <> MetadataRequest.ProviderTypeName req /\
  (name = MetadataResponse.TypeName (Metadata req' resp') <->
   MetadataRequest.ProviderTypeName req = MetadataRequest.ProviderTypeName req').
Proof.
  unfold Metadata. cbn [MetadataResponse.TypeName].
  generalize (MetadataRequest.ProviderTypeName req) as a.
  generalize (MetadataRequest.ProviderTypeName req') as b.
  intros b a. split; [reflexivity |]. split; [| split].
  - induction a as [| c a IH]; [reflexivity |].
    change (String c a +:+ "_workflow_state")
      with (String c (a +:+ "_workflow_state")).
    cbn [String.prefix]. destruct (Ascii.ascii_dec c c); [exact IH | congruence].
  - induction a as [| c a IH]; [discriminate |].
    change (String c a +:+ "_workflow_state")
      with (String c (a +:+ "_workflow_state")).
    intros [= H]. exact (IH H).
  - split; [apply append_cancel_r | now intros ->].
Qed.

(** * The properties at concrete inputs *)

Lemma import_needs_exactly_one_match_witness :
  strings.Split "Done:ENG" ":" = ["Done"; "ENG"] /\
  exists out m,
    ImportState echo_resource {| ImportStateRequest.ID := "Done:ENG" |}
      fresh_response world_done = Returned out /\
    calls out = [CallFind "Done" "ENG"] /\
    Diagnostics (response out) = [] /\
    State (response out) = Some m /\
    Id m = types.StringValue "state-" /\
    Name m = types.StringNull /\ Position m = types.NumberNull.
Proof.
  split; [reflexivity |].
  destruct (import_needs_exactly_one_match echo_resource
              {| ImportStateRequest.ID := "Done:ENG" |} fresh_response
              world_done world_done "Done" "ENG"
              (Ok {| findWorkflowStateResponse.WorkflowStates :=
                       {| findWorkflowStateResponse.Nodes :=
                            [{| findWorkflowStateResponse.Id := "state-" |}] |} |}))
    as (out & Hrun & _ & Hcalls & Hdiag & m & Hst & Hid & Hname & _ & _ & _ & Hpos & _).
  - reflexivity.
  - reflexivity.
  - discriminate.
  - discriminate.
  - vm_compute. reflexivity.
  - exists out, m.
    exact (conj Hrun (conj Hcalls (conj Hdiag (conj Hst (conj Hid (conj Hname Hpos)))))).
Defined.

Lemma import_rejects_malformed_identifier_witness :
  strings.Split ":ENG" ":" = [""; "ENG"] /\
  exists out,
    ImportState echo_resource {| ImportStateRequest.ID := ":ENG" |}
      fresh_response world_done = Returned out /\
    fails_with_identifier_error fresh_response (response out) /\
    calls out = [] /\ world out = world_done.
Proof.
  split; [reflexivity |].
  apply (import_rejects_malformed_identifier echo_resource
           {| ImportStateRequest.ID := ":ENG" |} fresh_response world_done);
    [reflexivity |].
  intros name teamKey E. vm_compute in E. injection E as <- _. now left.
Defined.

Lemma update_sends_and_refreshes_mutable_fields_witness :
  RequiresReplacePaths (Schema hexColorPattern uuidPattern)
    state_done plan_renamed = [] /\
  exists out m,
    Update echo_resource
      {| UpdateRequest.Plan := Some plan_renamed;
         UpdateRequest.State := Some state_done |}
      response_done world_done = Returned out /\
    calls out
    = [CallUpdate
         {| WorkflowStateUpdateInput.Name := "Finished";
            WorkflowStateUpdateInput.Color := "#5e6ad2";
            WorkflowStateUpdateInput.Description := Some "all done";
            WorkflowStateUpdateInput.Position :=
              Float64frombits false 1019 2702159776422298 |}
         "state-"] /\
    State (response out) = Some m /\
    Name m = types.StringValue "Finished" /\
    Type_ m = Type_ state_done /\ TeamId m = TeamId state_done.
Proof.
  assert (Hpaths : RequiresReplacePaths (Schema hexColorPattern uuidPattern)
                     state_done plan_renamed = [])
    by (vm_compute; reflexivity).
  split; [exact Hpaths |].
  edestruct (update_sends_and_refreshes_mutable_fields echo_resource
               hexColorPattern uuidPattern world_done
               (snd (Echo.update world_done
                       (update_input plan_renamed bf_tenth) "state-"))
               response_done plan_renamed state_done bf_tenth)
    as (out & m & Hrun & Hcalls & _ & Hst & Hname & _ & _ & _ & _ & _ & _
        & Hkeep & _).
  - reflexivity.
  - reflexivity.
  - vm_compute. reflexivity.
  - vm_compute. reflexivity.
  - destruct (Hkeep Hpaths) as [Htype Hteam].
    exists out, m.
    exact (conj Hrun (conj Hcalls (conj Hst (conj Hname (conj Htype Hteam))))).
Defined.

Lemma read_overwrites_or_fails_witness :
  Echo.records Echo.empty !! "state-" = None /\
  exists out,
    Read echo_resource {| ReadRequest.State := Some state_done |}
      response_done Echo.empty = Returned out /\
    calls out = [CallGet "state-"] /\
    fails_with_client_error response_done (response out) /\
    State (response out) = Some state_done.
Proof.
  split; [reflexivity |].
  edestruct (read_overwrites_or_fails echo_resource Echo.empty Echo.empty
               response_done state_done (Err "Entity not found"))
    as (out & Hrun & _ & Hcalls & Hfail & _).
  - reflexivity.
  - reflexivity.
  - discriminate.
  - exists out.
    exact (conj Hrun (conj Hcalls (conj Hfail (proj1 Hfail)))).
Defined.

Lemma remote_error_is_terminal_witness :
  (exists out,
     Create down_resource {| CreateRequest.Plan := Some plan_done |}
       fresh_response tt = Returned out /\
     fails_with_client_error fresh_response (response out) /\
     length (calls out) = 1%nat) /\
  (exists out,
     Read down_resource {| ReadRequest.State := Some state_imported |}
       fresh_response tt = Returned out /\
     fails_with_client_error fresh_response (response out) /\
     calls out = [CallGet "state-"]) /\
  (exists out,
     Update down_resource
       {| UpdateRequest.Plan := Some plan_done; UpdateRequest.State := None |}
       fresh_response tt = Returned out /\
     fails_with_client_error fresh_response (response out) /\
     length (calls out) = 1%nat) /\
  (exists out,
     Delete down_resource {| DeleteRequest.State := Some state_imported |}
       fresh_response tt = Returned out /\
     fails_with_client_error fresh_response (response out) /\
     calls out = [CallDelete "state-"]).
Proof.
  destruct (remote_error_is_terminal down_resource tt tt fresh_response
              plan_done "connection refused" eq_refl)
    as (Hc & _ & Hu & _).
  destruct (remote_error_is_terminal down_resource tt tt fresh_response
              state_imported "connection refused" eq_refl)
    as (_ & Hr & _ & Hd).
  split; [| split; [| split]].
  - destruct (Hc bf_one eq_refl eq_refl) as (out & Hrun & Hfail & Hcalls & _).
    exists out. rewrite Hcalls. exact (conj Hrun (conj Hfail eq_refl)).
  - destruct (Hr eq_refl) as (out & Hrun & Hfail & Hcalls & _).
    exists out. exact (conj Hrun (conj Hfail Hcalls)).
  - destruct (Hu bf_one None eq_refl eq_refl)
      as (out & Hrun & Hfail & Hcalls & _).
    exists out. rewrite Hcalls. exact (conj Hrun (conj Hfail eq_refl)).
  - destruct (Hd eq_refl) as (out & Hrun & Hfail & Hcalls & _).
    exists out. exact (conj Hrun (conj Hfail Hcalls)).
Defined.

Lemma validators_reject_malformed_input_witness :
  regexp.MatchString hexColorPattern "blue" = false /\
  regexp.MatchString uuidPattern "not-a-uuid" = false /\
  (exists ds,
     diag.HasError ds = true /\
     validated (Schema hexColorPattern uuidPattern) config_blue
       (Create echo_resource
          {| CreateRequest.Plan :=
               Some (plan_of config_blue types.StringUnknown) |}
          fresh_response) Echo.empty
     = Returned {| response := Rejected ds; world := Echo.empty;
                   calls := [] |}) /\
  (exists ds,
     diag.HasError ds = true /\
     validated (Schema hexColorPattern uuidPattern) config_no_uuid
       (Update echo_resource
          {| UpdateRequest.Plan :=
               Some (plan_of config_no_uuid (types.StringValue "state-"));
             UpdateRequest.State := Some state_done |}
          response_done) world_done
     = Returned {| response := Rejected ds; world := world_done;
                   calls := [] |}) /\
  (exists resp,
     validated (Schema hexColorPattern uuidPattern) config_done
       (Create echo_resource {| CreateRequest.Plan := Some plan_done |}
          fresh_response) Echo.empty
     = Returned {| response := Invoked resp;
                   world := snd (Echo.create Echo.empty
                                   (create_input plan_done bf_one));
                   calls := [CallCreate (create_input plan_done bf_one)] |}).
Proof.
  split; [reflexivity |]. split; [reflexivity |].
  split; [| split].
  - destruct (validators_reject_malformed_input echo_resource hexColorPattern
                uuidPattern Echo.empty config_blue "color" "blue")
      as (Herr & _ & Hstop).
    + right. right. left. repeat split.
    + eexists. split; [exact Herr |].
      exact (proj1 (Hstop _ {| UpdateRequest.Plan := None;
                               UpdateRequest.State := None |} _)).
  - destruct (validators_reject_malformed_input echo_resource hexColorPattern
                uuidPattern world_done config_no_uuid "team_id" "not-a-uuid")
      as (Herr & _ & Hstop).
    + right. right. right. repeat split.
    + eexists. split; [exact Herr |].
      exact (proj2 (Hstop {| CreateRequest.Plan := None |} _ _)).
  - eexists. vm_compute. reflexivity.
Defined.

Lemma create_then_read_returns_the_input_witness :
  snd (big.Float64 bf_one) = big.Exact /\
  exists out1 out2 m,
    Create echo_resource {| CreateRequest.Plan := Some plan_done |}
      fresh_response Echo.empty = Returned out1 /\
    Read echo_resource {| ReadRequest.State := State (response out1) |}
      fresh_response (world out1) = Returned out2 /\
    State (response out2) = Some m /\
    Name m = types.StringValue "Done" /\
    Type_ m = types.StringValue "completed" /\
    Color m = types.StringValue "#5e6ad2" /\
    Description m = types.StringNull /\
    TeamId m = types.StringValue "0b9e7d5c-3f2a-4c1b-8e6d-7a5f4c3b2a19" /\
    types.NumberEqual (Position m) (types.NumberValue bf_one) = true.
Proof.
  split; [reflexivity |].
  destruct (create_then_read_returns_the_input echo_resource
              hexColorPattern uuidPattern Echo.empty fresh_response
              fresh_response config_done types.StringUnknown bf_one)
    as (out1 & out2 & m & H1 & _ & H2 & _ & Hst & Hn & Ht & Hc & Hd & Htm & Hp).
  - exact Echo_api_echoes.
  - repeat split; try (eexists; reflexivity); try discriminate.
  - reflexivity.
  - reflexivity.
  - reflexivity.
  - reflexivity.
  - exists out1, out2, m.
    exact (conj H1 (conj H2 (conj Hst (conj Hn (conj Ht (conj Hc
             (conj Hd (conj Htm Hp)))))))).
Defined.

Lemma position_is_narrowed_silently_witness :
  big.Float64 bf_tenth
  = (Float64frombits false 1019 2702159776422298, big.Above) /\
  exists out input id,
    Update echo_resource
      {| UpdateRequest.Plan := Some plan_renamed;
         UpdateRequest.State := Some state_done |}
      response_done world_done = Returned out /\
    calls out = [CallUpdate input id] /\
    WorkflowStateUpdateInput.Position input
    = Float64frombits false 1019 2702159776422298 /\
    Diagnostics (response out) = [].
Proof.
  split; [vm_compute; reflexivity |].
  destruct (position_is_narrowed_silently echo_resource world_done
              (snd (Echo.update world_done (update_input plan_renamed bf_tenth)
                      "state-"))
              response_done plan_renamed bf_tenth eq_refl eq_refl)
    as (_ & Hupdate & _).
  edestruct (Hupdate (Some state_done)) as (out & input & id & Hrun & Hcalls & Hpos & Hdiag).
  - vm_compute. reflexivity.
  - intros answer [= <-]. vm_compute. reflexivity.
  - exists out, input, id.
    refine (conj Hrun (conj Hcalls (conj _ (Hdiag _ eq_refl)))).
    rewrite Hpos. vm_compute. reflexivity.
Defined.

Lemma create_takes_the_id_from_the_answer_witness :
  Id plan_done = types.StringUnknown /\
  exists out m,
    Create echo_resource {| CreateRequest.Plan := Some plan_done |}
      fresh_response Echo.empty = Returned out /\
    State (response out) = Some m /\
    Id m = types.StringValue "state-".
Proof.
  split; [reflexivity |].
  edestruct (create_takes_the_id_from_the_answer echo_resource Echo.empty
               (snd (Echo.create Echo.empty (create_input plan_done bf_one)))
               fresh_response plan_done bf_one)
    as (out & m & Hrun & _ & _ & Hst & Hid & _).
  - reflexivity.
  - reflexivity.
  - vm_compute. reflexivity.
  - vm_compute. reflexivity.
  - exists out, m. exact (conj Hrun (conj Hst Hid)).
Defined.

Lemma create_keeps_the_planned_team_witness :
  TeamId plan_done = types.StringValue "0b9e7d5c-3f2a-4c1b-8e6d-7a5f4c3b2a19" /\
  exists out m,
    Create echo_resource {| CreateRequest.Plan := Some plan_done |}
      fresh_response Echo.empty = Returned out /\
    State (response out) = Some m /\
    TeamId m = types.StringValue "0b9e7d5c-3f2a-4c1b-8e6d-7a5f4c3b2a19".
Proof.
  split; [reflexivity |].
  edestruct (create_keeps_the_planned_team echo_resource Echo.empty
               (snd (Echo.create Echo.empty (create_input plan_done bf_one)))
               fresh_response plan_done bf_one)
    as (out & m & Hrun & Hst & Hteam & _).
  - reflexivity.
  - reflexivity.
  - vm_compute. reflexivity.
  - vm_compute. reflexivity.
  - exists out, m. exact (conj Hrun (conj Hst Hteam)).
Defined.

Lemma error_on_entry_stops_the_invocation_witness :
  diag.HasError (Diagnostics response_failed) = true /\
  Create echo_resource {| CreateRequest.Plan := Some plan_done |}
    response_failed world_done
  = Returned {| response := response_failed; world := world_done; calls := [] |} /\
  Delete echo_resource {| DeleteRequest.State := None |}
    response_failed world_done
  = Returned {| response := response_failed; world := world_done; calls := [] |}.
Proof.
  split; [reflexivity |].
  destruct (error_on_entry_stops_the_invocation echo_resource world_done
              response_failed (Some plan_done) None None eq_refl)
    as (Hc & _ & _ & Hd).
  exact (conj Hc Hd).
Defined.

Lemma delete_success_leaves_the_response_witness :
  exists w',
    Echo.records w' !! "state-" = None /\
    Delete echo_resource {| DeleteRequest.State := Some state_done |}
      response_done world_done
    = Returned {| response := response_done; world := w';
                  calls := [CallDelete "state-"] |}.
Proof.
  exists (snd (Echo.delete world_done "state-")).
  split; [vm_compute; reflexivity |].
  apply (delete_success_leaves_the_response echo_resource world_done
           (snd (Echo.delete world_done "state-")) response_done state_done tt).
  - reflexivity.
  - vm_compute. reflexivity.
Defined.

Lemma diagnostics_only_grow_witness :
  In earlier_warning (Diagnostics response_warned) /\
  exists out,
    Read down_resource {| ReadRequest.State := Some state_done |}
      response_warned tt = Returned out /\
    In earlier_warning (Diagnostics (response out)) /\
    diag.HasError (Diagnostics (response out)) = true.
Proof.
  assert (Hin : In earlier_warning (Diagnostics response_warned))
    by (left; reflexivity).
  split; [exact Hin |].
  destruct (diagnostics_only_grow down_resource tt response_warned
              earlier_warning Hin) as (_ & Hread & _).
  assert (Hrun :
    Read down_resource {| ReadRequest.State := Some state_done |}
      response_warned tt
    = Returned {|
        response :=
          add_error response_warned "Client Error"
            (fmt.Sprintf "Unable to read workflow state, got error: %s"
               [fmt.ArgError (Some "connection refused")]);
        world := tt;
        calls := [CallGet "state-"] |})
    by (vm_compute; reflexivity).
  eexists. split; [exact Hrun |].
  split; [exact (Hread _ _ Hrun) | vm_compute; reflexivity].
Defined.

Lemma import_then_read_fills_the_state_witness :
  exists out1 out2,
    ImportState echo_resource {| ImportStateRequest.ID := "Done:ENG" |}
      fresh_response world_done = Returned out1 /\
    Read echo_resource {| ReadRequest.State := State (response out1) |}
      (response out1) (world out1) = Returned out2 /\
    State (response out2) = Some state_done.
Proof.
  edestruct (import_then_read_fills_the_state echo_resource
               {| ImportStateRequest.ID := "Done:ENG" |} fresh_response
               world_done world_done world_done "Done" "ENG"
               {| findWorkflowStateResponse.Id := "state-" |})
    as (out1 & out2 & H1 & H2 & _ & _ & Hst).
  - reflexivity.
  - reflexivity.
  - discriminate.
  - discriminate.
  - vm_compute. reflexivity.
  - vm_compute. reflexivity.
  - vm_compute. reflexivity.
  - exists out1, out2. exact (conj H1 (conj H2 Hst)).
Defined.

Lemma read_is_stable_witness :
  exists out1 out2,
    Read echo_resource {| ReadRequest.State := Some state_done |}
      response_done world_done = Returned out1 /\
    Read echo_resource {| ReadRequest.State := State (response out1) |}
      response_done (world out1) = Returned out2 /\
    State (response out2) = State (response out1).
Proof.
  eapply (read_is_stable echo_resource world_done world_done world_done
            response_done response_done state_done).
  - reflexivity.
  - reflexivity.
  - vm_compute. reflexivity.
  - vm_compute. reflexivity.
  - vm_compute. reflexivity.
Defined.

Lemma stored_position_is_sent_unchanged_witness :
  big.NewFloat (Float64frombits false 1023 0)
  = Some (big.Finite false (2 ^ 52) 1) /\
  exists out input,
    Update echo_resource
      {| UpdateRequest.Plan := Some state_done;
         UpdateRequest.State := Some state_done |}
      response_done world_done = Returned out /\
    calls out = [CallUpdate input "state-"] /\
    WorkflowStateUpdateInput.Position input = Float64frombits false 1023 0.
Proof.
  split; [vm_compute; reflexivity |].
  edestruct (stored_position_is_sent_unchanged echo_resource world_done
               (snd (Echo.update world_done
                       (update_input state_done (big.Finite false (2 ^ 52) 1))
                       "state-"))
               response_done state_done (Some state_done)
               (Float64frombits false 1023 0) (big.Finite false (2 ^ 52) 1))
    as (out & Hrun & Hcalls).
  - reflexivity.
  - vm_compute. repeat split; discriminate.
  - vm_compute. reflexivity.
  - reflexivity.
  - vm_compute. reflexivity.
  - intros answer [= <-]. vm_compute. reflexivity.
  - eexists out, _. exact (conj Hrun (conj Hcalls eq_refl)).
Defined.

